(** * WIB ("What's in the Box"): the session game engine of [wib_bot.py]

    A shallow embedding of the game engine: the seeded content generators,
    the trivia, ordering, card-deck and puzzle operations and box opening,
    each modelled as a function on the rows of one session's database.

    Conventions.
    - Python integers are [Z]; list indices and card indices are [nat].
    - Text is a [string] of 7-bit ASCII characters; the Python string
      methods are modelled on that range.
    - Every table of the schema is restricted to the rows of one
      (guild, channel) pair.  A table with one row per box (or per user,
      for the participants) is a [gmap Z _] on that key; a table read with
      [fetchall] is a list of rows, in the order the query returns them.
    - Columns that no query of the engine reads back (the creation and
      update times, the message ids) are left out of the rows.
    - [now_ms()] is an argument [now] of the operation that reads the clock.
    - An operation returns the database it leaves behind and an [outcome]:
      [Reply msg] is a [return] with that message, [Raised] an uncaught
      Python exception (the connection is closed without a commit), [Done]
      the normal end of the handler. *)

From Stdlib Require Import ZArith Lia Bool Ascii String DecimalString DecimalZ DecimalPos.
From Stdlib Require Import OrdersEx.
From stdpp Require Import gmap strings list sorting.

Local Open Scope Z_scope.

(** ** Python built-ins used by the engine *)

Section PySorted.
Context {A K : Type} (kle : K -> K -> bool) (key : A -> K).

(** [sort_insert x l] puts [x] in front of the first element whose key is
    not smaller: an element stays ahead of the later ones of equal key. *)
Fixpoint sort_insert (x : A) (l : list A) : list A :=
  match l with
  | [] => [x]
  | y :: l' => if kle (key x) (key y) then x :: y :: l' else y :: sort_insert x l'
  end.

(** [sorted(l, key=key)] and [l.sort(key=key)]: a stable sort. *)
Fixpoint py_sorted (l : list A) : list A :=
  match l with
  | [] => []
  | x :: l' => sort_insert x (py_sorted l')
  end.
End PySorted.

(** Lexicographic order of Python tuples [(a, b)] of integers. *)
Definition pair_leb (p q : Z * Z) : bool :=
  (p.1 <? q.1) || ((p.1 =? q.1) && (p.2 <=? q.2)).

Module PyStr.

Definition code (c : ascii) : Z := Z.of_nat (nat_of_ascii c).

(** [str.isspace] on ASCII: tab to carriage return, the four separators
    28..31 and the space. *)
Definition is_space (c : ascii) : bool :=
  ((9 <=? code c) && (code c <=? 13)) || ((28 <=? code c) && (code c <=? 32)).

Fixpoint lstrip (s : string) : string :=
  match s with
  | EmptyString => EmptyString
  | String c s' => if is_space c then lstrip s' else s
  end.

Fixpoint rstrip (s : string) : string :=
  match s with
  | EmptyString => EmptyString
  | String c s' =>
      match rstrip s' with
      | EmptyString => if is_space c then EmptyString else String c EmptyString
      | r => String c r
      end
  end.

(** [s.strip()] *)
Definition strip (s : string) : string := lstrip (rstrip s).

Definition upper_char (c : ascii) : ascii :=
  if (97 <=? code c) && (code c <=? 122)
  then ascii_of_nat (nat_of_ascii c - 32) else c.

(** [s.upper()] *)
Fixpoint upper (s : string) : string :=
  match s with
  | EmptyString => EmptyString
  | String c s' => String (upper_char c) (upper s')
  end.

Fixpoint filter_chars (keep : ascii -> bool) (s : string) : string :=
  match s with
  | EmptyString => EmptyString
  | String c s' =>
      if keep c then String c (filter_chars keep s') else filter_chars keep s'
  end.

(** [re.sub(r"\s+", " ", s)]: [in_run] tells that the previous character
    was white space, already replaced. *)
Fixpoint collapse_ws (in_run : bool) (s : string) : string :=
  match s with
  | EmptyString => EmptyString
  | String c s' =>
      if is_space c
      then (if in_run then collapse_ws true s' else String " "%char (collapse_ws true s'))
      else String c (collapse_ws false s')
  end.

(** [sub in s] *)
Fixpoint contains (sub s : string) : bool :=
  String.prefix sub s ||
  match s with
  | EmptyString => false
  | String _ s' => contains sub s'
  end.

(** [str(n)] *)
Definition of_Z (n : Z) : string := NilZero.string_of_int (Z.to_int n).

(** [sep.join(l)] *)
Fixpoint join (sep : string) (l : list string) : string :=
  match l with
  | [] => ""
  | [x] => x
  | x :: l' => x +:+ sep +:+ join sep l'
  end.

Definition lookup_field (env : list (string * string)) (name : string) : string :=
  match List.find (fun p => String.eqb p.1 name) env with
  | Some p => p.2
  | None => ""
  end.

(** [tpl.format] with keyword arguments [env], for templates whose only
    braces are named fields [{name}]; [field] holds the name being read. *)
Fixpoint format (env : list (string * string)) (field : option string) (tpl : string) : string :=
  match tpl with
  | EmptyString => EmptyString
  | String c tpl' =>
      match field with
      | None =>
          if Ascii.eqb c "{" then format env (Some EmptyString) tpl'
          else String c (format env None tpl')
      | Some name =>
          if Ascii.eqb c "}" then lookup_field env name +:+ format env None tpl'
          else format env (Some (name +:+ String c EmptyString)) tpl'
      end
  end.

(** [ord(s)] of a one-character string; Python raises [TypeError] on any
    other length. *)
Definition ord (s : string) : option Z :=
  match s with
  | String c EmptyString => Some (code c)
  | _ => None
  end.

(** [chr(n)] *)
Definition chr (n : Z) : string := String (ascii_of_nat (Z.to_nat n)) EmptyString.

Definition newline : string := String (ascii_of_nat 10) EmptyString.

End PyStr.

(** [norm_word]: trim, upper-case, drop every character outside
    [A-Z0-9 ], collapse white space, trim again. *)
Definition norm_word (w : string) : string :=
  let w := PyStr.upper (PyStr.strip w) in
  let keep c :=
    let n := PyStr.code c in
    ((65 <=? n) && (n <=? 90)) || ((48 <=? n) && (n <=? 57)) || (n =? 32) in
  let w := PyStr.filter_chars keep w in
  PyStr.strip (PyStr.collapse_ws false w).


(** ** Python's [random.Random]

    The generator is the standard library's, not the bot's: the engine is
    modelled over its interface.  [seeded x] is [random.Random(x)],
    [randbelow n] the draw [_randbelow(n)] behind [choice], [randint] and
    [shuffle], and [weighted_index ws] the position that
    [choices(_, weights=ws)] picks.  Each draw returns the next state of
    the generator. *)
Class RandomStream (R : Type) := {
  seeded : Z -> R;
  randbelow : nat -> R -> nat * R;
  weighted_index : list Z -> R -> nat * R;
  randbelow_lt : forall n g, (0 < n)%nat -> ((randbelow n g).1 < n)%nat;
  weighted_index_lt : forall ws g, ws <> [] -> ((weighted_index ws g).1 < length ws)%nat
}.

Section PyRandom.
Context {R : Type} `{!RandomStream R}.

(** [rng.choice(seq)] *)
Definition choice {A} `{!Inhabited A} (seq : list A) (g : R) : A * R :=
  let '(i, g) := randbelow (length seq) g in (seq !!! i, g).

(** [rng.randint(a, b)] *)
Definition randint (a b : Z) (g : R) : Z * R :=
  let '(i, g) := randbelow (Z.to_nat (b - a + 1)) g in (a + Z.of_nat i, g).

(** [rng.choices(population, weights=ws)[0]] *)
Definition choices1 {A} `{!Inhabited A} (population : list A) (ws : list Z) (g : R) : A * R :=
  let '(i, g) := weighted_index ws g in (population !!! i, g).

(** [x[i], x[j] = x[j], x[i]] *)
Definition swap {A} (x : list A) (i j : nat) : list A :=
  match x !! i, x !! j with
  | Some xi, Some xj => <[j := xi]> (<[i := xj]> x)
  | _, _ => x
  end.

(** The loop of [shuffle]: [for i in reversed(range(1, n + 1))]. *)
Fixpoint shuffle_from {A} (n : nat) (x : list A) (g : R) : list A * R :=
  match n with
  | O => (x, g)
  | S n' =>
      let '(j, g) := randbelow (S n) g in
      shuffle_from n' (swap x n j) g
  end.

(** [rng.shuffle(x)] *)
Definition shuffle {A} (x : list A) (g : R) : list A * R :=
  shuffle_from (length x - 1) x g.

End PyRandom.

(** ** Session-unique content generation (seeded) *)

Definition NUMERIC_TEMPLATES : list string := [
  "Box {box}: Using seed {seed}, compute: (seed % 97) + (players * {k}). Answer as an integer.";
  "Box {box}: Take seed {seed}. Compute: (seed % 100) - {k} + (players * 2). Answer as an integer.";
  "Box {box}: Let N be number of registered players ({players}). Compute: (seed % 89) + N + {k}.";
  "Box {box}: Compute: (seed % 73) + ({k} * players) - (box * 3)."
].

Definition ORDER_TEMPLATES : list string := [
  "Arrange these five deliveries from earliest to latest (1 to 5):";
  "Arrange these five values from smallest to largest (1 to 5):";
  "Arrange these five checkpoints from first to last (1 to 5):"
].

Definition WORD_BANK_1 : list string :=
  ["ONE"; "SILVER"; "MIDNIGHT"; "BRIGHT"; "HIDDEN"; "GOLDEN"; "QUIET"; "FIRST"; "SOFT"; "BLUE"; "CRISP"; "FAIR"].
Definition WORD_BANK_2 : list string :=
  ["FINE"; "STILL"; "COLD"; "TRUE"; "SMALL"; "WILD"; "GREEN"; "DARK"; "CLEAR"; "LAST"; "SWEET"; "SHARP"].
Definition WORD_BANK_3 : list string :=
  ["AFTERNOON"; "MORNING"; "HORIZON"; "PROMISE"; "WHISPER"; "GARDEN"; "LANTERN"; "SUNRISE"; "MOONLIGHT"; "COMPASS"; "VICTORY"; "FIRELIGHT"].

(** The strings that name a card type, a pending action or a wildcard
    effect. *)
Inductive tag := PIECE | PASS | STEAL | DONATE | WILDCARD | BONUS_TURN.

(** The value of a card's ["reveal"] entry. *)
Inductive word_ref := W1 | W2 | W3.

(** A card of the deck: [{"type": t}] or [{"type": "PIECE", "reveal": w}]. *)
Record card := Card { c_type : tag; c_reveal : option word_ref }.

#[global] Instance tag_eq_dec : EqDecision tag.
Proof. solve_decision. Defined.
#[global] Instance word_ref_eq_dec : EqDecision word_ref.
Proof. solve_decision. Defined.
#[global] Instance card_eq_dec : EqDecision card.
Proof. solve_decision. Defined.
#[global] Instance tag_inhabited : Inhabited tag := populate PIECE.
#[global] Instance word_ref_inhabited : Inhabited word_ref := populate W1.

Section Generators.
Context {R : Type} `{!RandomStream R}.

Definition gen_numeric_question (seed box_id player_count : Z) : string * Z :=
  let rng := seeded (seed * 100 + box_id * 7 + player_count) in
  let '(tpl, rng) := choice NUMERIC_TEMPLATES rng in
  let '(k, rng) := randint 3 11 rng in
  let ans :=
    if PyStr.contains "seed % 97" tpl then seed mod 97 + player_count * k
    else if PyStr.contains "seed % 100" tpl then seed mod 100 - k + player_count * 2
    else if PyStr.contains "seed % 89" tpl then seed mod 89 + player_count + k
    else seed mod 73 + k * player_count - box_id * 3 in
  let q :=
    PyStr.format [("seed", PyStr.of_Z seed); ("box", PyStr.of_Z box_id);
                  ("players", PyStr.of_Z player_count); ("k", PyStr.of_Z k)] None tpl in
  (q, ans).

(** [while v in values: v = rng.randint(10, 99)], at most [fuel] redraws. *)
Fixpoint redraw (fuel : nat) (values : list Z) (v : Z) (rng : R) : option (Z * R) :=
  if bool_decide (v ∈ values) then
    match fuel with
    | O => None
    | S fuel' => let '(v', rng) := randint 10 99 rng in redraw fuel' values v' rng
    end
  else Some (v, rng).

(** The body of [for i in range(5)], for [i] from [5 - n] on. *)
Fixpoint order_items (fuel : nat) (n : nat) (i : Z) (items : list string) (values : list Z) (rng : R)
  : option (list string * list Z * R) :=
  match n with
  | O => Some (items, values, rng)
  | S n' =>
      let '(v, rng) := randint 10 99 rng in
      '(v, rng) ← redraw fuel values v rng;
      let item :=
        PyStr.chr (65 + i) +:+ ": Item " +:+ PyStr.of_Z (i + 1) +:+ " (" +:+ PyStr.of_Z v +:+ ")" in
      order_items fuel n' (i + 1) (items ++ [item]) (values ++ [v]) rng
  end.

(** [list(enumerate(values))] *)
Definition enumerate {A} (l : list A) : list (Z * A) :=
  zip (Z.of_nat <$> seq 0 (length l)) l.

(** [None] when a redraw loop has not ended after [fuel] draws. *)
Definition gen_order_question (fuel : nat) (seed box_id : Z)
  : option (string * list string * list Z) :=
  let rng := seeded (seed * 200 + box_id * 19) in
  let '(mode, rng) := choice ORDER_TEMPLATES rng in
  '(items, values, rng) ← order_items fuel 5 0 [] [] rng;
  let sorted_pairs :=
    if PyStr.contains "earliest" mode || PyStr.contains "first to last" mode
    then py_sorted Z.leb snd (enumerate values)
    else py_sorted Z.leb snd (enumerate values) in
  let correct_indices := fst <$> sorted_pairs in
  let prompt :=
    "Box " +:+ PyStr.of_Z box_id +:+ ": " +:+ mode +:+ PyStr.newline +:+
    PyStr.join PyStr.newline items +:+ PyStr.newline +:+ PyStr.newline +:+
    "Submit with: /wib order A B C D E" in
  Some (prompt, items, correct_indices).

Definition piece (w : word_ref) : card := Card PIECE (Some w).

(** The seven weighted draws of a deck: [other t] is the card appended for
    a type [t] that is not ["PIECE"]. *)
Fixpoint draw_cards (n : nat) (types : list tag) (ws : list Z) (other : tag -> card)
  (deck : list card) (rng : R) : list card * R :=
  match n with
  | O => (deck, rng)
  | S n' =>
      let '(t, rng) := choices1 types ws rng in
      if decide (t = PIECE) then
        let '(w, rng) := choice [W1; W2; W3] rng in
        draw_cards n' types ws other (deck ++ [piece w]) rng
      else draw_cards n' types ws other (deck ++ [other t]) rng
  end.

Definition gen_phrase_and_deck (seed box_id : Z) : (string * string * string) * list card :=
  let rng := seeded (seed * 300 + box_id * 31) in
  let '(w1, rng) := choice WORD_BANK_1 rng in
  let '(w2, rng) := choice WORD_BANK_2 rng in
  let '(w3, rng) := choice WORD_BANK_3 rng in
  let phrase := (w1, w2, w3) in
  let deck := [piece W1; piece W2; piece W3] in
  let remaining := 7%nat in
  let '(deck, rng) :=
    if decide (box_id = 1) then
      draw_cards remaining [PIECE; PASS] [7; 3] (fun _ => Card PASS None) deck rng
    else if decide (2 <= box_id <= 5) then
      draw_cards remaining [PIECE; PASS; STEAL] [6; 2; 2] (fun t => Card t None) deck rng
    else
      draw_cards remaining [PIECE; PASS; STEAL; DONATE; WILDCARD] [5; 2; 2; 2; 1]
        (fun t => Card t None) deck rng in
  let '(deck, rng) := shuffle deck rng in
  (phrase, deck).

End Generators.

(** ** The database of one session *)

Record session := Session {
  session_seed : Z;
  is_locked : bool;
  current_box : Z;
  opened_boxes_count : Z;
  eliminations_unlocked : bool
}.

(** [participants], keyed by [user_id]. *)
Record participant := Participant { display_name : string; eliminated : bool }.

(** [prizes], keyed by [box_id]. *)
Record prize := Prize { title : option string; description : option string }.

(** [box_secrets], keyed by [box_id]; [revealed] is [set(revealed_json)]. *)
Record box_secret := BoxSecret {
  phrase_w1 : string;
  phrase_w2 : string;
  phrase_w3 : string;
  deck : list card;
  revealed : gset nat
}.

(** [trivia_rounds], keyed by [box_id]. *)
Record trivia_round := TriviaRound { q_text : string; answer_int : Z; tr_is_active : bool }.

Record trivia_submission := TriviaSubmission {
  ts_box_id : Z;
  ts_user_id : Z;
  value_int : Z;
  ts_submitted_at_ms : Z
}.

(** [order_rounds], keyed by [box_id]. *)
Record order_round := OrderRound {
  or_slot_user_id : Z;
  or_prompt : string;
  or_items : list string;
  correct_order : list Z;
  or_is_active : bool
}.

(** [slot_state], keyed by [box_id]. *)
Record slot := Slot {
  slot_user_id : option Z;
  turns_left : Z;
  pending_action : option tag
}.

Record puzzle_attempt := PuzzleAttempt {
  pa_box_id : Z;
  attempt_id : Z;
  pa_user_id : Z;
  g1 : string;
  g2 : string;
  g3 : string;
  pa_submitted_at_ms : Z;
  checked : bool;
  score_positions : Z
}.

Record db := Db {
  sessions : option session;
  participants : gmap Z participant;
  prizes : gmap Z prize;
  box_ownership : gmap Z Z;
  box_secrets : gmap Z box_secret;
  trivia_rounds : gmap Z trivia_round;
  trivia_submissions : list trivia_submission;
  order_rounds : gmap Z order_round;
  slot_state : gmap Z slot;
  puzzle_attempts : list puzzle_attempt
}.

Definition with_sessions (v : option session) (d : db) : db :=
  Db v (participants d) (prizes d) (box_ownership d) (box_secrets d) (trivia_rounds d)
     (trivia_submissions d) (order_rounds d) (slot_state d) (puzzle_attempts d).
Definition with_box_ownership (f : gmap Z Z -> gmap Z Z) (d : db) : db :=
  Db (sessions d) (participants d) (prizes d) (f (box_ownership d)) (box_secrets d)
     (trivia_rounds d) (trivia_submissions d) (order_rounds d) (slot_state d) (puzzle_attempts d).
Definition with_box_secrets (f : gmap Z box_secret -> gmap Z box_secret) (d : db) : db :=
  Db (sessions d) (participants d) (prizes d) (box_ownership d) (f (box_secrets d))
     (trivia_rounds d) (trivia_submissions d) (order_rounds d) (slot_state d) (puzzle_attempts d).
Definition with_trivia_rounds (f : gmap Z trivia_round -> gmap Z trivia_round) (d : db) : db :=
  Db (sessions d) (participants d) (prizes d) (box_ownership d) (box_secrets d)
     (f (trivia_rounds d)) (trivia_submissions d) (order_rounds d) (slot_state d) (puzzle_attempts d).
Definition with_order_rounds (f : gmap Z order_round -> gmap Z order_round) (d : db) : db :=
  Db (sessions d) (participants d) (prizes d) (box_ownership d) (box_secrets d)
     (trivia_rounds d) (trivia_submissions d) (f (order_rounds d)) (slot_state d) (puzzle_attempts d).
Definition with_slot_state (f : gmap Z slot -> gmap Z slot) (d : db) : db :=
  Db (sessions d) (participants d) (prizes d) (box_ownership d) (box_secrets d)
     (trivia_rounds d) (trivia_submissions d) (order_rounds d) (f (slot_state d)) (puzzle_attempts d).
Definition with_puzzle_attempts (f : list puzzle_attempt -> list puzzle_attempt) (d : db) : db :=
  Db (sessions d) (participants d) (prizes d) (box_ownership d) (box_secrets d)
     (trivia_rounds d) (trivia_submissions d) (order_rounds d) (slot_state d) (f (puzzle_attempts d)).

Inductive outcome (A : Type) :=
  | Reply (msg : string)
  | Raised (exn : string)
  | Done (a : A).
Arguments Reply {A} msg.
Arguments Raised {A} exn.
Arguments Done {A} a.

(** [is_registered] *)
Definition is_registered (d : db) (user_id : Z) : bool :=
  match participants d !! user_id with
  | Some p => negb (eliminated p)
  | None => false
  end.

(** ** Trivia *)

(** The rows [compute_trivia_outcome] selects. *)
Definition box_submissions (d : db) (box_id : Z) : list trivia_submission :=
  filter (fun r => ts_box_id r = box_id) (trivia_submissions d).

Definition compute_trivia_outcome (d : db) (box_id correct : Z) : option (Z * Z * bool) :=
  let subs := box_submissions d box_id in
  match subs with
  | [] => None
  | _ =>
      let exacts := filter (fun r => value_int r = correct) subs in
      match py_sorted Z.leb ts_submitted_at_ms exacts with
      | top :: _ => Some (ts_user_id top, value_int top, true)
      | [] =>
          let scored :=
            (fun r => (Z.abs (value_int r - correct), ts_submitted_at_ms r, r)) <$> subs in
          match py_sorted pair_leb (fun t => (t.1.1, t.1.2)) scored with
          | t :: _ => let top := t.2 in Some (ts_user_id top, value_int top, false)
          | [] => None
          end
      end
  end.

Definition deactivate_trivia (tr : trivia_round) : trivia_round :=
  TriviaRound (q_text tr) (answer_int tr) false.

(** [/wib reveal]: the host reveals the winner and assigns the slot. *)
Definition reveal (host : bool) (d : db) : db * outcome (Z * Z * bool) :=
  if negb host then (d, Reply "Host permission required.") else
  match sessions d with
  | None => (d, Reply "No active locked session.")
  | Some sess =>
      if negb (is_locked sess) then (d, Reply "No active locked session.") else
      let box_id := current_box sess in
      match trivia_rounds d !! box_id with
      | None => (d, Reply "No active question.")
      | Some tr =>
          if negb (tr_is_active tr) then (d, Reply "No active question.") else
          let correct := answer_int tr in
          let outcome := compute_trivia_outcome d box_id correct in
          let winner_id := (fun o => o.1.1) <$> outcome in
          let d := with_trivia_rounds (alter deactivate_trivia box_id) d in
          let d := with_slot_state <[box_id := Slot winner_id 0 None]> d in
          match outcome with
          | Some o =>
              if bool_decide (o.1.1 = 0) then (d, Reply "No submissions. No slot assigned.")
              else (d, Done o)
          | None => (d, Reply "No submissions. No slot assigned.")
          end
      end
  end.

(** ** Ordering *)

Definition LABELS : list string := ["A"; "B"; "C"; "D"; "E"].

(** [sum(1 for i in range(5) if submitted_indices[i] == correct[i])];
    [None] is the [IndexError] of a list shorter than five. *)
Definition order_turns (submitted_indices correct : list Z) : option Z :=
  foldr
    (fun i acc =>
       s ← submitted_indices !! i;
       c ← correct !! i;
       n ← acc;
       Some (if bool_decide (s = c) then 1 + n else n))
    (Some 0) (seq 0 5).

Definition deactivate_order (o : order_round) : order_round :=
  OrderRound (or_slot_user_id o) (or_prompt o) (or_items o) (correct_order o) false.

Definition award_turns (turns : Z) (s : slot) : slot :=
  Slot (slot_user_id s) turns None.

(** [/wib order a b c d e]: the slot holder submits the order. *)
Definition order (user_id : Z) (a b c d e : string) (st : db) : db * outcome Z :=
  let letters := [a; b; c; d; e] in
  let letters := (fun x => PyStr.upper (PyStr.strip x)) <$> letters in
  if negb (bool_decide (py_sorted String.leb id letters = LABELS))
  then (st, Reply "Invalid order. Use each of A B C D E exactly once.") else
  match sessions st with
  | None => (st, Reply "No active locked session.")
  | Some sess =>
      if negb (is_locked sess) then (st, Reply "No active locked session.") else
      let box_id := current_box sess in
      match order_rounds st !! box_id with
      | None => (st, Reply "No active arrange question.")
      | Some orow =>
          if negb (or_is_active orow) then (st, Reply "No active arrange question.") else
          let slot_user_id := or_slot_user_id orow in
          if negb (bool_decide (user_id = slot_user_id))
          then (st, Reply "Only the current slot holder may answer.") else
          let correct := correct_order orow in
          match mapM (fun x => (fun n => n - 65) <$> PyStr.ord x) letters with
          | None => (st, Raised "TypeError")
          | Some submitted_indices =>
              match order_turns submitted_indices correct with
              | None => (st, Raised "IndexError")
              | Some turns =>
                  let st := with_order_rounds (alter deactivate_order box_id) st in
                  let st := with_slot_state (alter (award_turns turns) box_id) st in
                  (st, Done turns)
              end
          end
      end
  end.

(** ** Card deck *)

(** What a reveal announces. *)
Inductive card_effect :=
  | PieceRevealed (word : string) (turns_left : Z)
  | SpecialRevealed (action : tag)
  | WildcardBonus (turns_left : Z)
  | WildcardResolved (chosen : tag)
  | NothingRevealed.

Definition set_revealed (r : gset nat) (s : box_secret) : box_secret :=
  BoxSecret (phrase_w1 s) (phrase_w2 s) (phrase_w3 s) (deck s) r.
Definition set_turns_left (t : Z) (s : slot) : slot :=
  Slot (slot_user_id s) t (pending_action s).
Definition set_pending_action (p : option tag) (s : slot) : slot :=
  Slot (slot_user_id s) (turns_left s) p.

Section CardDeck.
Context {R : Type} `{!RandomStream R}.

(** [CardButton.callback]: [user_id] presses the button of card [idx];
    [g] is the process-wide generator of the [random] module, which
    [random.choice] draws from. *)
Definition CardButton_callback (user_id : Z) (idx : nat) (g : R) (d : db)
  : db * R * outcome card_effect :=
  match sessions d with
  | None => (d, g, Reply "No session.")
  | Some sess =>
      let box_id := current_box sess in
      match slot_state d !! box_id with
      | None => (d, g, Reply "No active slot holder.")
      | Some slot =>
          match slot_user_id slot with
          | None => (d, g, Reply "No active slot holder.")
          | Some holder =>
              if negb (bool_decide (holder = user_id))
              then (d, g, Reply "Only the current slot holder can reveal cards.") else
              if bool_decide (turns_left slot <= 0) then (d, g, Reply "No turns remaining.") else
              if bool_decide (is_Some (pending_action slot))
              then (d, g, Reply "A special action is pending. Wait for the host.") else
              match box_secrets d !! box_id with
              | None => (d, g, Reply "Box deck not found.")
              | Some row =>
                  if bool_decide (idx ∈ revealed row)
                  then (d, g, Reply "That card is already revealed.") else
                  match deck row !! idx with
                  | None => (d, g, Raised "IndexError")
                  | Some card =>
                      let revealed := {[idx]} ∪ revealed row in
                      let turns_left := turns_left slot - 1 in
                      let d1 := with_box_secrets (alter (set_revealed revealed) box_id) d in
                      let d1 := with_slot_state (alter (set_turns_left turns_left) box_id) d1 in
                      let '(d1, g, pending_action, effect) :=
                        if decide (c_type card = PIECE) then
                          let word :=
                            if decide (c_reveal card = Some W1) then phrase_w1 row
                            else if decide (c_reveal card = Some W2) then phrase_w2 row
                            else phrase_w3 row in
                          (d1, g, None, PieceRevealed word turns_left)
                        else if decide (c_type card ∈ [PASS; STEAL; DONATE]) then
                          (d1, g, Some (c_type card), SpecialRevealed (c_type card))
                        else if decide (c_type card = WILDCARD) then
                          let effects := [PASS; STEAL; BONUS_TURN] in
                          let effects := if decide (box_id = 6) then effects ++ [DONATE] else effects in
                          let '(chosen, g) := choice effects g in
                          if decide (chosen = BONUS_TURN) then
                            let turns_left := Z.min 5 (turns_left + 1) in
                            (with_slot_state (alter (set_turns_left turns_left) box_id) d1,
                             g, None, WildcardBonus turns_left)
                          else (d1, g, Some chosen, WildcardResolved chosen)
                        else (d1, g, None, NothingRevealed) in
                      let d1 :=
                        match pending_action with
                        | Some p => with_slot_state (alter (set_pending_action (Some p)) box_id) d1
                        | None => d1
                        end in
                      (d1, g, Done effect)
                  end
              end
          end
      end
  end.

End CardDeck.

(** ** Puzzle *)

(** [SubmitPuzzleView.submit_puzzle]: the button that opens the puzzle
    form; [Done] when the form is sent. *)
Definition SubmitPuzzleView_submit_puzzle (box_id user_id : Z) (d : db) : db * outcome unit :=
  match slot_state d !! box_id with
  | None => (d, Reply "Only the current slot holder can submit.")
  | Some slot =>
      match slot_user_id slot with
      | None => (d, Reply "Only the current slot holder can submit.")
      | Some holder =>
          if negb (bool_decide (holder = user_id))
          then (d, Reply "Only the current slot holder can submit.")
          else (d, Done ())
      end
  end.

Definition box_attempts (d : db) (box_id : Z) : list puzzle_attempt :=
  filter (fun a => pa_box_id a = box_id) (puzzle_attempts d).

(** [SELECT COALESCE(MAX(attempt_id), 0)] *)
Definition max_attempt_id (d : db) (box_id : Z) : Z :=
  foldr Z.max 0 (attempt_id <$> box_attempts d box_id).

(** [PuzzleModal.on_submit]: the form is submitted with the three words;
    the result is the new attempt's id. *)
Definition PuzzleModal_on_submit (box_id user_id : Z) (w1 w2 w3 : string) (now : Z) (d : db)
  : db * outcome Z :=
  let '(g1, g2, g3) := (norm_word w1, norm_word w2, norm_word w3) in
  let mx := max_attempt_id d box_id in
  let attempt_id := mx + 1 in
  let d :=
    with_puzzle_attempts
      (fun rows => rows ++ [PuzzleAttempt box_id attempt_id user_id g1 g2 g3 now false 0]) d in
  (d, Done attempt_id).

(** The whole submission of a guess: the button, then the form. *)
Definition submit_puzzle_guess (box_id user_id : Z) (w1 w2 w3 : string) (now : Z) (d : db)
  : db * outcome Z :=
  match SubmitPuzzleView_submit_puzzle box_id user_id d with
  | (d, Done _) => PuzzleModal_on_submit box_id user_id w1 w2 w3 now d
  | (d, Reply msg) => (d, Reply msg)
  | (d, Raised exn) => (d, Raised exn)
  end.

Definition compute_puzzle_position_score (correct_words guess_words : string * string * string) : Z :=
  let at_ (w : string * string * string) (i : nat) : string :=
    match i with O => w.1.1 | S O => w.1.2 | _ => w.2 end in
  foldr (fun i n => if bool_decide (at_ correct_words i = at_ guess_words i) then 1 + n else n)
        0 (seq 0 3).

Definition guess (a : puzzle_attempt) : string * string * string := (g1 a, g2 a, g3 a).

Definition next_closest_puzzle_attempt (d : db) (box_id : Z)
  (correct_words : string * string * string) (exclude_attempt_id : Z) : option puzzle_attempt :=
  let attempts :=
    filter (fun a => checked a = false /\ attempt_id a <> exclude_attempt_id) (box_attempts d box_id) in
  match attempts with
  | [] => None
  | _ =>
      let scored :=
        (fun a => (compute_puzzle_position_score correct_words (guess a), pa_submitted_at_ms a, a))
          <$> attempts in
      match py_sorted pair_leb (fun t => (- t.1.1, t.1.2)) scored with
      | t :: _ => Some t.2
      | [] => None
      end
  end.

(** [... WHERE checked=0 ORDER BY attempt_id DESC LIMIT 1] *)
Definition latest_unchecked (d : db) (box_id : Z) : option puzzle_attempt :=
  head (py_sorted Z.geb attempt_id (filter (fun a => checked a = false) (box_attempts d box_id))).

Definition mark_checked (box_id id score : Z) (a : puzzle_attempt) : puzzle_attempt :=
  if bool_decide (pa_box_id a = box_id /\ attempt_id a = id)
  then PuzzleAttempt (pa_box_id a) (attempt_id a) (pa_user_id a) (g1 a) (g2 a) (g3 a)
         (pa_submitted_at_ms a) true score
  else a.

Definition clear_slot (s : slot) : slot := Slot (slot_user_id s) 0 None.
Definition pass_slot (user_id : Z) (s : slot) : slot := Slot (Some user_id) 0 None.

(** What [check_puzzle] announces: solved, or the score and the next slot
    holder if there is one. *)
Inductive check_result :=
  | Solved
  | NotSolved (score : Z) (next : option Z).

(** [/wib check_puzzle]: the host checks the latest unchecked attempt. *)
Definition check_puzzle (host : bool) (d : db) : db * outcome check_result :=
  if negb host then (d, Reply "Host permission required.") else
  match sessions d with
  | None => (d, Reply "No session.")
  | Some sess =>
      let box_id := current_box sess in
      match box_secrets d !! box_id with
      | None => (d, Reply "Box secret not found.")
      | Some secret =>
          let correct := (phrase_w1 secret, phrase_w2 secret, phrase_w3 secret) in
          match latest_unchecked d box_id with
          | None => (d, Reply "No pending puzzle attempts.")
          | Some attempt =>
              let score := compute_puzzle_position_score correct (guess attempt) in
              let solved := bool_decide (score = 3) in
              let d := with_puzzle_attempts (fmap (mark_checked box_id (attempt_id attempt) score)) d in
              if solved then (with_slot_state (alter clear_slot box_id) d, Done Solved) else
              match next_closest_puzzle_attempt d box_id correct (attempt_id attempt) with
              | Some nxt =>
                  (with_slot_state (alter (pass_slot (pa_user_id nxt)) box_id) d,
                   Done (NotSolved score (Some (pa_user_id nxt))))
              | None => (d, Done (NotSolved score None))
              end
          end
      end
  end.

(** ** Box opening *)

Section Boxes.
Context {R : Type} `{!RandomStream R}.

Definition ensure_box_secret (seed box_id : Z) (d : db) : db :=
  match box_secrets d !! box_id with
  | Some _ => d
  | None =>
      let '(phrase, deck) := gen_phrase_and_deck seed box_id in
      let d := with_box_secrets <[box_id := BoxSecret phrase.1.1 phrase.1.2 phrase.2 deck ∅]> d in
      with_slot_state
        (fun m => match m !! box_id with Some _ => m | None => <[box_id := Slot None 0 None]> m end) d
  end.

(** The rows [open_box] looks for: checked attempts of the box with all
    three words in place. *)
Definition solved_attempts (d : db) (box_id : Z) : list puzzle_attempt :=
  filter (fun a => checked a = true /\ score_positions a = 3) (box_attempts d box_id).

(** [/wib open_box]: [owner] tells that the caller is the bot's owner,
    [in_text_channel] that the command came from a text channel.  The
    result is the box opened and its new owner; [Reply "Fill Prize"] is
    the prize form, sent instead when the prize has no title yet. *)
Definition open_box (owner : bool) (caller : Z) (in_text_channel : bool) (d : db)
  : db * outcome (Z * Z) :=
  if negb owner then (d, Reply "Owner permission required.") else
  match sessions d with
  | None => (d, Reply "No session.")
  | Some sess =>
      let box_id := current_box sess in
      match solved_attempts d box_id with
      | [] => (d, Reply "Box is not ready yet (puzzle not confirmed).")
      | _ =>
          let solver := head (py_sorted Z.geb attempt_id (solved_attempts d box_id)) in
          let solver_id := from_option pa_user_id caller solver in
          let prize := prizes d !! box_id in
          let title := default EmptyString (prize ≫= title) in
          if bool_decide (PyStr.strip title = EmptyString) then (d, Reply "Fill Prize") else
          let d := with_box_ownership <[box_id := solver_id]> d in
          let opened_boxes_count := opened_boxes_count sess + 1 in
          let next_box := Z.min 6 (box_id + 1) in
          let eliminations_unlocked :=
            if bool_decide (opened_boxes_count >= 3) then true else eliminations_unlocked sess in
          let d :=
            with_sessions
              (Some (Session (session_seed sess) (is_locked sess) next_box opened_boxes_count
                       eliminations_unlocked)) d in
          let d :=
            if in_text_channel && bool_decide (box_id < 6)
            then ensure_box_secret (session_seed sess) (box_id + 1) d else d in
          (d, Done (box_id, solver_id))
      end
  end.

End Boxes.

(** ** A reference generator

    To run the model on concrete inputs: the state of a generator is the
    list of its coming raw draws (zero once the list is used up), and
    [random.Random(x)] starts from sixty-four draws of a linear
    congruential sequence on [x]. *)

Definition tape_next (g : list nat) : nat * list nat :=
  match g with
  | [] => (O, [])
  | x :: g' => (x, g')
  end.

Definition tape_randbelow (n : nat) (g : list nat) : nat * list nat :=
  let '(x, g) := tape_next g in ((x `mod` n)%nat, g).

(** [itertools.accumulate(ws)], from the running total [acc]. *)
Fixpoint cumulative (acc : Z) (ws : list Z) : list Z :=
  match ws with
  | [] => []
  | w :: ws' => (acc + w) :: cumulative (acc + w) ws'
  end.

(** [bisect(cum, x, 0, hi)] *)
Definition bisect (cum : list Z) (x : Z) (hi : nat) : nat :=
  Nat.min (length (filter (fun c => c <= x) cum)) hi.

Definition tape_weighted_index (ws : list Z) (g : list nat) : nat * list nat :=
  let '(x, g) := tape_next g in
  let cum := cumulative 0 ws in
  let total := List.last cum 0 in
  (bisect cum (Z.of_nat x `mod` total) (length ws - 1), g).

Fixpoint lcg_draws (n : nat) (s : Z) : list nat :=
  match n with
  | O => []
  | S n' =>
      let s' := (s * 1103515245 + 12345) `mod` 2147483648 in
      Z.to_nat (s' `div` 65536) :: lcg_draws n' s'
  end.

Definition tape_seeded (x : Z) : list nat := lcg_draws 64 (Z.abs x).

Lemma tape_randbelow_lt n g : (0 < n)%nat -> ((tape_randbelow n g).1 < n)%nat.
Proof.
  intros Hn. unfold tape_randbelow. destruct (tape_next g) as [x g']. simpl.
  apply Nat.mod_upper_bound. lia.
Qed.

Lemma tape_weighted_index_lt ws g :
  ws <> [] -> ((tape_weighted_index ws g).1 < length ws)%nat.
Proof.
  intros Hws. unfold tape_weighted_index, bisect.
  destruct (tape_next g) as [x g']. simpl.
  destruct ws as [|w ws]; [congruence|]. simpl. lia.
Qed.

#[global] Instance tape_stream : RandomStream (list nat) := {|
  seeded := tape_seeded;
  randbelow := tape_randbelow;
  weighted_index := tape_weighted_index;
  randbelow_lt := tape_randbelow_lt;
  weighted_index_lt := tape_weighted_index_lt
|}.

(** ** What the specification asks of the engine *)


(** What an accepted reveal leaves in the slot: one turn less, except that
    a bonus turn gives the turn back, up to five. *)
Definition turns_after (before : Z) (eff : card_effect) : Z :=
  match eff with
  | WildcardBonus _ => Z.min 5 before
  | _ => before - 1
  end.

Definition pending_after (eff : card_effect) : option tag :=
  match eff with
  | SpecialRevealed a | WildcardResolved a => Some a
  | _ => None
  end.



(** The number of positions, of the five, where the two sequences agree. *)
Definition position_matches (submitted correct : list Z) : Z :=
  Z.of_nat (length (filter (fun i => submitted !! i = correct !! i) (seq 0 5))).

(** The unchecked attempts of a box, and those left once attempt [id] is
    set aside. *)
Definition unchecked_attempts (d : db) (box_id : Z) : list puzzle_attempt :=
  filter (fun a => checked a = false) (box_attempts d box_id).
Definition remaining_attempts (d : db) (box_id id : Z) : list puzzle_attempt :=
  filter (fun a => checked a = false /\ attempt_id a <> id) (box_attempts d box_id).


(** ** Example sessions *)

(** Box 1, trivia open with answer 50: user 101 answered 50 at time 1,
    user 102 answered 48 at time 0. *)
Definition trivia_db : db :=
  Db (Some (Session 123456 true 1 0 false))
     {[101 := Participant "A" false; 102 := Participant "B" false]}
     ∅ ∅ ∅
     {[1 := TriviaRound "Box 1: ..." 50 true]}
     [TriviaSubmission 1 101 50 1; TriviaSubmission 1 102 48 0]
     ∅ ∅ [].

(** Box 1, ordering open for user 7, whose slot still holds a stale
    pending action. *)
Definition order_db : db :=
  Db (Some (Session 123456 true 1 0 false))
     {[7 := Participant "G" false]}
     ∅ ∅ ∅ ∅ []
     {[1 := OrderRound 7 "Box 1: ..." [] [2; 0; 4; 1; 3] true]}
     {[1 := Slot (Some 7) 0 (Some PASS)]}
     [].

(** The mega box during the card loop: user 7 holds the slot with three
    turns, and the first card of the deck is a wildcard. *)
Definition wildcard_db : db :=
  Db (Some (Session 123456 true 6 5 true))
     {[7 := Participant "G" false; 8 := Participant "H" false]}
     ∅ ∅
     {[6 := BoxSecret "SILVER" "COLD" "HORIZON"
              [Card WILDCARD None; piece W1; piece W2; piece W3; Card PASS None;
               Card STEAL None; Card DONATE None; piece W1; piece W2; piece W3]
              ∅]}
     ∅ [] ∅
     {[6 := Slot (Some 7) 3 None]}
     [].

(** Box 1 with user 7 as slot holder and no guess yet. *)
Definition puzzle_db : db :=
  Db (Some (Session 123456 true 1 0 false))
     {[7 := Participant "G" false; 8 := Participant "H" false]}
     ∅ ∅
     {[1 := BoxSecret "SILVER" "COLD" "HORIZON" [piece W1; piece W2; piece W3] ∅]}
     ∅ [] ∅
     {[1 := Slot (Some 7) 2 None]}
     [].


(** The same box with attempt 1 checked and four waiting: two words in
    place at time 5, two at time 2, one at time 9, and none at time 10. *)
Definition rotation_db : db :=
  with_puzzle_attempts
    (fun _ => [PuzzleAttempt 1 1 7 "SILVER" "DARK" "MORNING" 1 true 1;
               PuzzleAttempt 1 2 8 "SILVER" "COLD" "MORNING" 5 false 0;
               PuzzleAttempt 1 3 9 "SILVER" "DARK" "HORIZON" 2 false 0;
               PuzzleAttempt 1 4 10 "ONE" "COLD" "MORNING" 9 false 0;
               PuzzleAttempt 1 5 7 "ONE" "FINE" "MORNING" 10 false 0]) puzzle_db.

(** Box 2 solved by user 9 in attempt 2, with its prize filled. *)
Definition solved_db : db :=
  Db (Some (Session 123456 true 2 1 false))
     {[8 := Participant "H" false; 9 := Participant "I" false]}
     {[2 := Prize (Some "Gift card") (Some "")]}
     {[1 := 8]}
     {[2 := BoxSecret "SILVER" "COLD" "HORIZON" [piece W1; piece W2; piece W3] ∅]}
     ∅ [] ∅
     {[2 := Slot (Some 9) 0 None]}
     [PuzzleAttempt 2 1 8 "SILVER" "DARK" "MORNING" 1 true 1;
      PuzzleAttempt 2 2 9 "SILVER" "COLD" "HORIZON" 2 true 3].

(** The mega box solved by user 9, five boxes opened before it. *)
Definition mega_db : db :=
  Db (Some (Session 123456 true 6 5 true))
     {[8 := Participant "H" false; 9 := Participant "I" false]}
     {[6 := Prize (Some "Grand prize") (Some "")]}
     {[1 := 8; 2 := 9; 3 := 8; 4 := 9; 5 := 8]}
     {[6 := BoxSecret "SILVER" "COLD" "HORIZON" [piece W1; piece W2; piece W3] ∅]}
     ∅ [] ∅
     {[6 := Slot (Some 9) 0 None]}
     [PuzzleAttempt 6 1 9 "SILVER" "COLD" "HORIZON" 2 true 3].

(** * The rest of the engine *)

Definition with_participants (f : gmap Z participant -> gmap Z participant) (d : db) : db :=
  Db (sessions d) (f (participants d)) (prizes d) (box_ownership d) (box_secrets d)
     (trivia_rounds d) (trivia_submissions d) (order_rounds d) (slot_state d) (puzzle_attempts d).
Definition with_prizes (f : gmap Z prize -> gmap Z prize) (d : db) : db :=
  Db (sessions d) (participants d) (f (prizes d)) (box_ownership d) (box_secrets d)
     (trivia_rounds d) (trivia_submissions d) (order_rounds d) (slot_state d) (puzzle_attempts d).
Definition with_trivia_submissions
  (f : list trivia_submission -> list trivia_submission) (d : db) : db :=
  Db (sessions d) (participants d) (prizes d) (box_ownership d) (box_secrets d)
     (trivia_rounds d) (f (trivia_submissions d)) (order_rounds d) (slot_state d) (puzzle_attempts d).

(** ** Numbers *)

Definition is_digit (c : ascii) : bool := (48 <=? PyStr.code c) && (PyStr.code c <=? 57).

Fixpoint all_digits (s : string) : bool :=
  match s with
  | EmptyString => true
  | String c s' => is_digit c && all_digits s'
  end.

(** [re.fullmatch(r"-?\d+", s)] *)
Definition matches_int (s : string) : bool :=
  match s with
  | EmptyString => false
  | String c s' =>
      if Ascii.eqb c "-" then negb (String.eqb s' EmptyString) && all_digits s'
      else all_digits s
  end.

(** [norm_num]: [int(s)] is read by the decimal parser of the standard
    library.  The bound Python puts on the digits of [int] (4300 by
    default) is beyond any answer the form accepts and is left out. *)
Definition norm_num (s : string) : option Z :=
  let s := PyStr.strip s in
  if negb (matches_int s) then None
  else Z.of_int <$> NilZero.int_of_string s.

(** ** Registration *)

Definition lock_session (s : session) : session :=
  Session (session_seed s) true (current_box s) (opened_boxes_count s) (eliminations_unlocked s).

(** [get_participant_count]: the participants that are not eliminated. *)
Definition get_participant_count (d : db) : Z :=
  Z.of_nat (size (filter (fun kv => eliminated kv.2 = false) (participants d))).

Section Registration.
Context {R : Type} `{!RandomStream R}.

(** [ensure_session]: the seed of a new session is drawn from the
    process-wide generator [g]. *)
Definition ensure_session (g : R) (d : db) : db * R * session :=
  match sessions d with
  | Some row => (d, g, row)
  | None =>
      let '(seed, g) := randint 100000 999999 g in
      let row := Session seed false 1 0 false in
      (with_sessions (Some row) d, g, row)
  end.

(** [/wib lobby] *)
Definition lobby (host : bool) (g : R) (d : db) : db * R * outcome unit :=
  if negb host then (d, g, Reply "Host permission required.") else
  let '(d, g, sess) := ensure_session g d in
  if is_locked sess then (d, g, Reply "Session is already locked.")
  else (d, g, Done ()).

(** [/wib lock]: the result is the number of registered players. *)
Definition lock (host : bool) (g : R) (d : db) : db * R * outcome Z :=
  if negb host then (d, g, Reply "Host permission required.") else
  let '(d, g, sess) := ensure_session g d in
  if is_locked sess then (d, g, Reply "Entries already locked.") else
  let d := with_sessions (Some (lock_session sess)) d in
  let seed := session_seed sess in
  let pcount := get_participant_count d in
  let d := ensure_box_secret seed 1 d in
  (d, g, Done pcount).

End Registration.

(** [JoinView.join_button] *)
Definition JoinView_join_button (user_id : Z) (name : string) (d : db) : db * outcome unit :=
  match sessions d with
  | None => (d, Reply "No active lobby in this channel.")
  | Some row =>
      if is_locked row then (d, Reply "Entries are locked.") else
      (with_participants <[user_id := Participant name false]> d, Done ())
  end.

(** ** Trivia rounds and answers *)

Definition has_submission (d : db) (box_id user_id : Z) : bool :=
  bool_decide (Exists (fun r => ts_box_id r = box_id /\ ts_user_id r = user_id)
                 (trivia_submissions d)).

Definition trivia_active (d : db) (box_id : Z) : bool :=
  match trivia_rounds d !! box_id with
  | Some tr => tr_is_active tr
  | None => false
  end.

Definition session_locked (d : db) : bool :=
  match sessions d with
  | Some sess => is_locked sess
  | None => false
  end.

(** [NumericAnswerModal.on_submit], for the form of box [box_id]. *)
Definition NumericAnswerModal_on_submit (box_id user_id : Z) (answer : string) (now : Z) (d : db)
  : db * outcome unit :=
  match norm_num answer with
  | None => (d, Reply "Invalid number. Use whole numbers only.")
  | Some val =>
      if negb (session_locked d) then (d, Reply "No active locked session.") else
      if negb (is_registered d user_id)
      then (d, Reply "You are not registered (or you are eliminated).") else
      if negb (trivia_active d box_id) then (d, Reply "No active question right now.") else
      if has_submission d box_id user_id then (d, Reply "Your submission is already recorded.") else
      (with_trivia_submissions (fun rows => rows ++ [TriviaSubmission box_id user_id val now]) d,
       Done ())
  end.

(** [/wib num value] *)
Definition num (user_id value now : Z) (d : db) : db * outcome unit :=
  match sessions d with
  | None => (d, Reply "No active locked session in this channel.")
  | Some sess =>
      if negb (is_locked sess) then (d, Reply "No active locked session in this channel.") else
      if negb (is_registered d user_id)
      then (d, Reply "You are not registered (or you are eliminated).") else
      let box_id := current_box sess in
      if negb (trivia_active d box_id) then (d, Reply "No active question right now.") else
      if has_submission d box_id user_id then (d, Reply "Your submission is already recorded.") else
      (with_trivia_submissions (fun rows => rows ++ [TriviaSubmission box_id user_id value now]) d,
       Done ())
  end.

Definition compute_trivia_winner (d : db) (box_id correct : Z) : option Z :=
  let subs := box_submissions d box_id in
  match subs with
  | [] => None
  | _ =>
      let exacts := filter (fun r => value_int r = correct) subs in
      match py_sorted Z.leb ts_submitted_at_ms exacts with
      | top :: _ => Some (ts_user_id top)
      | [] =>
          let scored :=
            (fun r => (Z.abs (value_int r - correct), ts_submitted_at_ms r, ts_user_id r)) <$> subs in
          match py_sorted pair_leb (fun t : Z * Z * Z => (t.1.1, t.1.2)) scored with
          | t :: _ => Some t.2
          | [] => None
          end
      end
  end.

(** The [on_publish] of [/wib_q]: [host_id] generated the preview of
    question [q] with answer [ans] for box [box_id]. *)
Definition wib_q_on_publish (host_id presser box_id : Z) (q : string) (ans : Z) (d : db)
  : db * outcome unit :=
  if negb (bool_decide (presser = host_id))
  then (d, Reply "Only the host who generated this preview can publish it.") else
  let d := with_trivia_rounds <[box_id := TriviaRound q ans true]> d in
  let d := with_trivia_submissions (filter (fun r => ts_box_id r <> box_id)) d in
  (d, Done ()).

Section Previews.
Context {R : Type} `{!RandomStream R}.

(** [/wib_q]: the preview shown to the host, with the box it is for. *)
Definition wib_q (host : bool) (g : R) (d : db) : db * R * outcome (Z * string * Z) :=
  if negb host then (d, g, Reply "Host permission required.") else
  let '(d, g, sess) := ensure_session g d in
  if negb (is_locked sess) then (d, g, Reply "Lock entries first.") else
  let box_id := current_box sess in
  let pcount := get_participant_count d in
  let seed := session_seed sess in
  let '(salt, g) := randint 0 9999 g in
  let '(q, ans) := gen_numeric_question (seed + salt) box_id pcount in
  (d, g, Done (box_id, q, ans)).

(** [/wib q_order]: the box, the slot holder and the preview, which is
    [None] when a redraw loop has not ended within [fuel] draws. *)
Definition q_order (host : bool) (fuel : nat) (g : R) (d : db)
  : db * R * outcome (Z * Z * option (string * list string * list Z)) :=
  if negb host then (d, g, Reply "Host permission required.") else
  match sessions d with
  | None => (d, g, Reply "No active locked session.")
  | Some sess =>
      if negb (is_locked sess) then (d, g, Reply "No active locked session.") else
      let box_id := current_box sess in
      let seed := session_seed sess in
      match slot_state d !! box_id ≫= slot_user_id with
      | None => (d, g, Reply "No slot holder assigned yet.")
      | Some slot_user_id =>
          let '(salt, g) := randint 0 9999 g in
          (d, g, Done (box_id, slot_user_id, gen_order_question fuel (seed + salt) box_id))
      end
  end.

End Previews.

(** The [on_publish] of [/wib q_order]. *)
Definition q_order_on_publish (host_id presser box_id slot_user_id : Z) (prompt : string)
  (items : list string) (correct : list Z) (d : db) : db * outcome unit :=
  if negb (bool_decide (presser = host_id))
  then (d, Reply "Only the host who generated this preview can publish it.") else
  (with_order_rounds <[box_id := OrderRound slot_user_id prompt items correct true]> d, Done ()).

(** ** Special cards *)

Definition lower_char (c : ascii) : ascii :=
  if (65 <=? PyStr.code c) && (PyStr.code c <=? 90)
  then ascii_of_nat (nat_of_ascii c + 32) else c.

(** The key of [COLLATE NOCASE]. *)
Fixpoint nocase (s : string) : string :=
  match s with
  | EmptyString => EmptyString
  | String c s' => String (lower_char c) (nocase s')
  end.

(** The players a slot holder may choose: not eliminated, not the slot
    holder, by display name. *)
Definition other_players (d : db) (slot_user_id : Z) : list Z :=
  fst <$>
    py_sorted String.leb (fun kv : Z * participant => nocase (display_name kv.2))
      (filter (fun kv => eliminated kv.2 = false /\ kv.1 <> slot_user_id)
         (map_to_list (participants d))).

(** The slot of the current box when action [action] is pending on it. *)
Definition pending_slot (d : db) (action : tag) : option (Z * Z) :=
  sess ← sessions d;
  slot ← slot_state d !! current_box sess;
  holder ← slot_user_id slot;
  if bool_decide (pending_action slot = Some action) then Some (current_box sess, holder)
  else None.

(** What a selection message keeps: the box and slot holder it was made
    for and the choices it offers. *)
Record pass_view := PassView { pv_box_id : Z; pv_slot_user_id : Z; pv_options : list Z }.

(** [/wib pass_show] *)
Definition pass_show (host : bool) (d : db) : outcome pass_view :=
  if negb host then Reply "Host permission required." else
  match sessions d with
  | None => Reply "No session."
  | Some _ =>
      match pending_slot d PASS with
      | None => Reply "No PASS pending."
      | Some (box_id, slot_user_id) =>
          match other_players d slot_user_id with
          | [] => Reply "No eligible players to pass to."
          | players => Done (PassView box_id slot_user_id (take 25 players))
          end
      end
  end.

(** [PassSelect.callback]: [user_id] selects [target_id]. *)
Definition PassSelect_callback (v : pass_view) (user_id target_id : Z) (d : db)
  : db * outcome unit :=
  if negb (bool_decide (user_id = pv_slot_user_id v))
  then (d, Reply "Only the slot holder can choose.") else
  (with_slot_state (alter (pass_slot target_id) (pv_box_id v)) d, Done ()).

(** The buttons of a steal message: a box and its owner when the message
    was made. *)
Record steal_view := StealView { sv_box_id : Z; sv_slot_user_id : Z; sv_buttons : list (Z * Z) }.

(** The owned boxes 1 to 5, by box. *)
Definition stealable_boxes (d : db) : list (Z * Z) :=
  py_sorted Z.leb fst
    (filter (fun kv : Z * Z => 1 <= kv.1 <= 5) (map_to_list (box_ownership d))).

(** [/wib steal_show] *)
Definition steal_show (host : bool) (d : db) : outcome steal_view :=
  if negb host then Reply "Host permission required." else
  match sessions d with
  | None => Reply "No session."
  | Some _ =>
      match pending_slot d STEAL with
      | None => Reply "No STEAL pending."
      | Some (box_id, slot_user_id) =>
          match stealable_boxes d with
          | [] => Reply "No eligible boxes to steal yet."
          | rows => Done (StealView box_id slot_user_id rows)
          end
      end
  end.

(** [StealButton.callback]: [user_id] presses the button of
    [(box_to_steal, owner_id)]. *)
Definition StealButton_callback (v : steal_view) (button : Z * Z) (user_id : Z) (d : db)
  : db * outcome unit :=
  let '(box_to_steal, owner_id) := button in
  if negb (bool_decide (user_id = sv_slot_user_id v))
  then (d, Reply "Only the slot holder can steal.") else
  if bool_decide (owner_id = sv_slot_user_id v) then (d, Reply "You already own that box.") else
  let d := with_box_ownership (alter (fun _ => sv_slot_user_id v) box_to_steal) d in
  let d := with_slot_state (alter (set_pending_action None) (sv_box_id v)) d in
  (d, Done ()).

Record donate_view := DonateView {
  dv_box_id : Z;
  dv_slot_user_id : Z;
  dv_owned_boxes : list Z;
  dv_recipients : list Z
}.

(** The boxes 1 to 5 that [user_id] owns, by box. *)
Definition owned_boxes (d : db) (user_id : Z) : list Z :=
  fst <$> filter (fun kv : Z * Z => kv.2 = user_id) (stealable_boxes d).

(** [/wib donate_show] *)
Definition donate_show (host : bool) (d : db) : outcome donate_view :=
  if negb host then Reply "Host permission required." else
  match sessions d with
  | None => Reply "No session."
  | Some sess =>
      if negb (bool_decide (current_box sess = 6)) then Reply "DONATE is Mega-only." else
      match pending_slot d DONATE with
      | None => Reply "No DONATE pending."
      | Some (box_id, slot_user_id) =>
          match owned_boxes d slot_user_id, other_players d slot_user_id with
          | [], _ => Reply "Slot holder owns no eligible boxes to donate."
          | _, [] => Reply "No eligible recipients."
          | owned, recipients =>
              Done (DonateView box_id slot_user_id owned (take 25 recipients))
          end
      end
  end.

(** [BoxSelect.callback]: the new [state.chosen_box]. *)
Definition BoxSelect_callback (v : donate_view) (chosen_box : option Z) (user_id box : Z)
  : option Z * outcome unit :=
  if negb (bool_decide (user_id = dv_slot_user_id v))
  then (chosen_box, Reply "Only the slot holder can donate.")
  else (Some box, Done ()).

Definition give_box (from to : Z) (owner : Z) : Z :=
  if bool_decide (owner = from) then to else owner.

(** [RecipientSelect.callback] *)
Definition RecipientSelect_callback (v : donate_view) (chosen_box : option Z)
  (user_id target_id : Z) (d : db) : db * outcome unit :=
  if negb (bool_decide (user_id = dv_slot_user_id v))
  then (d, Reply "Only the slot holder can donate.") else
  match chosen_box with
  | None => (d, Reply "Select a box first.")
  | Some chosen_box =>
      let d :=
        with_box_ownership (alter (give_box (dv_slot_user_id v) target_id) chosen_box) d in
      let d := with_slot_state (alter (set_pending_action None) (dv_box_id v)) d in
      (d, Done ())
  end.

(** ** Prizes, the leaderboard and eliminations *)

(** [PrizeModal.on_submit] *)
Definition PrizeModal_on_submit (box_id : Z) (title_in desc_in : string) (d : db)
  : db * outcome unit :=
  let t := PyStr.strip title_in in
  let dsc := PyStr.strip desc_in in
  (with_prizes <[box_id := Prize (Some t) (Some dsc)]> d, Done ()).

(** [/wib prize_set]: [Done] when the prize form is sent. *)
Definition prize_set (owner : bool) (box_id : Z) : outcome unit :=
  if negb owner then Reply "Owner permission required." else
  if bool_decide (box_id < 1 \/ box_id > 6) then Reply "Box must be 1-6." else Done ().

(** [owners.setdefault(owner, []).append(box)] on a dict in insertion
    order. *)
Fixpoint add_owned (owner box : Z) (owners : list (Z * list Z)) : list (Z * list Z) :=
  match owners with
  | [] => [(owner, [box])]
  | (uid, boxes) :: rest =>
      if bool_decide (uid = owner) then (uid, boxes ++ [box]) :: rest
      else (uid, boxes) :: add_owned owner box rest
  end.

(** The rows of [box_ownership], by box. *)
Definition ownership_rows (d : db) : list (Z * Z) :=
  py_sorted Z.leb fst (map_to_list (box_ownership d)).

(** [post_boxes_leaderboard]: the lines of the leaderboard, a user and the
    boxes owned; no line when no box is owned. *)
Definition post_boxes_leaderboard (d : db) : list (Z * list Z) :=
  let rows := ownership_rows d in
  let owners := foldl (fun owners r => add_owned r.2 r.1 owners) [] rows in
  py_sorted pair_leb (fun kv : Z * list Z => (- Z.of_nat (length kv.2), kv.1)) owners.

(** [owned_map.get(user_id, 0)] *)
Definition owned_count (d : db) (user_id : Z) : Z :=
  Z.of_nat (size (filter (fun kv : Z * Z => kv.2 = user_id) (box_ownership d))).

(** [/wib elim_eligible]: the players listed. *)
Definition elim_eligible (host : bool) (d : db) : outcome (list Z) :=
  if negb host then Reply "Host permission required." else
  match sessions d with
  | None => Reply "Eliminations are locked until after 3 boxes are opened."
  | Some sess =>
      if negb (eliminations_unlocked sess)
      then Reply "Eliminations are locked until after 3 boxes are opened." else
      let players :=
        py_sorted String.leb (fun kv : Z * participant => nocase (display_name kv.2))
          (filter (fun kv => eliminated kv.2 = false) (map_to_list (participants d))) in
      let eligible := filter (fun kv => owned_count d kv.1 = 0) players in
      match eligible with
      | [] => Reply "No eligible players (0 boxes owned)."
      | _ => Done (fst <$> take 30 eligible)
      end
  end.

(** ** What the further properties speak of *)

(** At most one answer per box and user: the primary key of
    [trivia_submissions]. *)
Definition submissions_unique (d : db) : Prop :=
  NoDup ((fun r => (ts_box_id r, ts_user_id r)) <$> trivia_submissions d).

(** One attempt per box and id: the primary key of [puzzle_attempts]. *)
Definition attempts_unique (d : db) : Prop :=
  NoDup ((fun a => (pa_box_id a, attempt_id a)) <$> puzzle_attempts d).

(** The text of item [i] of an ordering question, with value [v]. *)
Definition item_text (i v : Z) : string :=
  PyStr.chr (65 + i) +:+ ": Item " +:+ PyStr.of_Z (i + 1) +:+ " (" +:+ PyStr.of_Z v +:+ ")".

(** [n] host checks in a row. *)
Fixpoint check_times (n : nat) (d : db) : db :=
  match n with
  | O => d
  | S n' => check_times n' (check_puzzle true d).1
  end.

(** The box and owner pairs that the lines of a leaderboard show. *)
Definition listed_boxes (lines : list (Z * list Z)) : list (Z * Z) :=
  lines ≫= (fun kv => (fun b => (b, kv.1)) <$> kv.2).

(** Line [x] comes before line [y]: more boxes first, the smaller user id
    first among equals. *)
Definition ranks_before (x y : Z * list Z) : Prop :=
  (length y.2 < length x.2)%nat \/ (length x.2 = length y.2 /\ x.1 < y.1).

(** ** The game as a whole *)

(** What reaches the bot: a slash command, a button or a form, with what
    the interaction carries.  A view is the one its message was built
    with, a published preview the one its host was shown. *)
Inductive command :=
  | Lobby (host : bool)
  | Join (user_id : Z) (name : string)
  | Lock (host : bool)
  | WibQ (host : bool)
  | PublishQuestion (host_id presser box_id : Z) (q : string) (ans : Z)
  | AnswerForm (box_id user_id : Z) (answer : string) (now : Z)
  | Num (user_id value now : Z)
  | Reveal (host : bool)
  | QOrder (host : bool) (fuel : nat)
  | PublishOrder (host_id presser box_id slot_user_id : Z) (prompt : string)
      (items : list string) (correct : list Z)
  | Order (user_id : Z) (a b c d e : string)
  | PressCard (user_id : Z) (idx : nat)
  | PassTo (v : pass_view) (user_id target_id : Z)
  | Steal (v : steal_view) (button : Z * Z) (user_id : Z)
  | Donate (v : donate_view) (chosen_box : option Z) (user_id target_id : Z)
  | GuessForm (box_id user_id : Z) (w1 w2 w3 : string) (now : Z)
  | CheckPuzzle (host : bool)
  | SavePrize (box_id : Z) (title_in desc_in : string)
  | OpenBox (owner : bool) (caller : Z) (in_text_channel : bool).

Definition empty_db : db := Db None ∅ ∅ ∅ ∅ ∅ [] ∅ ∅ [].

Section Game.
Context {R : Type} `{!RandomStream R}.

(** One interaction, on the rows of the channel and the process-wide
    generator. *)
Definition run (c : command) (st : db * R) : db * R :=
  let '(d, g) := st in
  match c with
  | Lobby host => (lobby host g d).1
  | Join user_id name => ((JoinView_join_button user_id name d).1, g)
  | Lock host => (lock host g d).1
  | WibQ host => (wib_q host g d).1
  | PublishQuestion host_id presser box_id q ans =>
      ((wib_q_on_publish host_id presser box_id q ans d).1, g)
  | AnswerForm box_id user_id answer now =>
      ((NumericAnswerModal_on_submit box_id user_id answer now d).1, g)
  | Num user_id value now => ((num user_id value now d).1, g)
  | Reveal host => ((reveal host d).1, g)
  | QOrder host fuel => (q_order host fuel g d).1
  | PublishOrder host_id presser box_id slot_user_id prompt items correct =>
      ((q_order_on_publish host_id presser box_id slot_user_id prompt items correct d).1, g)
  | Order user_id a b c d' e => ((order user_id a b c d' e d).1, g)
  | PressCard user_id idx => (CardButton_callback user_id idx g d).1
  | PassTo v user_id target_id => ((PassSelect_callback v user_id target_id d).1, g)
  | Steal v button user_id => ((StealButton_callback v button user_id d).1, g)
  | Donate v chosen_box user_id target_id =>
      ((RecipientSelect_callback v chosen_box user_id target_id d).1, g)
  | GuessForm box_id user_id w1 w2 w3 now =>
      ((PuzzleModal_on_submit box_id user_id w1 w2 w3 now d).1, g)
  | CheckPuzzle host => ((check_puzzle host d).1, g)
  | SavePrize box_id title_in desc_in => ((PrizeModal_on_submit box_id title_in desc_in d).1, g)
  | OpenBox owner caller in_text_channel => ((open_box owner caller in_text_channel d).1, g)
  end.

Definition play (cs : list command) (st : db * R) : db * R :=
  foldl (fun st c => run c st) st cs.

(** What holds of a session row at all times. *)
Definition session_ok (sess : session) : Prop :=
  100000 <= session_seed sess <= 999999 /\ 0 <= opened_boxes_count sess /\
  current_box sess = Z.min 6 (opened_boxes_count sess + 1) /\
  (eliminations_unlocked sess = true <-> 3 <= opened_boxes_count sess).

(** What holds of the rows of a channel at all times. *)
Record well_formed (d : db) : Prop := WellFormed {
  wf_session : forall sess, sessions d = Some sess -> session_ok sess;
  wf_slots : forall b s, slot_state d !! b = Some s -> 0 <= turns_left s <= 5;
  wf_secrets :
    forall b s, box_secrets d !! b = Some s ->
      exists sess,
        sessions d = Some sess /\ 1 <= b <= current_box sess /\
        gen_phrase_and_deck (session_seed sess) b =
          (phrase_w1 s, phrase_w2 s, phrase_w3 s, deck s) /\
        forall i, i ∈ revealed s -> (i < 10)%nat;
  wf_owned :
    forall b, is_Some (box_ownership d !! b) <->
      exists sess, sessions d = Some sess /\ 1 <= b <= Z.min 6 (opened_boxes_count sess);
  wf_players : forall u p, participants d !! u = Some p -> eliminated p = false;
  wf_submissions : submissions_unique d;
  wf_attempts : attempts_unique d
}.

(** What is kept from the rows [d] to the later rows [d']: the session
    with its seed, its lock, its count of opened boxes and its unlocked
    eliminations; the players; each stored box with its phrase, its deck
    and the cards revealed so far; and an owner for each owned box. *)
Definition grows_into (d d' : db) : Prop :=
  (forall sess, sessions d = Some sess ->
     exists sess',
       sessions d' = Some sess' /\ session_seed sess' = session_seed sess /\
       (is_locked sess = true -> is_locked sess' = true) /\
       opened_boxes_count sess <= opened_boxes_count sess' /\
       (eliminations_unlocked sess = true -> eliminations_unlocked sess' = true)) /\
  (forall u, is_Some (participants d !! u) -> is_Some (participants d' !! u)) /\
  (forall b s, box_secrets d !! b = Some s ->
     exists s',
       box_secrets d' !! b = Some s' /\
       (phrase_w1 s', phrase_w2 s', phrase_w3 s', deck s') =
         (phrase_w1 s, phrase_w2 s, phrase_w3 s, deck s) /\
       revealed s ⊆ revealed s') /\
  (forall b, is_Some (box_ownership d !! b) -> is_Some (box_ownership d' !! b)).

End Game.

(** ** Example sessions for the further properties *)

(** An open lobby with two players. *)
Definition lobby_db : db :=
  Db (Some (Session 123456 false 1 0 false))
     {[101 := Participant "A" false; 102 := Participant "B" false]}
     ∅ ∅ ∅ ∅ [] ∅ ∅ [].

(** The trivia round of [trivia_db] with a third player who has not
    answered yet. *)
Definition open_round_db : db :=
  with_participants <[103 := Participant "C" false]> trivia_db.

(** The mega box with a special action pending on the slot of user 7, who
    owns boxes 1 and 3. *)
Definition pending_db (action : tag) : db :=
  Db (Some (Session 123456 true 6 5 true))
     {[7 := Participant "G" false; 8 := Participant "H" false; 9 := Participant "i" false]}
     ∅
     {[1 := 7; 2 := 8; 3 := 7; 4 := 9; 5 := 8]}
     ∅ ∅ [] ∅
     {[6 := Slot (Some 7) 1 (Some action)]}
     [].

(** The ordering question of seed 123457 for box 1 under the reference
    generator. *)
Definition demo_order : string * list string * list Z :=
  default (EmptyString, [], []) (gen_order_question (R:=list nat) 100 123457 1).

(** A short game: a lobby, two players, the lock, a question, an answer
    and the reveal. *)
Definition demo_game : list command :=
  [Lobby true; Join 101 "A"; Join 102 "B"; Lock true; WibQ true;
   PublishQuestion 1 1 1 "Q" 50; Num 101 48 1; AnswerForm 1 102 " 51 " 2; Reveal true].

(** * Properties *)

(** ** Sorting *)

Section PySortedFacts.
Context {A K : Type} (kle : K -> K -> bool) (key : A -> K).
Hypothesis kle_total : forall a b, kle a b = true \/ kle b a = true.
Hypothesis kle_trans : forall a b c, kle a b = true -> kle b c = true -> kle a c = true.

Lemma sort_insert_perm (x : A) (l : list A) : sort_insert kle key x l ≡ₚ x :: l.
Proof.
  induction l as [|y l IH]; simpl; [done|].
  destruct (kle (key x) (key y)); [done|].
  rewrite IH. apply perm_swap.
Qed.

Lemma py_sorted_perm (l : list A) : py_sorted kle key l ≡ₚ l.
Proof.
  induction l as [|x l IH]; simpl; [done|].
  rewrite sort_insert_perm. by rewrite IH.
Qed.

Lemma py_sorted_nil (l : list A) : py_sorted kle key l = [] -> l = [].
Proof.
  intros H. apply Permutation_nil_r. rewrite <- H. symmetry. apply py_sorted_perm.
Qed.

Lemma sort_insert_head (x : A) (l : list A) :
  head (sort_insert kle key x l) =
    match l with
    | [] => Some x
    | y :: _ => if kle (key x) (key y) then Some x else Some y
    end.
Proof. destruct l as [|y l]; simpl; [done|]. by destruct (kle (key x) (key y)). Qed.

(** The head of a sorted list is one of its elements and has a least key. *)
Lemma py_sorted_head_min (l : list A) (h : A) (t : list A) :
  py_sorted kle key l = h :: t ->
  h ∈ l /\ forall y, y ∈ l -> kle (key h) (key y) = true.
Proof.
  revert h t. induction l as [|x l IH]; intros h t Hs; [discriminate|].
  simpl in Hs.
  assert (Hh : head (sort_insert kle key x (py_sorted kle key l)) = Some h) by (by rewrite Hs).
  rewrite sort_insert_head in Hh.
  assert (Hxx : kle (key x) (key x) = true) by (by destruct (kle_total (key x) (key x))).
  destruct (py_sorted kle key l) as [|h' t'] eqn:Hl.
  - apply py_sorted_nil in Hl. subst l. injection Hh as <-.
    split; [apply list_elem_of_here|]. intros y Hy. apply list_elem_of_singleton in Hy. by subst.
  - destruct (IH h' t' eq_refl) as [Hin Hmin].
    destruct (kle (key x) (key h')) eqn:Hk; injection Hh as <-.
    + split; [apply list_elem_of_here|]. intros y Hy.
      apply elem_of_cons in Hy as [->|Hy]; [done|]. eapply kle_trans; [exact Hk|]. by apply Hmin.
    + split; [by apply list_elem_of_further|]. intros y Hy.
      apply elem_of_cons in Hy as [->|Hy]; [|by apply Hmin].
      destruct (kle_total (key x) (key h')) as [Hc|Hc]; [congruence|done].
Qed.

End PySortedFacts.

Lemma Zleb_total (a b : Z) : (a <=? b) = true \/ (b <=? a) = true.
Proof. lia. Qed.
Lemma Zgeb_total (a b : Z) : (a >=? b) = true \/ (b >=? a) = true.
Proof. lia. Qed.
Lemma Zgeb_trans (a b c : Z) : (a >=? b) = true -> (b >=? c) = true -> (a >=? c) = true.
Proof. lia. Qed.

Lemma pair_leb_spec (p q : Z * Z) :
  pair_leb p q = true <-> p.1 < q.1 \/ (p.1 = q.1 /\ p.2 <= q.2).
Proof. unfold pair_leb. destruct p, q; simpl. lia. Qed.
Lemma pair_leb_total (p q : Z * Z) : pair_leb p q = true \/ pair_leb q p = true.
Proof. rewrite !pair_leb_spec. lia. Qed.
Lemma pair_leb_trans (p q r : Z * Z) :
  pair_leb p q = true -> pair_leb q r = true -> pair_leb p r = true.
Proof. rewrite !pair_leb_spec. lia. Qed.

(** ** Trivia resolution *)

Lemma compute_trivia_outcome_none (d : db) (box_id correct : Z) :
  box_submissions d box_id = [] -> compute_trivia_outcome d box_id correct = None.
Proof. intros H. unfold compute_trivia_outcome. by rewrite H. Qed.


Lemma reveal_db (d : db) (sess : session) (tr : trivia_round) :
  sessions d = Some sess -> is_locked sess = true ->
  trivia_rounds d !! current_box sess = Some tr -> tr_is_active tr = true ->
  (reveal true d).1 =
    with_slot_state
      <[current_box sess :=
          Slot ((fun o => o.1.1) <$> compute_trivia_outcome d (current_box sess) (answer_int tr)) 0 None]>
      (with_trivia_rounds (alter deactivate_trivia (current_box sess)) d).
Proof.
  intros Hs Hl Ht Ha. unfold reveal. cbn [negb]. rewrite Hs, Hl. cbn [negb].
  rewrite Ht, Ha. cbn [negb].
  destruct (compute_trivia_outcome d (current_box sess) (answer_int tr)) as [o|]; [|done].
  by case_bool_decide.
Qed.


(** ** Card reveals *)

Section CardFacts.
Context {R : Type} `{!RandomStream R}.

Lemma callback_done (user_id : Z) (idx : nat) (g g' : R) (d d' : db) (eff : card_effect) :
  CardButton_callback user_id idx g d = (d', g', Done eff) ->
  exists sess slot row card,
    sessions d = Some sess /\
    slot_state d !! current_box sess = Some slot /\
    slot_user_id slot = Some user_id /\
    (0 < turns_left slot) /\
    pending_action slot = None /\
    box_secrets d !! current_box sess = Some row /\
    (idx ∉ revealed row) /\
    deck row !! idx = Some card /\
    box_secrets d' !! current_box sess = Some (set_revealed ({[idx]} ∪ revealed row) row) /\
    slot_state d' !! current_box sess =
      Some (Slot (Some user_id) (turns_after (turns_left slot) eff) (pending_after eff)) /\
    (forall b, b <> current_box sess -> slot_state d' !! b = slot_state d !! b).
Proof.
  unfold CardButton_callback. intros H.
  destruct (sessions d) as [sess|] eqn:Hs; [|done].
  destruct (slot_state d !! current_box sess) as [slot|] eqn:Hslot; [|done].
  destruct (slot_user_id slot) as [holder|] eqn:Hh; [|done].
  case_bool_decide as Hu; [|done]. cbn [negb] in H.
  case_bool_decide as Ht; [done|].
  case_bool_decide as Hp; [done|].
  destruct (box_secrets d !! current_box sess) as [row|] eqn:Hrow; [|done].
  case_bool_decide as Hr; [done|].
  destruct (deck row !! idx) as [card|] eqn:Hc; [|done].
  exists sess, slot, row, card. subst holder.
  assert (Hpn : pending_action slot = None).
  { destruct (pending_action slot); [|done]. destruct Hp. by eexists. }
  repeat (split; [done || lia|]).
  destruct slot as [su tl pa]. simpl in *. subst su pa.
  repeat case_decide; try destruct (choice _ g) as [chosen g2]; repeat case_decide;
    injection H as <- <- <-;
    unfold with_slot_state, with_box_secrets; cbn [box_secrets slot_state];
    rewrite ?lookup_alter_eq, ?Hslot, ?Hrow; simpl; (split; [done|]);
    (split; [|by intros b Hb; rewrite ?lookup_alter_ne]);
    try done.
  all: unfold set_turns_left, set_pending_action; simpl; f_equal; f_equal; lia.
Qed.

Lemma callback_rejected (user_id : Z) (idx : nat) (g g' : R) (d d' : db)
  (out : outcome card_effect) :
  CardButton_callback user_id idx g d = (d', g', out) ->
  (forall eff, out <> Done eff) -> d' = d /\ g' = g.
Proof.
  unfold CardButton_callback. intros H Hout.
  repeat (case_match; try (by injection H as <- <- <-));
    injection H as <- <- <-; by destruct (Hout _ eq_refl).
Qed.




End CardFacts.

(** ** Ordering submissions *)

Section PySortedOrder.
Context {A K : Type} (kle : K -> K -> bool) (key : A -> K).
Hypothesis kle_total : forall a b, kle a b = true \/ kle b a = true.

Let key_le (a b : A) : Prop := kle (key a) (key b) = true.

Lemma sort_insert_Sorted (x : A) (l : list A) :
  Sorted key_le l -> Sorted key_le (sort_insert kle key x l).
Proof.
  induction l as [|y l IH]; intros Hl; simpl.
  - by repeat constructor.
  - destruct (kle (key x) (key y)) eqn:Hxy.
    + constructor; [done|]. by constructor.
    + apply Sorted_inv in Hl as [Hl Hhd]. constructor; [by apply IH|].
      assert (Hyx : key_le y x) by (destruct (kle_total (key x) (key y)); [congruence|done]).
      destruct l as [|z l]; simpl; [by constructor|].
      destruct (kle (key x) (key z)); constructor; [done|].
      by apply HdRel_inv in Hhd.
Qed.

Lemma py_sorted_Sorted (l : list A) : Sorted key_le (py_sorted kle key l).
Proof.
  induction l as [|x l IH]; simpl; [constructor|]. by apply sort_insert_Sorted.
Qed.

End PySortedOrder.

Lemma string_compare_OT (a b : string) : String.compare a b = String_as_OT.compare a b.
Proof.
  revert b. induction a as [|c a IH]; intros [|c' b]; simpl; done.
Qed.

Lemma string_leb_spec (a b : string) :
  String.leb a b = true <-> String_as_OT.lt a b \/ a = b.
Proof.
  unfold String.leb. rewrite string_compare_OT.
  destruct (String_as_OT.compare_spec a b) as [Heq|Hlt|Hgt].
  - split; [by right|done].
  - split; [by left|done].
  - split; [done|]. intros [Hlt| ->].
    + destruct (StrictOrder_Irreflexive a). by transitivity b.
    + by destruct (StrictOrder_Irreflexive b).
Qed.

#[local] Instance string_le_trans : Transitive (fun a b : string => String.leb (id a) (id b) = true).
Proof.
  intros a b c. unfold id. rewrite !string_leb_spec. intros [Hab| ->] [Hbc| ->]; auto.
  left. by transitivity b.
Qed.

#[local] Instance string_le_antisym :
  AntiSymm (=) (fun a b : string => String.leb (id a) (id b) = true).
Proof. intros a b. apply String.leb_antisym. Qed.

(** The test of [order] on the sorted letters is a test of permutation. *)
Lemma sorted_labels_iff (letters : list string) :
  py_sorted String.leb id letters = LABELS <-> letters ≡ₚ LABELS.
Proof.
  split.
  - intros <-. symmetry. apply py_sorted_perm.
  - intros Hp.
    apply (Sorted_unique (fun a b : string => String.leb (id a) (id b) = true)).
    + apply py_sorted_Sorted. intros a b. apply String.leb_total.
    + unfold LABELS. repeat constructor.
    + by rewrite py_sorted_perm.
Qed.

Lemma order_turns_fold (submitted correct : list Z) (idxs : list nat) :
  Forall (fun i => is_Some (submitted !! i) /\ is_Some (correct !! i)) idxs ->
  foldr
    (fun i acc =>
       s ← submitted !! i;
       c ← correct !! i;
       n ← acc;
       Some (if bool_decide (s = c) then 1 + n else n))
    (Some 0) idxs =
  Some (Z.of_nat (length (filter (fun i => submitted !! i = correct !! i) idxs))).
Proof.
  induction 1 as [|i idxs [[s Hs] [c Hc]] _ IH]; [done|].
  simpl. rewrite IH, Hs, Hc. simpl. rewrite filter_cons, Hs, Hc.
  case_bool_decide as Hsc; case_decide as Hd; simpl; try (f_equal; lia).
  - subst. done.
  - injection Hd as ->. done.
Qed.

Lemma order_turns_spec (submitted correct : list Z) :
  length submitted = 5%nat -> (5 <= length correct)%nat ->
  order_turns submitted correct = Some (position_matches submitted correct).
Proof.
  intros Hs Hc. unfold order_turns, position_matches. apply order_turns_fold.
  apply Forall_forall. intros i Hi. apply elem_of_seq in Hi.
  split; apply lookup_lt_is_Some; lia.
Qed.




(** ** Puzzle checks *)


Lemma latest_unchecked_spec (d : db) (box_id : Z) :
  match latest_unchecked d box_id with
  | None => unchecked_attempts d box_id = []
  | Some a =>
      a ∈ unchecked_attempts d box_id /\
      forall a', a' ∈ unchecked_attempts d box_id -> attempt_id a' <= attempt_id a
  end.
Proof.
  unfold latest_unchecked. fold (unchecked_attempts d box_id).
  destruct (py_sorted Z.geb attempt_id (unchecked_attempts d box_id)) as [|a t] eqn:Hs; simpl.
  - by apply py_sorted_nil in Hs.
  - apply (py_sorted_head_min Z.geb _ Zgeb_total Zgeb_trans) in Hs as [Hin Hmin].
    split; [done|]. intros a' Ha'. specialize (Hmin a' Ha'). lia.
Qed.




(** ** Box opening *)

Section BoxFacts.
Context {R : Type} `{!RandomStream R}.

Lemma ensure_box_secret_keeps (seed box_id : Z) (d : db) :
  sessions (ensure_box_secret seed box_id d) = sessions d /\
  box_ownership (ensure_box_secret seed box_id d) = box_ownership d /\
  puzzle_attempts (ensure_box_secret seed box_id d) = puzzle_attempts d.
Proof.
  unfold ensure_box_secret. destruct (box_secrets d !! box_id); [done|].
  by destruct (gen_phrase_and_deck seed box_id).
Qed.

Lemma solved_attempts_elem (d : db) (box_id : Z) (a : puzzle_attempt) :
  a ∈ solved_attempts d box_id <->
  a ∈ puzzle_attempts d /\ pa_box_id a = box_id /\ checked a = true /\ score_positions a = 3.
Proof.
  unfold solved_attempts, box_attempts. rewrite !list_elem_of_filter. tauto.
Qed.

Lemma open_box_rejected (owner : bool) (caller : Z) (tc : bool) (d d' : db)
  (out : outcome (Z * Z)) :
  open_box owner caller tc d = (d', out) -> (forall r, out <> Done r) -> d' = d.
Proof.
  unfold open_box. intros H Hout.
  repeat (case_match; try (by injection H as <- <-));
    injection H as <- <-; by destruct (Hout _ eq_refl).
Qed.

Lemma open_box_done (owner : bool) (caller : Z) (tc : bool) (d d' : db) (box_id solver_id : Z) :
  open_box owner caller tc d = (d', Done (box_id, solver_id)) ->
  exists sess a,
    sessions d = Some sess /\ box_id = current_box sess /\
    a ∈ solved_attempts d box_id /\
    (forall a', a' ∈ solved_attempts d box_id -> attempt_id a' <= attempt_id a) /\
    solver_id = pa_user_id a /\
    box_ownership d' !! box_id = Some solver_id /\
    sessions d' =
      Some (Session (session_seed sess) (is_locked sess) (Z.min 6 (box_id + 1))
              (opened_boxes_count sess + 1)
              (if bool_decide (opened_boxes_count sess + 1 >= 3) then true
               else eliminations_unlocked sess)).
Proof.
  unfold open_box. intros H.
  destruct owner; [|done]. cbn [negb] in H.
  destruct (sessions d) as [sess|] eqn:Hs; [|done].
  destruct (solved_attempts d (current_box sess)) as [|a0 l0] eqn:Hsol; [done|].
  rewrite <- Hsol in H.
  destruct (py_sorted Z.geb attempt_id (solved_attempts d (current_box sess))) as [|a t] eqn:Hsort.
  { apply py_sorted_nil in Hsort. congruence. }
  apply (py_sorted_head_min Z.geb _ Zgeb_total Zgeb_trans) in Hsort as [Hin Hmin].
  cbn [head from_option] in H.
  case_bool_decide; [done|].
  exists sess, a.
  assert (Hd' : box_ownership d' !! current_box sess = Some (pa_user_id a) /\
                sessions d' =
                  Some (Session (session_seed sess) (is_locked sess) (Z.min 6 (current_box sess + 1))
                          (opened_boxes_count sess + 1)
                          (if bool_decide (opened_boxes_count sess + 1 >= 3) then true
                           else eliminations_unlocked sess)) /\
                box_id = current_box sess /\ solver_id = pa_user_id a).
  { destruct (tc && bool_decide (current_box sess < 6)); injection H as <- <- <-.
    - destruct (ensure_box_secret_keeps (session_seed sess) (current_box sess + 1)
                  (with_sessions
                     (Some (Session (session_seed sess) (is_locked sess)
                              (Z.min 6 (current_box sess + 1)) (opened_boxes_count sess + 1)
                              (if bool_decide (opened_boxes_count sess + 1 >= 3) then true
                               else eliminations_unlocked sess)))
                     (with_box_ownership <[current_box sess := pa_user_id a]> d)))
        as (-> & -> & _).
      simpl. by rewrite lookup_insert_eq.
    - simpl. by rewrite lookup_insert_eq. }
  destruct Hd' as (Hown & Hsess & -> & ->).
  repeat (split; [done|]). split; [|done].
  intros a' Ha'. specialize (Hmin a' Ha'). lia.
Qed.


End BoxFacts.

(** ** Puzzle submissions *)

Lemma max_attempt_id_bounds (d : db) (box_id : Z) :
  0 <= max_attempt_id d box_id /\
  forall a, a ∈ puzzle_attempts d -> pa_box_id a = box_id -> attempt_id a <= max_attempt_id d box_id.
Proof.
  unfold max_attempt_id, box_attempts.
  induction (puzzle_attempts d) as [|x l [IH0 IH]].
  - split; [done|]. intros a Ha. by apply not_elem_of_nil in Ha.
  - rewrite filter_cons. case_decide as Hx.
    + rewrite fmap_cons. cbn [foldr]. split; [lia|]. intros a Ha Hb.
      apply elem_of_cons in Ha as [->|Ha]; [lia|]. specialize (IH a Ha Hb). lia.
    + split; [done|]. intros a Ha Hb. apply elem_of_cons in Ha as [->|Ha]; [done|]. by apply IH.
Qed.


(** C10, as the code has it.  The puzzle form validates nothing: whatever
    the three words, it appends an attempt holding their normal forms,
    also when a word's normal form is the empty string. *)
Theorem puzzle_guess_always_stored (box_id user_id : Z) (w1 w2 w3 : string) (now : Z) (d : db) :
  let id := max_attempt_id d box_id + 1 in
  let row :=
    PuzzleAttempt box_id id user_id (norm_word w1) (norm_word w2) (norm_word w3) now false 0 in
  PuzzleModal_on_submit box_id user_id w1 w2 w3 now d =
    (with_puzzle_attempts (fun rows => rows ++ [row]) d, Done id) /\
  puzzle_attempts (PuzzleModal_on_submit box_id user_id w1 w2 w3 now d).1 =
    puzzle_attempts d ++ [row] /\
  length (puzzle_attempts (PuzzleModal_on_submit box_id user_id w1 w2 w3 now d).1) =
    S (length (puzzle_attempts d)).
Proof.
  intros id row. split; [done|]. split; [done|].
  unfold PuzzleModal_on_submit. cbn [fst with_puzzle_attempts puzzle_attempts].
  rewrite length_app. simpl. lia.
Qed.

(** ** Content generation *)

Section GeneratorFacts.
Context {R : Type} `{!RandomStream R}.





Lemma choice_elem {A} `{!Inhabited A} (seq : list A) (g : R) :
  seq <> [] -> (choice seq g).1 ∈ seq.
Proof.
  intros Hne. unfold choice.
  pose proof (randbelow_lt (length seq) g) as Hlt.
  destruct (randbelow (length seq) g) as [i g']. simpl in *.
  apply list_elem_of_lookup_total_2. apply Hlt. destruct seq; [done|simpl; lia].
Qed.

Lemma ensure_box_secret_deck (seed box_id : Z) (d : db) :
  box_secrets d !! box_id = None ->
  deck <$> box_secrets (ensure_box_secret seed box_id d) !! box_id =
    Some (gen_phrase_and_deck seed box_id).2.
Proof.
  intros Hn. unfold ensure_box_secret. rewrite Hn.
  destruct (gen_phrase_and_deck seed box_id) as [phrase dk]. simpl.
  by rewrite lookup_insert_eq.
Qed.

(** C6, as the code has it.  The deck stored for a box is the one
    [gen_phrase_and_deck] shuffles with the stream seeded from the session
    seed and the box.  A revealed wildcard is resolved by a draw of the
    process-wide generator [g]: the effect chosen is [random.choice] of
    PASS, STEAL, BONUS_TURN, and DONATE too in box 6, on [g], and the
    reveal leaves the generator after that draw. *)
Theorem wildcard_resolution (user_id : Z) (idx : nat) (g g' : R) (d d' : db)
  (eff : card_effect) (sess : session) (row : box_secret) :
  CardButton_callback user_id idx g d = (d', g', Done eff) ->
  sessions d = Some sess ->
  box_secrets d !! current_box sess = Some row ->
  c_type <$> deck row !! idx = Some WILDCARD ->
  let effects :=
    if decide (current_box sess = 6) then [PASS; STEAL; BONUS_TURN; DONATE]
    else [PASS; STEAL; BONUS_TURN] in
  let chosen := (choice effects g).1 in
  (forall seed box_id d0,
     box_secrets d0 !! box_id = None ->
     deck <$> box_secrets (ensure_box_secret seed box_id d0) !! box_id =
       Some (gen_phrase_and_deck seed box_id).2) /\
  (chosen ∈ effects) /\
  g' = (choice effects g).2 /\
  ((chosen = BONUS_TURN /\ exists t, eff = WildcardBonus t) \/
   (chosen <> BONUS_TURN /\ eff = WildcardResolved chosen)) /\
  pending_action <$> slot_state d' !! current_box sess =
    Some (if decide (chosen = BONUS_TURN) then None else Some chosen).
Proof.
  intros Hcb Hs Hrow Hw effects chosen.
  split; [intros; by apply ensure_box_secret_deck|].
  split; [apply choice_elem; unfold effects; by case_decide|].
  pose proof Hcb as Hdone. apply callback_done in Hdone
    as (sess' & slot & row' & card & Hs' & Hslot & Hu & Ht & Hp & Hrow' & Hr & Hc & _ & Hslot' & _).
  rewrite Hs in Hs'. injection Hs' as <-. rewrite Hrow in Hrow'. injection Hrow' as <-.
  rewrite Hslot'. simpl.
  rewrite Hc in Hw. simpl in Hw. injection Hw as Hw.
  unfold CardButton_callback in Hcb. rewrite Hs, Hslot, Hu in Hcb.
  rewrite bool_decide_eq_true_2 in Hcb by done. cbn [negb] in Hcb.
  rewrite bool_decide_eq_false_2 in Hcb by lia.
  rewrite bool_decide_eq_false_2 in Hcb by (rewrite Hp; by intros [? ?]).
  rewrite Hrow in Hcb. rewrite bool_decide_eq_false_2 in Hcb by done.
  rewrite Hc, Hw in Hcb.
  rewrite decide_False in Hcb by done.
  rewrite decide_False in Hcb by (by rewrite !elem_of_cons, elem_of_nil; intros [|[|[|]]]).
  rewrite decide_True in Hcb by done.
  assert (Heff : (if decide (current_box sess = 6) then [PASS; STEAL; BONUS_TURN] ++ [DONATE]
                  else [PASS; STEAL; BONUS_TURN]) = effects).
  { unfold effects. by case_decide. }
  rewrite Heff in Hcb. fold chosen.
  destruct (choice effects g) as [c g2] eqn:Hch. simpl in chosen. subst chosen.
  destruct (decide (c = BONUS_TURN)) as [->|Hnb]; injection Hcb as <- <- <-; simpl.
  - split; [done|]. split; [|done]. left. split; [done|]. by eexists.
  - split; [done|]. split; [|done]. by right.
Qed.

End GeneratorFacts.

(** ** The generated content *)

Section ContentFacts.
Context {R : Type} `{!RandomStream R}.

Lemma randint_range (a b : Z) (g : R) : a <= b -> a <= (randint a b g).1 <= b.
Proof.
  intros Hab. unfold randint.
  pose proof (randbelow_lt (Z.to_nat (b - a + 1)) g) as Hlt.
  destruct (randbelow (Z.to_nat (b - a + 1)) g) as [i g']. simpl in *. lia.
Qed.

(** The hidden coefficient of a numeric question lies between 3 and 11,
    and the answer follows the formula the question shows. *)
Lemma gen_numeric_question_answer (seed box_id player_count : Z) :
  exists k, 3 <= k <= 11 /\
    let ans := (gen_numeric_question seed box_id player_count).2 in
    ans = seed `mod` 97 + player_count * k \/
    ans = seed `mod` 100 - k + player_count * 2 \/
    ans = seed `mod` 89 + player_count + k \/
    ans = seed `mod` 73 + k * player_count - box_id * 3.
Proof.
  unfold gen_numeric_question.
  destruct (choice NUMERIC_TEMPLATES _) as [tpl g1].
  pose proof (randint_range 3 11 g1 ltac:(lia)) as Hk.
  destruct (randint 3 11 g1) as [k g2]. simpl in Hk.
  exists k. split; [done|]. simpl. repeat case_match; auto.
Qed.

Lemma redraw_fresh (fuel : nat) (values : list Z) (v v' : Z) (g g' : R) :
  10 <= v <= 99 -> redraw fuel values v g = Some (v', g') -> (v' ∉ values) /\ 10 <= v' <= 99.
Proof.
  revert v g. induction fuel as [|fuel IH]; intros v g Hv; simpl;
    case_bool_decide as Hin; try done.
  - by intros [= <- <-].
  - pose proof (randint_range 10 99 g ltac:(lia)) as Hr.
    destruct (randint 10 99 g) as [v1 g1]. by apply IH.
  - by intros [= <- <-].
Qed.

Lemma order_items_values (fuel n : nat) (i : Z) (items items' : list string)
  (values values' : list Z) (g g' : R) :
  order_items fuel n i items values g = Some (items', values', g') ->
  NoDup values -> Forall (fun v => 10 <= v <= 99) values ->
  length items' = (length items + n)%nat /\ length values' = (length values + n)%nat /\
  NoDup values' /\ Forall (fun v => 10 <= v <= 99) values'.
Proof.
  revert i items values g. induction n as [|n IH]; intros i items values g; simpl.
  - intros [= <- <- <-] Hnd Hall. repeat split; try done; lia.
  - pose proof (randint_range 10 99 g ltac:(lia)) as Hr.
    destruct (randint 10 99 g) as [v g1]. simpl in Hr.
    destruct (redraw fuel values v g1) as [[v' g2]|] eqn:Hrd; [|done]. simpl.
    apply redraw_fresh in Hrd as [Hfresh Hv']; [|done].
    intros Hoi Hnd Hall. apply IH in Hoi as (Hi & Hv & Hnd' & Hall').
    + rewrite length_app in Hi, Hv. simpl in Hi, Hv. repeat split; try done; lia.
    + apply NoDup_app. repeat split; [done| |apply NoDup_singleton].
      intros x Hx Hx'. apply list_elem_of_singleton in Hx'. by subst.
    + apply Forall_app. split; [done|]. by apply Forall_singleton.
Qed.

(** An ordering question has five items, and its answer key is a
    permutation of the five positions. *)
Lemma gen_order_question_key (fuel : nat) (seed box_id : Z) (prompt : string)
  (items : list string) (correct : list Z) :
  gen_order_question fuel seed box_id = Some (prompt, items, correct) ->
  length items = 5%nat /\ length correct = 5%nat /\ correct ≡ₚ [0; 1; 2; 3; 4].
Proof.
  unfold gen_order_question.
  destruct (choice ORDER_TEMPLATES _) as [mode g1].
  destruct (order_items fuel 5 0 [] [] g1) as [[[its vals] g2]|] eqn:Hoi; [|done]. simpl.
  apply order_items_values in Hoi as (Hi & Hv & _ & _); [|constructor|constructor].
  simpl in Hi, Hv.
  assert (Hkey : fst <$> py_sorted Z.leb snd (enumerate vals) ≡ₚ [0; 1; 2; 3; 4]).
  { rewrite py_sorted_perm. unfold enumerate. rewrite fst_zip.
    - by rewrite Hv.
    - rewrite length_fmap, length_seq. lia. }
  destruct (_ || _); intros [= <- <- <-]; (split; [done|]); (split; [|done]);
    by rewrite Hkey.
Qed.

Lemma list_delete_insert {A} (l : list A) (i : nat) (x : A) :
  delete i (<[i := x]> l) = delete i l.
Proof.
  revert i. induction l as [|y l IH]; intros [|i]; simpl; try done. by rewrite IH.
Qed.

Lemma list_insert_perm {A} (l : list A) (i : nat) (x y : A) :
  l !! i = Some x -> <[i := y]> l ≡ₚ y :: delete i l.
Proof.
  intros Hi. rewrite <- (list_delete_insert l i y). apply delete_Permutation.
  apply list_lookup_insert_eq. by eapply lookup_lt_Some.
Qed.

Lemma swap_perm {A} (x : list A) (i j : nat) : swap x i j ≡ₚ x.
Proof.
  unfold swap. destruct (x !! i) as [xi|] eqn:Hi; [|done].
  destruct (x !! j) as [xj|] eqn:Hj; [|done].
  destruct (decide (i = j)) as [->|Hne].
  - rewrite Hi in Hj. injection Hj as <-.
    rewrite list_insert_insert_eq. by rewrite list_insert_id.
  - assert (Hyj : <[i := xj]> x !! j = Some xj) by (by rewrite list_lookup_insert_ne).
    rewrite (list_insert_perm _ j xj xi Hyj).
    assert (Hd : delete j (<[i := xj]> x) ≡ₚ delete i x).
    { apply (inj (cons xj)). rewrite <- (delete_Permutation _ j xj Hyj).
      by apply list_insert_perm with xi. }
    rewrite Hd. symmetry. by apply delete_Permutation.
Qed.

Lemma shuffle_perm {A} (x : list A) (g : R) : (shuffle x g).1 ≡ₚ x.
Proof.
  unfold shuffle. generalize (length x - 1)%nat as n. intros n. revert x g.
  induction n as [|n IH]; intros x g; simpl; [done|].
  destruct (randbelow (S (S n)) g) as [j g']. rewrite IH. apply swap_perm.
Qed.

Lemma draw_cards_spec (n : nat) (types : list tag) (ws : list Z) (other : tag -> card)
  (dk : list card) (g : R) (P : card -> Prop) :
  (forall w, P (piece w)) -> (forall t, P (other t)) -> Forall P dk ->
  length (draw_cards n types ws other dk g).1 = (length dk + n)%nat /\
  Forall P (draw_cards n types ws other dk g).1.
Proof.
  intros Hp Ho. revert dk g. induction n as [|n IH]; intros dk g Hdk; simpl.
  - split; [lia|done].
  - destruct (choices1 types ws g) as [t g1]. case_decide.
    + destruct (choice [W1; W2; W3] g1) as [w g2].
      destruct (IH (dk ++ [piece w]) g2) as [Hl Hf].
      { apply Forall_app. split; [done|]. by apply Forall_singleton. }
      rewrite length_app in Hl. simpl in Hl. split; [lia|done].
    + destruct (IH (dk ++ [other t]) g1) as [Hl Hf].
      { apply Forall_app. split; [done|]. by apply Forall_singleton. }
      rewrite length_app in Hl. simpl in Hl. split; [lia|done].
Qed.

(** A deck has ten cards, and the deck of box 1 holds only pieces and
    passes. *)
Lemma gen_phrase_and_deck_cards (seed box_id : Z) :
  length (gen_phrase_and_deck seed box_id).2 = 10%nat /\
  (box_id = 1 ->
   Forall (fun c => c_type c = PIECE \/ c_type c = PASS) (gen_phrase_and_deck seed box_id).2).
Proof.
  unfold gen_phrase_and_deck.
  destruct (choice WORD_BANK_1 _) as [w1 g1]. destruct (choice WORD_BANK_2 g1) as [w2 g2].
  destruct (choice WORD_BANK_3 g2) as [w3 g3]. cbv zeta.
  set (dk0 := [piece W1; piece W2; piece W3]).
  split.
  - assert (Hlen : forall types ws other,
               length (draw_cards 7 types ws other dk0 g3).1 = 10%nat).
    { intros types ws other.
      destruct (draw_cards_spec 7 types ws other dk0 g3 (fun _ => True)) as [Hl _];
        [done|done|by repeat constructor|]. by rewrite Hl. }
    repeat case_decide;
      match goal with
      | |- context [draw_cards 7 ?t ?w ?o dk0 g3] =>
          specialize (Hlen t w o); destruct (draw_cards 7 t w o dk0 g3) as [dk g4]
      end;
      pose proof (shuffle_perm dk g4) as Hsh; destruct (shuffle dk g4) as [dk' g5];
      simpl in *; by rewrite Hsh.
  - intros ->. rewrite decide_True by done.
    destruct (draw_cards_spec 7 [PIECE; PASS] [7; 3] (fun _ => Card PASS None) dk0 g3
                (fun c => c_type c = PIECE \/ c_type c = PASS)) as [_ Hall].
    { intros w. by left. } { intros t. by right. } { repeat constructor. }
    destruct (draw_cards 7 _ _ _ dk0 g3) as [dk g4].
    pose proof (shuffle_perm dk g4) as Hsh. destruct (shuffle dk g4) as [dk' g5].
    simpl in *. by rewrite Hsh.
Qed.

End ContentFacts.

(** ** The properties on the example sessions *)

Example norm_word_runs :
  norm_word "  silver  moon! " = "SILVER MOON" /\ norm_word "a-b_c" = "ABC" /\ norm_word "?!" = "".
Proof. repeat split. Qed.

Example gen_numeric_question_runs :
  gen_numeric_question (R:=list nat) 123456 1 4 =
    ("Box 1: Using seed 123456, compute: (seed % 97) + (players * 6). Answer as an integer.", 96).
Proof. reflexivity. Qed.

Example gen_order_question_runs :
  (fun r => (r.1.2, r.2)) <$> gen_order_question (R:=list nat) 10 123456 1 =
    Some (["A: Item 1 (19)"; "B: Item 2 (20)"; "C: Item 3 (29)"; "D: Item 4 (51)";
           "E: Item 5 (78)"], [0; 1; 2; 3; 4]).
Proof. reflexivity. Qed.


(** The specification's nearest-answer example: 40 at time 1 against 45
    at time 0, for the answer 50, is won by 45. *)
Example trivia_nearest :
  compute_trivia_outcome
    (Db (sessions trivia_db) ∅ ∅ ∅ ∅ ∅
        [TriviaSubmission 1 101 40 1; TriviaSubmission 1 102 45 0] ∅ ∅ [])
    1 50 = Some (102, 45, false).
Proof. reflexivity. Qed.





Example order_invalid :
  order 7 "A" "B" "C" "D" "D" order_db =
    (order_db, Reply "Invalid order. Use each of A B C D E exactly once.").
Proof. reflexivity. Qed.

Example order_zero_turns :
  (order 7 "A" "B" "C" "D" "E" order_db).2 = Done 0 /\
  slot_state (order 7 "A" "B" "C" "D" "E" order_db).1 !! 1 = Some (Slot (Some 7) 0 None).
Proof. split; reflexivity. Qed.


(** The specification's rotation example: with attempt 1 checked, the
    attempt with two words in place submitted at time 2 comes next. *)
Example puzzle_rotation :
  pa_user_id <$>
    next_closest_puzzle_attempt
      (with_puzzle_attempts
         (fun _ => [PuzzleAttempt 1 1 7 "SILVER" "DARK" "MORNING" 1 true 1;
                    PuzzleAttempt 1 2 8 "SILVER" "COLD" "MORNING" 5 false 0;
                    PuzzleAttempt 1 3 9 "SILVER" "DARK" "HORIZON" 2 false 0;
                    PuzzleAttempt 1 4 10 "ONE" "COLD" "MORNING" 9 false 0]) puzzle_db)
      1 ("SILVER", "COLD", "HORIZON") 1 = Some 9.
Proof. reflexivity. Qed.



Example open_box_solved :
  (open_box (R:=list nat) true 1 true solved_db).2 = Done (2, 9) /\
  box_ownership (open_box (R:=list nat) true 1 true solved_db).1 !! 2 = Some 9 /\
  sessions (open_box (R:=list nat) true 1 true solved_db).1 =
    Some (Session 123456 true 3 2 false).
Proof. vm_compute. repeat split. Qed.

(** C8 fails on the code: the mega box is opened, which leaves
    [current_box] at 6 with its solved attempt and prize in place; a
    second [open_box] opens it again and counts a seventh box. *)
Example open_box_after_mega :
  let d1 := (open_box (R:=list nat) true 1 true mega_db).1 in
  let d2 := (open_box (R:=list nat) true 1 true d1).1 in
  (open_box (R:=list nat) true 1 true mega_db).2 = Done (6, 9) /\
  sessions d1 = Some (Session 123456 true 6 6 true) /\
  (open_box (R:=list nat) true 1 true d1).2 = Done (6, 9) /\
  sessions d2 = Some (Session 123456 true 6 7 true) /\
  d2 <> d1.
Proof.
  vm_compute. repeat split. intros H. discriminate H.
Qed.



(** C10 as stated fails: the first word has the empty normal form, and
    the guess is stored all the same. *)
Lemma empty_word_guess_stored :
  norm_word "?!" = "" /\
  (submit_puzzle_guess 1 7 "?!" "cold" " horizon" 1000 puzzle_db).2 = Done 1 /\
  puzzle_attempts (submit_puzzle_guess 1 7 "?!" "cold" " horizon" 1000 puzzle_db).1 =
    [PuzzleAttempt 1 1 7 "" "COLD" "HORIZON" 1000 false 0].
Proof. repeat split. Qed.


Lemma wildcard_resolution_witness :
  (choice [PASS; STEAL; BONUS_TURN; DONATE] [2%nat]).1 ∈ [PASS; STEAL; BONUS_TURN; DONATE] /\
  (CardButton_callback 7 0 [2%nat] wildcard_db).1.2 = [] /\
  pending_action <$> slot_state (CardButton_callback 7 0 [2%nat] wildcard_db).1.1 !! 6 = Some None.
Proof.
  assert (Hcb : CardButton_callback 7 0 [2%nat] wildcard_db =
                  ((CardButton_callback 7 0 [2%nat] wildcard_db).1.1,
                   (CardButton_callback 7 0 [2%nat] wildcard_db).1.2,
                   Done (WildcardBonus 3))) by (vm_compute; reflexivity).
  destruct (wildcard_resolution 7 0 [2%nat] _ wildcard_db _ (WildcardBonus 3)
              (Session 123456 true 6 5 true)
              (BoxSecret "SILVER" "COLD" "HORIZON"
                 [Card WILDCARD None; piece W1; piece W2; piece W3; Card PASS None;
                  Card STEAL None; Card DONATE None; piece W1; piece W2; piece W3] ∅)
              Hcb eq_refl eq_refl eq_refl)
    as (_ & Hin & Hg & _ & Hp).
  split; [exact Hin|]. split; [reflexivity|exact Hp].
Defined.

(** C6 as stated fails: on one and the same session, with the same seed,
    box and deck, the wildcard resolves to PASS when the process-wide
    generator draws 0 and to STEAL when it draws 1. *)
Lemma wildcard_follows_global_draw :
  (CardButton_callback 7 0 [0%nat] wildcard_db).2 = Done (WildcardResolved PASS) /\
  (CardButton_callback 7 0 [1%nat] wildcard_db).2 = Done (WildcardResolved STEAL) /\
  (CardButton_callback 7 0 [0%nat] wildcard_db).2 <> (CardButton_callback 7 0 [1%nat] wildcard_db).2.
Proof. vm_compute. repeat split. discriminate. Qed.
(** * Further properties *)

(** ** Text and numbers *)



Lemma lstrip_idem (s : string) : PyStr.lstrip (PyStr.lstrip s) = PyStr.lstrip s.
Proof.
  induction s as [|c s IH]; [done|]. simpl.
  destruct (PyStr.is_space c) eqn:Hc; [done|]. simpl. by rewrite Hc.
Qed.

Lemma rstrip_idem (s : string) : PyStr.rstrip (PyStr.rstrip s) = PyStr.rstrip s.
Proof.
  induction s as [|c s IH]; [done|]. simpl.
  destruct (PyStr.rstrip s) as [|c' r] eqn:Hr.
  - destruct (PyStr.is_space c) eqn:Hc; [done|]. simpl. by rewrite Hc.
  - simpl in *. by rewrite IH.
Qed.

Lemma rstrip_lstrip (s : string) :
  PyStr.rstrip s = s -> PyStr.rstrip (PyStr.lstrip s) = PyStr.lstrip s.
Proof.
  induction s as [|c s IH]; [done|]. intros Hs. simpl.
  destruct (PyStr.is_space c) eqn:Hc; [|done].
  apply IH. simpl in Hs. rewrite Hc in Hs.
  destruct (PyStr.rstrip s); [done|]. by injection Hs.
Qed.

Lemma strip_idem (s : string) : PyStr.strip (PyStr.strip s) = PyStr.strip s.
Proof.
  unfold PyStr.strip. rewrite rstrip_lstrip by apply rstrip_idem. apply lstrip_idem.
Qed.










Lemma collapse_ws_length (b : bool) (s : string) :
  (String.length (PyStr.collapse_ws b s) <= String.length s)%nat.
Proof.
  revert b. induction s as [|c s IH]; intros b; simpl; [done|].
  pose proof (IH true). pose proof (IH false).
  destruct (PyStr.is_space c); [destruct b|]; simpl; lia.
Qed.

Lemma collapse_ws_idem (s : string) :
  (forall b, PyStr.collapse_ws false (PyStr.collapse_ws b s) = PyStr.collapse_ws b s) /\
  PyStr.collapse_ws true (PyStr.collapse_ws true s) = PyStr.collapse_ws true s.
Proof.
  induction s as [|c s [IH1 IH2]]; [done|]. split.
  - intros b. simpl. destruct (PyStr.is_space c) eqn:Hc.
    + destruct b; [apply IH1|]. simpl. by rewrite IH2.
    + simpl. by rewrite Hc, IH1.
  - simpl. destruct (PyStr.is_space c) eqn:Hc; [done|]. simpl. by rewrite Hc, IH1.
Qed.

Lemma collapse_ws_lstrip (b : bool) (s : string) :
  PyStr.collapse_ws b s = s -> PyStr.collapse_ws false (PyStr.lstrip s) = PyStr.lstrip s.
Proof.
  revert b. induction s as [|c s IH]; intros b; [done|]. simpl.
  destruct (PyStr.is_space c) eqn:Hc.
  - destruct b.
    + intros Hs. pose proof (collapse_ws_length true s) as Hl. rewrite Hs in Hl. simpl in Hl. lia.
    + intros [= _ Hs]. by apply (IH true).
  - intros [= Hs]. simpl. by rewrite Hc, Hs.
Qed.

Lemma collapse_ws_rstrip (b : bool) (s : string) :
  PyStr.collapse_ws b s = s -> PyStr.collapse_ws b (PyStr.rstrip s) = PyStr.rstrip s.
Proof.
  revert b. induction s as [|c s IH]; intros b; [done|]. simpl.
  destruct (PyStr.is_space c) eqn:Hc.
  - destruct b.
    + intros Hs. pose proof (collapse_ws_length true s) as Hl. rewrite Hs in Hl. simpl in Hl. lia.
    + intros [= <- Hs]. specialize (IH true Hs).
      destruct (PyStr.rstrip s) as [|c' r]; [done|]. simpl. simpl in IH. by rewrite IH.
  - intros [= Hs]. specialize (IH false Hs).
    destruct (PyStr.rstrip s) as [|c' r]; simpl; rewrite Hc; [done|]. simpl in IH. by rewrite IH.
Qed.

Section Chars.
Context (P : ascii -> Prop).

Lemma lstrip_chars (s : string) :
  Forall P (list_ascii_of_string s) -> Forall P (list_ascii_of_string (PyStr.lstrip s)).
Proof.
  induction s as [|c s IH]; [done|]. simpl. intros Hall.
  destruct (PyStr.is_space c); [|done]. apply IH. by apply Forall_cons in Hall as [_ ?].
Qed.

Lemma rstrip_chars (s : string) :
  Forall P (list_ascii_of_string s) -> Forall P (list_ascii_of_string (PyStr.rstrip s)).
Proof.
  induction s as [|c s IH]; [done|]. simpl. intros [Hc Hs]%Forall_cons. specialize (IH Hs).
  destruct (PyStr.rstrip s); [destruct (PyStr.is_space c)|]; simpl;
    repeat (constructor; try done).
Qed.

Lemma collapse_ws_chars (b : bool) (s : string) :
  P " "%char -> Forall P (list_ascii_of_string s) ->
  Forall P (list_ascii_of_string (PyStr.collapse_ws b s)).
Proof.
  intros Hsp. revert b. induction s as [|c s IH]; intros b; [done|]. simpl.
  intros [Hc Hs]%Forall_cons.
  destruct (PyStr.is_space c); [destruct b|]; simpl; try constructor; auto.
Qed.

End Chars.

Lemma filter_chars_kept (keep : ascii -> bool) (s : string) :
  Forall (fun c => keep c = true) (list_ascii_of_string (PyStr.filter_chars keep s)).
Proof.
  induction s as [|c s IH]; simpl; [constructor|].
  destruct (keep c) eqn:Hc; [by constructor|done].
Qed.

Lemma filter_chars_id (keep : ascii -> bool) (s : string) :
  Forall (fun c => keep c = true) (list_ascii_of_string s) -> PyStr.filter_chars keep s = s.
Proof.
  induction s as [|c s IH]; [done|]. simpl. intros [Hc Hs]%Forall_cons. by rewrite Hc, IH.
Qed.

Lemma upper_id (s : string) :
  Forall (fun c => ~ 97 <= PyStr.code c <= 122) (list_ascii_of_string s) -> PyStr.upper s = s.
Proof.
  induction s as [|c s IH]; [done|]. simpl. intros [Hc Hs]%Forall_cons. rewrite IH by done.
  unfold PyStr.upper_char. destruct (_ && _) eqn:Hb; [lia|done].
Qed.

(** A normal form holds only the characters A to Z, 0 to 9 and the
    space, and normalising it again changes nothing: what is stored for a
    guess is what a later [norm_word] would give. *)
Theorem norm_word_idempotent (w : string) :
  Forall (fun c => 65 <= PyStr.code c <= 90 \/ 48 <= PyStr.code c <= 57 \/ PyStr.code c = 32)
    (list_ascii_of_string (norm_word w)) /\
  norm_word (norm_word w) = norm_word w.
Proof.
  set (keep := fun c : ascii =>
    ((65 <=? PyStr.code c) && (PyStr.code c <=? 90)) ||
    ((48 <=? PyStr.code c) && (PyStr.code c <=? 57)) || (PyStr.code c =? 32)).
  assert (Hkeep : Forall (fun c => keep c = true) (list_ascii_of_string (norm_word w))).
  { unfold norm_word, PyStr.strip. apply lstrip_chars, rstrip_chars, collapse_ws_chars; [done|].
    apply filter_chars_kept. }
  assert (Hws : PyStr.collapse_ws false (norm_word w) = norm_word w).
  { unfold norm_word, PyStr.strip. apply (collapse_ws_lstrip false), collapse_ws_rstrip.
    apply collapse_ws_idem. }
  assert (Hst : PyStr.strip (norm_word w) = norm_word w).
  { unfold norm_word at 1 2. apply strip_idem. }
  split.
  - eapply Forall_impl; [exact Hkeep|]. intros c. unfold keep. lia.
  - unfold norm_word at 1. rewrite Hst. rewrite upper_id.
    + fold keep. rewrite (filter_chars_id keep _ Hkeep). by rewrite Hws, Hst.
    + eapply Forall_impl; [exact Hkeep|]. intros c. unfold keep. lia.
Qed.

(** ** Trivia answers *)

Section PySortedMap.
Context {A B K : Type} (kle : K -> K -> bool) (key : B -> K) (f : A -> B).

Lemma sort_insert_fmap (x : A) (l : list A) :
  sort_insert kle key (f x) (f <$> l) = f <$> sort_insert kle (fun a => key (f a)) x l.
Proof.
  induction l as [|y l IH]; [done|]. rewrite fmap_cons. cbn [sort_insert].
  destruct (kle (key (f x)) (key (f y))); [done|]. rewrite IH. done.
Qed.

Lemma py_sorted_fmap (l : list A) :
  py_sorted kle key (f <$> l) = f <$> py_sorted kle (fun a => key (f a)) l.
Proof.
  induction l as [|x l IH]; [done|]. rewrite fmap_cons. cbn [py_sorted].
  rewrite IH. apply sort_insert_fmap.
Qed.

End PySortedMap.

(** The two resolutions of a trivia round agree: [compute_trivia_winner]
    names the user of the outcome of [compute_trivia_outcome], and no one
    exactly when there is no outcome. *)
Theorem compute_trivia_winner_outcome (d : db) (box_id correct : Z) :
  compute_trivia_winner d box_id correct =
    (fun o => o.1.1) <$> compute_trivia_outcome d box_id correct.
Proof.
  unfold compute_trivia_winner, compute_trivia_outcome.
  destruct (box_submissions d box_id) as [|s0 rest] eqn:Hsubs; [done|]. rewrite <- Hsubs.
  destruct (py_sorted Z.leb ts_submitted_at_ms _) as [|top t]; [|done].
  rewrite !py_sorted_fmap.
  by destruct (py_sorted pair_leb _ (box_submissions d box_id)).
Qed.

Lemma has_submission_spec (d : db) (box_id user_id : Z) :
  has_submission d box_id user_id = true <->
  (box_id, user_id) ∈ (fun r => (ts_box_id r, ts_user_id r)) <$> trivia_submissions d.
Proof.
  unfold has_submission. rewrite bool_decide_eq_true, Exists_exists, list_elem_of_fmap.
  split.
  - intros (r & Hr & <- & <-). by exists r.
  - intros (r & [= -> ->] & Hr). by exists r.
Qed.

Lemma submissions_unique_add (d : db) (box_id user_id value now : Z) :
  submissions_unique d -> has_submission d box_id user_id = false ->
  submissions_unique
    (with_trivia_submissions (fun rows => rows ++ [TriviaSubmission box_id user_id value now]) d).
Proof.
  unfold submissions_unique. simpl. intros Hnd Hno. rewrite fmap_app. simpl.
  apply NoDup_app. split; [done|]. split; [|apply NoDup_singleton].
  intros k Hk Hk'. apply list_elem_of_singleton in Hk'. subst k.
  apply has_submission_spec in Hk. congruence.
Qed.

(** Neither way of answering ever stores a second answer of a user for a
    box: one row per box and user is kept by [/wib num] and by the answer
    form. *)
Theorem answers_stay_unique (box_id user_id value now : Z) (answer : string) (d : db) :
  submissions_unique d ->
  submissions_unique (num user_id value now d).1 /\
  submissions_unique (NumericAnswerModal_on_submit box_id user_id answer now d).1.
Proof.
  intros Hd. split.
  - unfold num. repeat (case_match; try done). simpl. by apply submissions_unique_add.
  - unfold NumericAnswerModal_on_submit. repeat (case_match; try done). simpl.
    by apply submissions_unique_add.
Qed.

(** The first answer counts: once [/wib num] has recorded a user's
    answer, every later answer of that user to the same question, by the
    command or by the form, is refused and changes nothing. *)
Theorem first_answer_counts (user_id value now : Z) (d d' : db) :
  num user_id value now d = (d', Done ()) ->
  (forall value' now',
     num user_id value' now' d' = (d', Reply "Your submission is already recorded.")) /\
  (forall sess answer now',
     sessions d = Some sess -> is_Some (norm_num answer) ->
     NumericAnswerModal_on_submit (current_box sess) user_id answer now' d' =
       (d', Reply "Your submission is already recorded.")).
Proof.
  unfold num. intros H.
  destruct (sessions d) as [sess|] eqn:Hs; [|done].
  destruct (is_locked sess) eqn:Hl; [|done]. cbn [negb] in H.
  destruct (is_registered d user_id) eqn:Hr; [|done]. cbn [negb] in H.
  destruct (trivia_active d (current_box sess)) eqn:Ha; [|done]. cbn [negb] in H.
  destruct (has_submission d (current_box sess) user_id) eqn:Hh; [done|].
  injection H as <-.
  set (d' := with_trivia_submissions _ d).
  assert (Hh' : has_submission d' (current_box sess) user_id = true).
  { apply has_submission_spec. unfold d'. simpl. rewrite fmap_app.
    apply elem_of_app. right. simpl. apply list_elem_of_here. }
  split.
  - intros value' now'. change (sessions d') with (sessions d). rewrite Hs, Hl. cbn [negb].
    change (is_registered d' user_id) with (is_registered d user_id). rewrite Hr. cbn [negb].
    change (trivia_active d' (current_box sess)) with (trivia_active d (current_box sess)).
    by rewrite Ha, Hh'.
  - intros sess' answer now' [= <-] [val Hval]. unfold NumericAnswerModal_on_submit.
    rewrite Hval. change (session_locked d') with (session_locked d).
    unfold session_locked. rewrite Hs, Hl. cbn [negb].
    change (is_registered d' user_id) with (is_registered d user_id). rewrite Hr. cbn [negb].
    change (trivia_active d' (current_box sess)) with (trivia_active d (current_box sess)).
    by rewrite Ha, Hh'.
Qed.

(** Publishing a question starts a clean round: the round of the box is
    active with the published answer, the earlier answers for that box are
    gone while those for other boxes stay, and a reveal right after it
    finds no submission and leaves the box without a slot holder. *)
Theorem publish_clears_answers (host_id box_id : Z) (q : string) (ans : Z) (d : db)
  (sess : session) :
  sessions d = Some sess -> is_locked sess = true -> current_box sess = box_id ->
  let d' := (wib_q_on_publish host_id host_id box_id q ans d).1 in
  trivia_rounds d' !! box_id = Some (TriviaRound q ans true) /\
  box_submissions d' box_id = [] /\
  (forall b, b <> box_id -> box_submissions d' b = box_submissions d b) /\
  (reveal true d').2 = Reply "No submissions. No slot assigned." /\
  slot_state (reveal true d').1 !! box_id = Some (Slot None 0 None).
Proof.
  intros Hs Hl Hb d'.
  assert (Hd' : d' =
            with_trivia_submissions (filter (fun r => ts_box_id r <> box_id))
              (with_trivia_rounds <[box_id := TriviaRound q ans true]> d)).
  { unfold d', wib_q_on_publish. by rewrite bool_decide_eq_true_2. }
  clearbody d'. subst d'.
  set (d' := with_trivia_submissions _ _).
  assert (Hround : trivia_rounds d' !! box_id = Some (TriviaRound q ans true))
    by (unfold d'; simpl; by rewrite lookup_insert_eq).
  assert (Hnone : box_submissions d' box_id = []).
  { unfold box_submissions, d'. simpl.
    induction (trivia_submissions d) as [|r l IH]; [done|].
    rewrite filter_cons. case_decide as Hr; [|done].
    rewrite filter_cons. by rewrite decide_False. }
  assert (Hother : forall b, b <> box_id -> box_submissions d' b = box_submissions d b).
  { intros b Hne. unfold box_submissions, d'. simpl.
    induction (trivia_submissions d) as [|r l IH]; [done|].
    rewrite !filter_cons. case_decide as Hr.
    - rewrite filter_cons. case_decide; by rewrite IH.
    - rewrite decide_False by congruence. done. }
  repeat (split; [done|]).
  assert (Hs' : sessions d' = Some sess) by done.
  assert (Hcomp : compute_trivia_outcome d' box_id ans = None)
    by (by apply compute_trivia_outcome_none).
  subst box_id.
  rewrite (surjective_pairing (reveal true d')).
  rewrite (reveal_db d' sess (TriviaRound q ans true) Hs' Hl Hround eq_refl).
  unfold reveal. cbn [negb]. rewrite Hs', Hl. cbn [negb]. rewrite Hround. cbn [negb tr_is_active answer_int].
  rewrite Hcomp. simpl. by rewrite lookup_insert_eq.
Qed.

(** ** Registration and locking *)

Section RegistrationFacts.
Context {R : Type} `{!RandomStream R}.

Lemma ensure_session_spec (g : R) (d : db) :
  match sessions d with
  | Some sess => ensure_session g d = (d, g, sess)
  | None =>
      exists seed,
        100000 <= seed <= 999999 /\
        ensure_session g d =
          (with_sessions (Some (Session seed false 1 0 false)) d, (randint 100000 999999 g).2,
           Session seed false 1 0 false)
  end.
Proof.
  unfold ensure_session. destruct (sessions d); [done|].
  pose proof (randint_range 100000 999999 g ltac:(lia)) as Hr.
  destruct (randint 100000 999999 g) as [seed g']. by exists seed.
Qed.

Lemma ensure_box_secret_others (seed box_id : Z) (d : db) :
  participants (ensure_box_secret seed box_id d) = participants d /\
  prizes (ensure_box_secret seed box_id d) = prizes d /\
  trivia_rounds (ensure_box_secret seed box_id d) = trivia_rounds d /\
  trivia_submissions (ensure_box_secret seed box_id d) = trivia_submissions d /\
  order_rounds (ensure_box_secret seed box_id d) = order_rounds d.
Proof.
  unfold ensure_box_secret. destruct (box_secrets d !! box_id); [done|].
  by destruct (gen_phrase_and_deck seed box_id).
Qed.

Lemma lock_done (g g' : R) (d d' : db) (n : Z) :
  lock true g d = (d', g', Done n) ->
  exists sess,
    is_locked sess = false /\
    d' = ensure_box_secret (session_seed sess) 1
           (with_sessions (Some (lock_session sess)) (ensure_session g d).1.1) /\
    (ensure_session g d).2 = sess /\
    sessions d' = Some (lock_session sess) /\
    participants d' = participants d /\
    n = get_participant_count d.
Proof.
  unfold lock. cbn [negb].
  pose proof (ensure_session_spec g d) as Hes.
  destruct (ensure_session g d) as [[d1 g1] sess] eqn:He.
  destruct (is_locked sess) eqn:Hl; [done|]. intros [= <- <- <-].
  exists sess. split; [done|]. split; [done|]. split; [done|].
  destruct (ensure_box_secret_keeps (session_seed sess) 1
              (with_sessions (Some (lock_session sess)) d1)) as (-> & _ & _).
  destruct (ensure_box_secret_others (session_seed sess) 1
              (with_sessions (Some (lock_session sess)) d1)) as (-> & _).
  split; [done|].
  assert (Hp : participants d1 = participants d).
  { destruct (sessions d); [by injection Hes as -> _ _|].
    destruct Hes as (seed & _ & [= -> _ _]). done. }
  split; [done|]. unfold get_participant_count. simpl. by rewrite Hp.
Qed.

(** Locking is one-way: once [/wib lock] has locked the entries, every
    Join is refused, a second lock is refused, and neither changes
    anything. *)
Theorem lock_is_one_way (g g' : R) (d d' : db) (n : Z) :
  lock true g d = (d', g', Done n) ->
  session_locked d' = true /\
  (forall user_id name, JoinView_join_button user_id name d' = (d', Reply "Entries are locked.")) /\
  (forall g2, lock true g2 d' = (d', g2, Reply "Entries already locked.")).
Proof.
  intros H. apply lock_done in H as (sess & _ & _ & _ & Hs & _).
  split; [unfold session_locked; by rewrite Hs|]. split.
  - intros user_id name. unfold JoinView_join_button. by rewrite Hs.
  - intros g2. unfold lock, ensure_session. cbn [negb]. by rewrite Hs.
Qed.

(** Locking prepares box 1 and counts the players: the number it
    announces is the number of participants not eliminated, and a session
    that had no box 1 yet gets a deck of ten cards with nothing revealed
    and, if box 1 had no slot either, an empty slot with no turns. *)
Theorem lock_prepares_box_one (g g' : R) (d d' : db) (n : Z) :
  lock true g d = (d', g', Done n) ->
  box_secrets d !! 1 = None ->
  n = Z.of_nat (size (filter (fun kv => eliminated kv.2 = false) (participants d))) /\
  exists row,
    box_secrets d' !! 1 = Some row /\
    length (deck row) = 10%nat /\ revealed row = ∅ /\
    (slot_state d !! 1 = None -> slot_state d' !! 1 = Some (Slot None 0 None)).
Proof.
  intros H Hnone. apply lock_done in H as (sess & _ & -> & Hes & _ & _ & ->).
  split; [done|].
  pose proof (ensure_session_spec g d) as Hspec.
  assert (Hb : box_secrets (ensure_session g d).1.1 = box_secrets d /\
               slot_state (ensure_session g d).1.1 = slot_state d).
  { destruct (sessions d); [by rewrite Hspec|]. destruct Hspec as (seed & _ & ->). done. }
  destruct Hb as [Hbs Hss].
  unfold ensure_box_secret. cbn [box_secrets with_sessions]. rewrite Hbs, Hnone.
  pose proof (gen_phrase_and_deck_cards (session_seed sess) 1) as [Hlen _].
  destruct (gen_phrase_and_deck (session_seed sess) 1) as [phrase dk]. simpl in Hlen.
  eexists. split; [simpl; by rewrite lookup_insert_eq|]. simpl.
  split; [done|]. split; [done|]. intros Hslot. rewrite Hss, Hslot. by rewrite lookup_insert_eq.
Qed.

(** A host command on a channel without a session creates one before it
    refuses: [/wib_q] leaves an unlocked session at box 1 with a six-digit
    seed drawn from the process-wide generator, and changes nothing
    else. *)
Theorem wib_q_creates_session (g : R) (d : db) :
  sessions d = None ->
  exists seed,
    100000 <= seed <= 999999 /\
    wib_q true g d =
      (with_sessions (Some (Session seed false 1 0 false)) d, (randint 100000 999999 g).2,
       Reply "Lock entries first.").
Proof.
  intros Hs. unfold wib_q. cbn [negb].
  pose proof (ensure_session_spec g d) as Hes. rewrite Hs in Hes.
  destruct Hes as (seed & Hseed & ->). by exists seed.
Qed.

End RegistrationFacts.

(** Joining while the lobby is open registers the user, also one who had
    been eliminated, and touches no other participant; joining again
    under the same name changes nothing more. *)
Theorem join_registers (user_id : Z) (name : string) (d : db) (sess : session) :
  sessions d = Some sess -> is_locked sess = false ->
  let d' := (JoinView_join_button user_id name d).1 in
  is_registered d' user_id = true /\
  (forall other, other <> user_id -> participants d' !! other = participants d !! other) /\
  JoinView_join_button user_id name d' = (d', Done ()).
Proof.
  intros Hs Hl. unfold JoinView_join_button. rewrite Hs, Hl. simpl.
  rewrite Hs, Hl. split; [|split].
  - unfold is_registered. simpl. by rewrite lookup_insert_eq.
  - intros other Hne. by rewrite lookup_insert_ne.
  - unfold with_participants. simpl. by rewrite insert_insert_eq.
Qed.

(** ** Ordering rounds *)

Lemma key_letter (i : Z) :
  0 <= i <= 4 ->
  (fun n => n - 65) <$> PyStr.ord (PyStr.upper (PyStr.strip (PyStr.chr (65 + i)))) = Some i.
Proof.
  intros Hi.
  assert (Hc : i = 0 \/ i = 1 \/ i = 2 \/ i = 3 \/ i = 4) by lia.
  by destruct Hc as [->|[->|[->|[->| ->]]]].
Qed.

Lemma key_letters (correct : list Z) :
  Forall (fun i => 0 <= i <= 4) correct ->
  mapM (fun x => (fun n => n - 65) <$> PyStr.ord x)
    ((fun x => PyStr.upper (PyStr.strip x)) <$> ((fun i => PyStr.chr (65 + i)) <$> correct)) =
  Some correct.
Proof.
  induction 1 as [|i l Hi _ IH]; [done|].
  rewrite !fmap_cons. cbn [mapM]. rewrite (key_letter i Hi), IH. done.
Qed.

Lemma filter_all {A} (P : A -> Prop) `{!forall x, Decision (P x)} (l : list A) :
  Forall P l -> filter P l = l.
Proof.
  induction 1 as [|x l Hx _ IH]; [done|]. by rewrite filter_cons_True, IH.
Qed.

Lemma position_matches_same (correct : list Z) :
  length correct = 5%nat -> position_matches correct correct = 5.
Proof.
  intros Hl. unfold position_matches. rewrite filter_all; [done|]. by apply Forall_forall.
Qed.

(** The answer key earns full marks: when the host publishes a generated
    ordering question for the slot holder and the slot holder submits the
    letters of its answer key, the submission is accepted with five
    turns, the round is closed and the slot shows five turns and no
    pending action. *)
Theorem answer_key_earns_five {R : Type} `{!RandomStream R} (fuel : nat) (seed box_id : Z)
  (prompt : string) (items : list string) (correct : list Z)
  (host_id user_id : Z) (a b c d e : string) (st : db) (sess : session) :
  gen_order_question fuel seed box_id = Some (prompt, items, correct) ->
  sessions st = Some sess -> is_locked sess = true -> current_box sess = box_id ->
  [a; b; c; d; e] = (fun i => PyStr.chr (65 + i)) <$> correct ->
  let st1 := (q_order_on_publish host_id host_id box_id user_id prompt items correct st).1 in
  let st2 := (order user_id a b c d e st1).1 in
  (order user_id a b c d e st1).2 = Done 5 /\
  or_is_active <$> order_rounds st2 !! box_id = Some false /\
  slot_state st2 !! box_id =
    (fun s => Slot (slot_user_id s) 5 None) <$> slot_state st !! box_id.
Proof.
  intros Hgen Hs Hl Hb Hletters st1 st2.
  apply gen_order_question_key in Hgen as (_ & Hlen & Hperm).
  assert (Hrange : Forall (fun i => 0 <= i <= 4) correct).
  { rewrite Hperm. repeat constructor; lia. }
  assert (Hst1 : st1 =
            with_order_rounds <[box_id := OrderRound user_id prompt items correct true]> st).
  { unfold st1, q_order_on_publish. by rewrite bool_decide_eq_true_2. }
  assert (Hord : order user_id a b c d e st1 =
            (with_slot_state (alter (award_turns 5) box_id)
               (with_order_rounds (alter deactivate_order box_id) st1), Done 5)).
  { unfold order. rewrite Hletters.
    rewrite bool_decide_eq_true_2.
    2:{ apply sorted_labels_iff. rewrite Hperm. vm_compute. done. }
    cbn [negb]. rewrite Hst1. cbn [sessions with_order_rounds]. rewrite Hs, Hl. cbn [negb].
    rewrite Hb. unfold with_order_rounds at 1. cbn [order_rounds]. rewrite lookup_insert_eq.
    cbn [negb or_is_active or_slot_user_id correct_order].
    rewrite bool_decide_eq_true_2 by done. cbn [negb].
    rewrite (key_letters correct Hrange).
    rewrite (order_turns_spec correct correct Hlen) by lia.
    by rewrite (position_matches_same correct Hlen). }
  subst st2. rewrite Hord. cbn [fst snd]. split; [done|].
  rewrite Hst1. simpl. rewrite lookup_alter_eq, lookup_insert_eq. split; [done|].
  by rewrite lookup_alter_eq.
Qed.

(** ** Generated questions and decks *)

Section MoreContentFacts.
Context {R : Type} `{!RandomStream R}.

(** The numeric question and its answer go together: the question is one
    of the four templates filled in with a coefficient between 3 and 11,
    and the answer is the value of the formula that this template
    prints. *)
Theorem numeric_question_matches_answer (seed box_id player_count : Z) :
  exists (i : nat) (k : Z),
    (i < 4)%nat /\ 3 <= k <= 11 /\
    gen_numeric_question seed box_id player_count =
      (PyStr.format
         [("seed", PyStr.of_Z seed); ("box", PyStr.of_Z box_id);
          ("players", PyStr.of_Z player_count); ("k", PyStr.of_Z k)] None
         (NUMERIC_TEMPLATES !!! i),
       [seed `mod` 97 + player_count * k;
        seed `mod` 100 - k + player_count * 2;
        seed `mod` 89 + player_count + k;
        seed `mod` 73 + k * player_count - box_id * 3] !!! i).
Proof.
  unfold gen_numeric_question, choice.
  pose proof (randbelow_lt (length NUMERIC_TEMPLATES)
                (seeded (seed * 100 + box_id * 7 + player_count)) ltac:(simpl; lia)) as Hi.
  destruct (randbelow (length NUMERIC_TEMPLATES) _) as [i g1]. simpl in Hi.
  pose proof (randint_range 3 11 g1 ltac:(lia)) as Hk.
  destruct (randint 3 11 g1) as [k g2]. simpl in Hk.
  exists i, k. split; [done|]. split; [done|].
  destruct i as [|[|[|[|i]]]]; try lia; reflexivity.
Qed.

Lemma order_items_trace (fuel n : nat) (i : Z) (items items' : list string)
  (values values' : list Z) (g g' : R) :
  order_items fuel n i items values g = Some (items', values', g') ->
  exists new,
    length new = n /\ values' = values ++ new /\
    items' = items ++ zip_with item_text ((fun k => i + Z.of_nat k) <$> seq 0 n) new.
Proof.
  revert i items values g. induction n as [|n IH]; intros i items values g; simpl.
  - intros [= <- <- <-]. exists []. by rewrite !app_nil_r.
  - destruct (randint 10 99 g) as [v g1].
    destruct (redraw fuel values v g1) as [[v' g2]|]; [|done]. simpl.
    intros Hoi. apply IH in Hoi as (new & Hlen & -> & ->).
    exists (v' :: new). split; [simpl; lia|]. rewrite <- !app_assoc. split; [done|].
    f_equal. simpl. rewrite Z.add_0_r. f_equal. f_equal.
    rewrite <- fmap_S_seq, <- list_fmap_compose. apply list_fmap_ext. intros _ k _. simpl. lia.
Qed.

Lemma enumerate_lookup {A} `{!Inhabited A} (l : list A) (p : Z * A) :
  p ∈ enumerate l -> l !!! Z.to_nat p.1 = p.2.
Proof.
  unfold enumerate. intros Hp. apply list_elem_of_lookup in Hp as [k Hk].
  apply lookup_zip_with_Some in Hk as (x & y & -> & Hx & Hy). simpl.
  apply list_lookup_fmap_Some in Hx as (k' & -> & Hk'). apply lookup_seq in Hk' as [-> _].
  simpl. rewrite Nat2Z.id. by apply list_lookup_total_correct.
Qed.

Lemma StronglySorted_strict (l : list Z) :
  StronglySorted Z.le l -> NoDup l -> StronglySorted Z.lt l.
Proof.
  induction 1 as [|x l Hl IH Hx]; intros Hnd; [constructor|].
  apply NoDup_cons in Hnd as [Hnx Hnd]. constructor; [by apply IH|].
  apply Forall_forall. intros y Hy. rewrite Forall_forall in Hx. specialize (Hx y Hy).
  assert (x <> y) by (intros ->; done). lia.
Qed.

#[local] Instance snd_le_trans {A} :
  Transitive (fun a b : A * Z => Z.leb (snd a) (snd b) = true).
Proof. intros a b c. lia. Qed.

(** An ordering question shows five distinct values between 10 and 99,
    labelled A to E in the order they were drawn, and its answer key
    lists the positions from the smallest value to the largest. *)
Theorem order_question_key_sorts (fuel : nat) (seed box_id : Z) (prompt : string)
  (items : list string) (correct : list Z) :
  gen_order_question fuel seed box_id = Some (prompt, items, correct) ->
  exists values,
    length values = 5%nat /\ NoDup values /\ Forall (fun v => 10 <= v <= 99) values /\
    items = zip_with item_text [0; 1; 2; 3; 4] values /\
    correct ≡ₚ [0; 1; 2; 3; 4] /\
    StronglySorted Z.lt ((fun i => values !!! Z.to_nat i) <$> correct).
Proof.
  intros Hgen. pose proof Hgen as Hkey. apply gen_order_question_key in Hkey as (_ & _ & Hperm).
  unfold gen_order_question in Hgen.
  destruct (choice ORDER_TEMPLATES _) as [mode g1].
  destruct (order_items fuel 5 0 [] [] g1) as [[[its vals] g2]|] eqn:Hoi; [|done].
  simpl in Hgen.
  assert (Hcorrect : correct = fst <$> py_sorted Z.leb snd (enumerate vals)).
  { destruct (_ || _); by injection Hgen as _ _ <-. }
  assert (Hitems : items = its).
  { destruct (_ || _); by injection Hgen as _ <- _. }
  clear Hgen.
  pose proof Hoi as Htrace. apply order_items_trace in Htrace as (new & Hlen & Hv & Hi).
  apply order_items_values in Hoi as (_ & _ & Hnd & Hrange); [|constructor|constructor].
  rewrite app_nil_l in Hv, Hi. subst vals its items.
  exists new. split; [done|]. split; [done|]. split; [done|].
  split; [done|]. split; [done|].
  rewrite Hcorrect, <- list_fmap_compose.
  set (sorted := py_sorted Z.leb snd (enumerate new)).
  assert (Hsnd : (fun i => new !!! Z.to_nat i) ∘ fst <$> sorted = snd <$> sorted).
  { apply list_fmap_ext. intros k p Hp. simpl. apply enumerate_lookup.
    apply list_elem_of_lookup_2 in Hp. unfold sorted in Hp. by rewrite py_sorted_perm in Hp. }
  rewrite Hsnd. apply StronglySorted_strict.
  - apply (StronglySorted_fmap snd (fun a b : Z * Z => Z.leb (snd a) (snd b) = true) Z.le).
    + intros a b. lia.
    + apply Sorted_StronglySorted; [apply _|]. apply py_sorted_Sorted. intros a b. lia.
  - unfold sorted. rewrite py_sorted_perm. unfold enumerate. rewrite snd_zip; [done|].
    rewrite length_fmap, length_seq. lia.
Qed.

Lemma choices1_elem {A} `{!Inhabited A} (population : list A) (ws : list Z) (g : R) :
  length population = length ws -> ws <> [] -> (choices1 population ws g).1 ∈ population.
Proof.
  intros Hlen Hne. unfold choices1.
  pose proof (weighted_index_lt ws g Hne) as Hlt.
  destruct (weighted_index ws g) as [i g']. simpl in *.
  apply list_elem_of_lookup_total_2. lia.
Qed.

Lemma draw_cards_inv (n : nat) (types : list tag) (ws : list Z) (other : tag -> card)
  (dk : list card) (g : R) (P : card -> Prop) :
  (forall w, P (piece w)) -> (forall t, t ∈ types -> t <> PIECE -> P (other t)) ->
  length types = length ws -> ws <> [] -> Forall P dk ->
  Forall P (draw_cards n types ws other dk g).1 /\
  (forall c, c ∈ dk -> c ∈ (draw_cards n types ws other dk g).1).
Proof.
  intros Hp Ho Hlen Hne. revert dk g. induction n as [|n IH]; intros dk g Hdk; simpl; [done|].
  pose proof (choices1_elem types ws g Hlen Hne) as Ht.
  destruct (choices1 types ws g) as [t g1]. simpl in Ht. case_decide as Hpiece.
  - destruct (choice [W1; W2; W3] g1) as [w g2].
    destruct (IH (dk ++ [piece w]) g2) as [Hf Hin].
    { apply Forall_app. split; [done|]. by apply Forall_singleton. }
    split; [done|]. intros c Hc. apply Hin, elem_of_app. by left.
  - destruct (IH (dk ++ [other t]) g1) as [Hf Hin].
    { apply Forall_app. split; [done|]. apply Forall_singleton. by apply Ho. }
    split; [done|]. intros c Hc. apply Hin, elem_of_app. by left.
Qed.

(** What a box holds: the three words of the phrase come from the three
    word banks; the deck has ten cards, among them a piece for each of
    the three words; every piece names a word and no other card does;
    and the card types are those of the box's tier: pieces and passes in
    box 1, steals too in boxes 2 to 5, donations and wildcards too in the
    mega box. *)
Theorem deck_composition (seed box_id : Z) :
  let phrase := (gen_phrase_and_deck seed box_id).1 in
  let dk := (gen_phrase_and_deck seed box_id).2 in
  let types :=
    if decide (box_id = 1) then [PIECE; PASS]
    else if decide (2 <= box_id <= 5) then [PIECE; PASS; STEAL]
    else [PIECE; PASS; STEAL; DONATE; WILDCARD] in
  (phrase.1.1 ∈ WORD_BANK_1) /\ (phrase.1.2 ∈ WORD_BANK_2) /\ (phrase.2 ∈ WORD_BANK_3) /\
  length dk = 10%nat /\
  (piece W1 ∈ dk) /\ (piece W2 ∈ dk) /\ (piece W3 ∈ dk) /\
  Forall (fun c => c_type c ∈ types /\ (c_type c = PIECE <-> is_Some (c_reveal c))) dk.
Proof.
  intros phrase dk types.
  pose proof (gen_phrase_and_deck_cards seed box_id) as [Hlen _].
  subst phrase dk. unfold gen_phrase_and_deck in *.
  pose proof (choice_elem WORD_BANK_1 (seeded (seed * 300 + box_id * 31)) ltac:(done)) as H1.
  destruct (choice WORD_BANK_1 _) as [w1 g1].
  pose proof (choice_elem WORD_BANK_2 g1 ltac:(done)) as H2.
  destruct (choice WORD_BANK_2 g1) as [w2 g2].
  pose proof (choice_elem WORD_BANK_3 g2 ltac:(done)) as H3.
  destruct (choice WORD_BANK_3 g2) as [w3 g3]. cbv zeta in *.
  set (dk0 := [piece W1; piece W2; piece W3]) in *.
  set (P := fun c => c_type c ∈ types /\ (c_type c = PIECE <-> is_Some (c_reveal c))).
  assert (Hpiece : forall w, P (piece w)).
  { intros w. split; [|by split; [eexists|]].
    unfold types. simpl. repeat case_decide; apply list_elem_of_here. }
  assert (Hdk0 : Forall P dk0) by (repeat constructor; apply Hpiece).
  assert (Hnone : forall t, t <> PIECE -> t ∈ types -> P (Card t None)).
  { intros t Ht Hin. split; [done|]. simpl. split; [done|]. by intros [? ?]. }
  assert (Hdraw : exists dk1 g4,
            (if decide (box_id = 1)
             then draw_cards 7 [PIECE; PASS] [7; 3] (fun _ => Card PASS None) dk0 g3
             else if decide (2 <= box_id <= 5)
             then draw_cards 7 [PIECE; PASS; STEAL] [6; 2; 2] (fun t => Card t None) dk0 g3
             else draw_cards 7 [PIECE; PASS; STEAL; DONATE; WILDCARD] [5; 2; 2; 2; 1]
                    (fun t => Card t None) dk0 g3) = (dk1, g4) /\
            Forall P dk1 /\ forall c, c ∈ dk0 -> c ∈ dk1).
  { unfold types in *. repeat case_decide.
    - destruct (draw_cards_inv 7 [PIECE; PASS] [7; 3] (fun _ => Card PASS None) dk0 g3 P)
        as [Hf Hin]; try done.
      { intros t _ _. apply Hnone; [done|]. apply list_elem_of_further, list_elem_of_here. }
      destruct (draw_cards 7 _ _ _ dk0 g3) as [dk1 g4]. by exists dk1, g4.
    - destruct (draw_cards_inv 7 [PIECE; PASS; STEAL] [6; 2; 2] (fun t => Card t None) dk0 g3 P)
        as [Hf Hin]; try done.
      { intros t Hin Ht. by apply Hnone. }
      destruct (draw_cards 7 _ _ _ dk0 g3) as [dk1 g4]. by exists dk1, g4.
    - destruct (draw_cards_inv 7 [PIECE; PASS; STEAL; DONATE; WILDCARD] [5; 2; 2; 2; 1]
                  (fun t => Card t None) dk0 g3 P) as [Hf Hin]; try done.
      { intros t Hin Ht. by apply Hnone. }
      destruct (draw_cards 7 _ _ _ dk0 g3) as [dk1 g4]. by exists dk1, g4. }
  destruct Hdraw as (dk1 & g4 & Heq & Hf & Hin). rewrite Heq in *.
  pose proof (shuffle_perm dk1 g4) as Hsh. destruct (shuffle dk1 g4) as [dk2 g5].
  simpl in *. repeat (split; [done|]).
  split; [rewrite Hsh; apply Hin; apply list_elem_of_here|].
  split; [rewrite Hsh; apply Hin; apply list_elem_of_further, list_elem_of_here|].
  split; [rewrite Hsh; apply Hin; do 2 apply list_elem_of_further; apply list_elem_of_here|].
  by rewrite Hsh.
Qed.

End MoreContentFacts.

(** ** The card loop *)

Section CardLoop.
Context {R : Type} `{!RandomStream R}.

Lemma callback_raised (user_id : Z) (idx : nat) (g g' : R) (d d' : db) (exn : string) :
  CardButton_callback user_id idx g d = (d', g', Raised exn) ->
  exists sess slot row,
    sessions d = Some sess /\ slot_state d !! current_box sess = Some slot /\
    pending_action slot = None /\
    box_secrets d !! current_box sess = Some row /\ (idx ∉ revealed row) /\
    deck row !! idx = None.
Proof.
  unfold CardButton_callback. intros H.
  destruct (sessions d) as [sess|] eqn:Hs; [|done].
  destruct (slot_state d !! current_box sess) as [slot|] eqn:Hslot; [|done].
  destruct (slot_user_id slot) as [holder|] eqn:Hh; [|done].
  case_bool_decide as Hu; [|done]. cbn [negb] in H.
  case_bool_decide as Ht; [done|].
  case_bool_decide as Hp; [done|].
  destruct (box_secrets d !! current_box sess) as [row|] eqn:Hrow; [|done].
  case_bool_decide as Hr; [done|].
  destruct (deck row !! idx) as [card|] eqn:Hc.
  - repeat case_decide; try destruct (choice _ g) as [chosen g2]; repeat case_decide; done.
  - exists sess, slot, row. repeat (split; [done|]). split; [|done].
    destruct (pending_action slot); [|done]. destruct Hp. by eexists.
Qed.

Lemma callback_frame (user_id : Z) (idx : nat) (g : R) (d : db) :
  let d' := (CardButton_callback user_id idx g d).1.1 in
  sessions d' = sessions d /\ participants d' = participants d /\
  box_ownership d' = box_ownership d /\ puzzle_attempts d' = puzzle_attempts d /\
  trivia_submissions d' = trivia_submissions d /\
  forall b, deck <$> box_secrets d' !! b = deck <$> box_secrets d !! b.
Proof.
  unfold CardButton_callback.
  destruct (sessions d) as [sess|] eqn:Hs; [|done].
  destruct (slot_state d !! current_box sess) as [slot|] eqn:Hslot; [|done].
  destruct (slot_user_id slot) as [holder|] eqn:Hh; [|done].
  case_bool_decide as Hu; [|done]. cbn [negb].
  case_bool_decide as Ht; [done|].
  case_bool_decide as Hp; [done|].
  destruct (box_secrets d !! current_box sess) as [row|] eqn:Hrow; [|done].
  case_bool_decide as Hr; [done|].
  destruct (deck row !! idx) as [card|] eqn:Hc; [|done].
  repeat case_decide; try destruct (choice _ g) as [chosen g2]; repeat case_decide;
    simpl; repeat (split; [done|]); intros bx;
    (destruct (decide (bx = current_box sess)) as [->|Hne];
     [rewrite lookup_alter_eq, Hrow; done|by rewrite lookup_alter_ne]).
Qed.

(** A card is revealed once: after an accepted reveal of a card, every
    later press of that card's button, by anyone, is answered with a
    refusal and changes nothing. *)
Theorem card_revealed_once (user_id user_id' : Z) (idx : nat) (g g1 g2 : R) (d d1 : db)
  (eff : card_effect) :
  CardButton_callback user_id idx g d = (d1, g1, Done eff) ->
  exists msg, CardButton_callback user_id' idx g2 d1 = (d1, g2, Reply msg).
Proof.
  intros H1. pose proof (callback_frame user_id idx g d) as Hfr. rewrite H1 in Hfr.
  simpl in Hfr. destruct Hfr as (Hs1 & _).
  apply callback_done in H1
    as (sess & slot & row & card & Hs & _ & _ & _ & _ & _ & _ & _ & Hrow1 & _).
  assert (Hin : idx ∈ revealed (set_revealed ({[idx]} ∪ revealed row) row))
    by (simpl; set_solver).
  destruct (CardButton_callback user_id' idx g2 d1) as [[d2 g3] out] eqn:H2.
  destruct out as [msg|exn|eff2].
  - apply callback_rejected in H2 as [-> ->]; [|done]. by exists msg.
  - apply callback_raised in H2 as (sess' & _ & row' & Hs' & _ & _ & Hrow' & Hnot & _).
    rewrite Hs1, Hs in Hs'. injection Hs' as <-. rewrite Hrow1 in Hrow'. by injection Hrow' as <-.
  - apply callback_done in H2 as (sess' & _ & row' & _ & Hs' & _ & _ & _ & _ & Hrow' & Hnot & _).
    rewrite Hs1, Hs in Hs'. injection Hs' as <-. rewrite Hrow1 in Hrow'. by injection Hrow' as <-.
Qed.

(** A special card stops the loop: after the reveal of a PASS, STEAL or
    DONATE card, or of a wildcard resolved to one of them, the action is
    pending on the slot and every further press of a card button, by
    anyone and on any card, is refused and changes nothing. *)
Theorem special_card_blocks_reveals (user_id user_id' : Z) (idx idx' : nat) (g g1 g2 : R)
  (d d1 : db) (eff : card_effect) (action : tag) (sess : session) :
  CardButton_callback user_id idx g d = (d1, g1, Done eff) ->
  eff = SpecialRevealed action \/ eff = WildcardResolved action ->
  sessions d = Some sess ->
  pending_action <$> slot_state d1 !! current_box sess = Some (Some action) /\
  exists msg, CardButton_callback user_id' idx' g2 d1 = (d1, g2, Reply msg).
Proof.
  intros H1 Heff Hs. pose proof (callback_frame user_id idx g d) as Hfr. rewrite H1 in Hfr.
  simpl in Hfr. destruct Hfr as (Hs1 & _).
  apply callback_done in H1
    as (sess' & slot & row & card & Hs' & _ & _ & _ & _ & _ & _ & _ & _ & Hslot1 & _).
  rewrite Hs in Hs'. injection Hs' as <-.
  assert (Hpend : pending_after eff = Some action) by (by destruct Heff as [-> | ->]).
  rewrite Hpend in Hslot1. split; [by rewrite Hslot1|].
  destruct (CardButton_callback user_id' idx' g2 d1) as [[d2 g3] out] eqn:H2.
  destruct out as [msg|exn|eff2].
  - apply callback_rejected in H2 as [-> ->]; [|done]. by exists msg.
  - apply callback_raised in H2 as (sess' & slot' & _ & Hs' & Hslot' & Hp & _).
    rewrite Hs1, Hs in Hs'. injection Hs' as <-. rewrite Hslot1 in Hslot'.
    injection Hslot' as <-. done.
  - apply callback_done in H2 as (sess' & slot' & _ & _ & Hs' & Hslot' & _ & _ & Hp & _).
    rewrite Hs1, Hs in Hs'. injection Hs' as <-. rewrite Hslot1 in Hslot'.
    injection Hslot' as <-. done.
Qed.

End CardLoop.

(** ** Pass, steal and donate *)

Lemma other_players_elem (d : db) (slot_user_id user_id : Z) :
  user_id ∈ other_players d slot_user_id <->
  is_registered d user_id = true /\ user_id <> slot_user_id.
Proof.
  unfold other_players, is_registered. rewrite list_elem_of_fmap. split.
  - intros ([u p] & -> & Hin). rewrite py_sorted_perm in Hin.
    apply list_elem_of_filter in Hin as [[He Hne] Hin]. apply elem_of_map_to_list in Hin.
    simpl in *. rewrite Hin, He. done.
  - intros [Hr Hne]. destruct (participants d !! user_id) as [p|] eqn:Hp; [|done].
    exists (user_id, p). split; [done|]. rewrite py_sorted_perm.
    apply list_elem_of_filter. split; [|by apply elem_of_map_to_list].
    simpl. split; [|done]. by destruct (eliminated p).
Qed.

Lemma pending_slot_spec (d : db) (action : tag) (box_id holder : Z) :
  pending_slot d action = Some (box_id, holder) <->
  exists sess slot,
    sessions d = Some sess /\ box_id = current_box sess /\
    slot_state d !! box_id = Some slot /\
    slot_user_id slot = Some holder /\ pending_action slot = Some action.
Proof.
  unfold pending_slot. split.
  - destruct (sessions d) as [sess|]; [|done]. simpl.
    destruct (slot_state d !! current_box sess) as [slot|] eqn:Hslot; [|done]. simpl.
    destruct (slot_user_id slot) as [h|] eqn:Hh; [|done]. simpl.
    case_bool_decide; [|done]. intros [= <- <-]. by exists sess, slot.
  - intros (sess & slot & -> & -> & Hslot & Hh & Hp). simpl. rewrite Hslot. simpl.
    rewrite Hh. simpl. by rewrite bool_decide_eq_true_2.
Qed.

Lemma pass_show_done (d : db) (v : pass_view) :
  pass_show true d = Done v ->
  pending_slot d PASS = Some (pv_box_id v, pv_slot_user_id v) /\
  pv_options v = take 25 (other_players d (pv_slot_user_id v)).
Proof.
  unfold pass_show. cbn [negb]. destruct (sessions d); [|done].
  destruct (pending_slot d PASS) as [[b h]|]; [|done].
  destruct (other_players d h) as [|p ps] eqn:Hop; [done|]. intros [= <-]. simpl.
  by rewrite Hop.
Qed.

(** A pass hands the slot over clean.  The choices of [/wib pass_show]
    are at most twenty-five registered players other than the slot
    holder; when the slot holder picks one, that player holds the slot
    with no turns and no pending action, so that a card press of the new
    holder is refused until turns are earned; a pick by anyone else is
    refused and changes nothing. *)
Theorem pass_hands_over {R : Type} `{!RandomStream R} (d : db) (v : pass_view) (target_id : Z) :
  pass_show true d = Done v -> target_id ∈ pv_options v ->
  let d' := (PassSelect_callback v (pv_slot_user_id v) target_id d).1 in
  (length (pv_options v) <= 25)%nat /\
  target_id <> pv_slot_user_id v /\ is_registered d target_id = true /\
  slot_state d' !! pv_box_id v = Some (Slot (Some target_id) 0 None) /\
  (forall user_id, user_id <> pv_slot_user_id v ->
     PassSelect_callback v user_id target_id d = (d, Reply "Only the slot holder can choose.")) /\
  (forall idx (g : R),
     CardButton_callback target_id idx g d' = (d', g, Reply "No turns remaining.")).
Proof.
  intros Hshow Hin d'. apply pass_show_done in Hshow as [Hpend Hopt].
  apply pending_slot_spec in Hpend as (sess & slot & Hs & Hb & Hslot & Hh & Hp).
  rewrite Hopt in Hin. apply elem_of_take in Hin as (i & Hi & _).
  apply list_elem_of_lookup_2, other_players_elem in Hi as [Hreg Hne].
  assert (Hd' : d' = with_slot_state (alter (pass_slot target_id) (pv_box_id v)) d).
  { unfold d', PassSelect_callback. by rewrite bool_decide_eq_true_2. }
  assert (Hslot' : slot_state d' !! pv_box_id v = Some (Slot (Some target_id) 0 None)).
  { rewrite Hd'. simpl. by rewrite lookup_alter_eq, Hslot. }
  split; [rewrite Hopt, length_take; lia|]. repeat (split; [done|]). split.
  - intros user_id Hu. unfold PassSelect_callback. by rewrite bool_decide_eq_false_2.
  - intros idx g. unfold CardButton_callback.
    assert (Hs' : sessions d' = Some sess) by (by rewrite Hd').
    rewrite Hs', <- Hb, Hslot'. cbn [slot_user_id turns_left].
    rewrite bool_decide_eq_true_2 by done. cbn [negb]. by rewrite bool_decide_eq_true_2.
Qed.

Lemma stealable_boxes_elem (d : db) (box_id owner_id : Z) :
  (box_id, owner_id) ∈ stealable_boxes d <->
  box_ownership d !! box_id = Some owner_id /\ 1 <= box_id <= 5.
Proof.
  unfold stealable_boxes. rewrite py_sorted_perm, list_elem_of_filter, elem_of_map_to_list.
  simpl. tauto.
Qed.

Lemma steal_show_done (d : db) (v : steal_view) :
  steal_show true d = Done v ->
  pending_slot d STEAL = Some (sv_box_id v, sv_slot_user_id v) /\
  sv_buttons v = stealable_boxes d.
Proof.
  unfold steal_show. cbn [negb]. destruct (sessions d); [|done].
  destruct (pending_slot d STEAL) as [[b h]|]; [|done].
  destruct (stealable_boxes d) as [|p ps] eqn:Hop; [done|]. by intros [= <-].
Qed.

(** A steal moves one owned box to the slot holder.  The buttons of
    [/wib steal_show] are the owned boxes 1 to 5 with their owners; the
    slot holder's own boxes are refused; pressing another's box gives it
    to the slot holder and clears the pending action, while the
    ownership of every other box, the mega box included, stays as it
    was; and a press by anyone else is refused and changes nothing. *)
Theorem steal_moves_one_box (d : db) (v : steal_view) (box_to_steal owner_id : Z) :
  steal_show true d = Done v -> (box_to_steal, owner_id) ∈ sv_buttons v ->
  let holder := sv_slot_user_id v in
  let d' := (StealButton_callback v (box_to_steal, owner_id) holder d).1 in
  1 <= box_to_steal <= 5 /\ box_ownership d !! box_to_steal = Some owner_id /\
  (owner_id = holder ->
     StealButton_callback v (box_to_steal, owner_id) holder d =
       (d, Reply "You already own that box.")) /\
  (owner_id <> holder ->
     (StealButton_callback v (box_to_steal, owner_id) holder d).2 = Done () /\
     box_ownership d' !! box_to_steal = Some holder /\
     (forall b, b <> box_to_steal -> box_ownership d' !! b = box_ownership d !! b) /\
     pending_action <$> slot_state d' !! sv_box_id v = Some None) /\
  (forall user_id, user_id <> holder ->
     StealButton_callback v (box_to_steal, owner_id) user_id d =
       (d, Reply "Only the slot holder can steal.")).
Proof.
  intros Hshow Hin holder d'. apply steal_show_done in Hshow as [Hpend Hbtn].
  rewrite Hbtn in Hin. apply stealable_boxes_elem in Hin as [Hown Hrange].
  apply pending_slot_spec in Hpend as (sess & slot & Hs & Hb & Hslot & Hh & Hp).
  split; [done|]. split; [done|]. split; [|split].
  - intros ->. unfold StealButton_callback. by rewrite bool_decide_eq_true_2.
  - intros Hne. unfold d', StealButton_callback.
    rewrite bool_decide_eq_true_2 by done. cbn [negb]. rewrite bool_decide_eq_false_2 by done.
    simpl. split; [done|]. split; [by rewrite lookup_alter_eq, Hown|].
    split; [intros b Hb'; by rewrite lookup_alter_ne|].
    by rewrite lookup_alter_eq, Hslot.
  - intros user_id Hu. unfold StealButton_callback. by rewrite bool_decide_eq_false_2.
Qed.

Lemma owned_boxes_elem (d : db) (user_id box_id : Z) :
  box_id ∈ owned_boxes d user_id <->
  box_ownership d !! box_id = Some user_id /\ 1 <= box_id <= 5.
Proof.
  unfold owned_boxes. rewrite list_elem_of_fmap. split.
  - intros ([b o] & -> & Hin). apply list_elem_of_filter in Hin as [Ho Hin].
    apply stealable_boxes_elem in Hin. simpl in *. by subst.
  - intros [Hown Hr]. exists (box_id, user_id). split; [done|].
    apply list_elem_of_filter. split; [done|]. by apply stealable_boxes_elem.
Qed.

Lemma donate_show_done (d : db) (v : donate_view) :
  donate_show true d = Done v ->
  dv_box_id v = 6 /\
  pending_slot d DONATE = Some (dv_box_id v, dv_slot_user_id v) /\
  dv_owned_boxes v = owned_boxes d (dv_slot_user_id v) /\
  dv_recipients v = take 25 (other_players d (dv_slot_user_id v)).
Proof.
  unfold donate_show. cbn [negb]. destruct (sessions d) as [sess|] eqn:Hs; [|done].
  case_bool_decide as H6; [|done]. cbn [negb].
  destruct (pending_slot d DONATE) as [[b h]|] eqn:Hpend; [|done].
  assert (Hb : b = 6).
  { apply pending_slot_spec in Hpend as (sess' & _ & Hs' & -> & _). congruence. }
  destruct (owned_boxes d h) as [|o os] eqn:Hown; [done|].
  destruct (other_players d h) as [|p ps] eqn:Hop; [done|]. intros [= <-]. simpl.
  by rewrite Hown, Hop.
Qed.

(** A donation gives one of the slot holder's boxes away, in the mega box
    only.  [/wib donate_show] offers the boxes 1 to 5 that the slot holder
    owns and registered players other than the slot holder; once a box is
    selected, choosing a recipient gives that box to the recipient,
    leaves every other box with its owner and clears the pending action;
    without a selected box the choice of a recipient is refused.  And
    whatever the message and the state, choosing a recipient never takes
    a box from someone who is not the slot holder. *)
Theorem donate_gives_one_box (d : db) (v : donate_view) (box target_id : Z) :
  donate_show true d = Done v -> box ∈ dv_owned_boxes v -> target_id ∈ dv_recipients v ->
  let holder := dv_slot_user_id v in
  let d' := (RecipientSelect_callback v (Some box) holder target_id d).1 in
  dv_box_id v = 6 /\ 1 <= box <= 5 /\ box_ownership d !! box = Some holder /\
  target_id <> holder /\ is_registered d target_id = true /\
  BoxSelect_callback v None holder box = (Some box, Done ()) /\
  RecipientSelect_callback v None holder target_id d = (d, Reply "Select a box first.") /\
  box_ownership d' !! box = Some target_id /\
  (forall b, b <> box -> box_ownership d' !! b = box_ownership d !! b) /\
  pending_action <$> slot_state d' !! dv_box_id v = Some None /\
  (forall v0 chosen user_id target0 d0 b owner,
     box_ownership d0 !! b = Some owner -> owner <> dv_slot_user_id v0 ->
     box_ownership (RecipientSelect_callback v0 chosen user_id target0 d0).1 !! b = Some owner).
Proof.
  intros Hshow Hbox Htarget holder d'.
  apply donate_show_done in Hshow as (H6 & Hpend & Hown & Hrec).
  rewrite Hown in Hbox. apply owned_boxes_elem in Hbox as [Hob Hr].
  rewrite Hrec in Htarget. apply elem_of_take in Htarget as (i & Hi & _).
  apply list_elem_of_lookup_2, other_players_elem in Hi as [Hreg Hne].
  apply pending_slot_spec in Hpend as (sess & slot & Hs & Hb & Hslot & Hh & Hp).
  repeat (split; [done|]).
  split; [unfold BoxSelect_callback; by rewrite bool_decide_eq_true_2|].
  split; [unfold RecipientSelect_callback; by rewrite bool_decide_eq_true_2|].
  unfold d', RecipientSelect_callback. rewrite bool_decide_eq_true_2 by done. simpl.
  split; [rewrite lookup_alter_eq, Hob; simpl; unfold give_box; by rewrite bool_decide_eq_true_2|].
  split; [intros b Hb'; by rewrite lookup_alter_ne|].
  split; [by rewrite lookup_alter_eq, Hslot|].
  intros v0 chosen user_id target0 d0 b owner Hown0 Hno.
  unfold RecipientSelect_callback. case_bool_decide; [|done]. simpl.
  destruct chosen as [cb|]; [|done]. simpl.
  destruct (decide (b = cb)) as [->|Hbn]; [|by rewrite lookup_alter_ne].
  rewrite lookup_alter_eq, Hown0. simpl. unfold give_box. by rewrite bool_decide_eq_false_2.
Qed.

(** ** Puzzle attempts *)

Lemma mark_checked_key (box_id id score : Z) (a : puzzle_attempt) :
  pa_box_id (mark_checked box_id id score a) = pa_box_id a /\
  attempt_id (mark_checked box_id id score a) = attempt_id a /\
  pa_user_id (mark_checked box_id id score a) = pa_user_id a.
Proof. unfold mark_checked. by case_bool_decide. Qed.

Lemma check_puzzle_attempts (host : bool) (d : db) :
  exists box_id id score,
    puzzle_attempts (check_puzzle host d).1 = puzzle_attempts d \/
    puzzle_attempts (check_puzzle host d).1 = mark_checked box_id id score <$> puzzle_attempts d.
Proof.
  unfold check_puzzle. exists (default 0 (current_box <$> sessions d)).
  destruct host; [|by exists 0, 0; left]. cbn [negb].
  destruct (sessions d) as [sess|]; [|by exists 0, 0; left].
  destruct (box_secrets d !! current_box sess) as [secret|]; [|by exists 0, 0; left].
  destruct (latest_unchecked d (current_box sess)) as [a|]; [|by exists 0, 0; left].
  eexists (attempt_id a), _. right. case_bool_decide; [done|].
  by destruct (next_closest_puzzle_attempt _ _ _ _).
Qed.

Lemma attempts_unique_add (box_id user_id : Z) (w1 w2 w3 : string) (now : Z) (d : db) :
  attempts_unique d ->
  attempts_unique (PuzzleModal_on_submit box_id user_id w1 w2 w3 now d).1.
Proof.
  unfold attempts_unique. intros Hd.
  unfold PuzzleModal_on_submit. simpl. rewrite fmap_app. simpl.
  apply NoDup_app. split; [done|]. split; [|apply NoDup_singleton].
  intros k Hk Hk'. apply list_elem_of_singleton in Hk'. subst k.
  apply list_elem_of_fmap in Hk as (a & [= Hb Hi] & Ha).
  destruct (max_attempt_id_bounds d box_id) as [_ Hmax].
  specialize (Hmax a Ha (eq_sym Hb)). lia.
Qed.

Lemma attempts_unique_check (host : bool) (d : db) :
  attempts_unique d -> attempts_unique (check_puzzle host d).1.
Proof.
  unfold attempts_unique. intros Hd.
  destruct (check_puzzle_attempts host d) as (b & i & s & [-> | ->]); [done|].
  rewrite <- list_fmap_compose.
  erewrite list_fmap_ext; [exact Hd|]. intros _ a _. simpl.
  by destruct (mark_checked_key b i s a) as (-> & -> & _).
Qed.

(** Attempt ids never clash: if no two attempts share a box and an id,
    this is still so after a guess is stored and after a host check, so
    the insert of [PuzzleModal.on_submit] never meets an id in use. *)
Theorem attempt_ids_stay_unique (box_id user_id : Z) (w1 w2 w3 : string) (now : Z)
  (host : bool) (d : db) :
  attempts_unique d ->
  attempts_unique (PuzzleModal_on_submit box_id user_id w1 w2 w3 now d).1 /\
  attempts_unique (check_puzzle host d).1.
Proof.
  intros Hd. split; [by apply attempts_unique_add|by apply attempts_unique_check].
Qed.

Lemma score_three_iff (correct_words guess_words : string * string * string) :
  compute_puzzle_position_score correct_words guess_words = 3 <-> correct_words = guess_words.
Proof.
  destruct correct_words as [[c1 c2] c3], guess_words as [[x1 x2] x3].
  unfold compute_puzzle_position_score. simpl.
  repeat case_bool_decide; split; intros Heq; try lia; try congruence.
Qed.

Lemma unchecked_after_mark (d : db) (box_id id score : Z) :
  unchecked_attempts (with_puzzle_attempts (fmap (mark_checked box_id id score)) d) box_id =
  remaining_attempts d box_id id.
Proof.
  unfold unchecked_attempts, remaining_attempts, box_attempts, with_puzzle_attempts.
  cbn [puzzle_attempts].
  induction (puzzle_attempts d) as [|a l IH]; [done|].
  rewrite fmap_cons. unfold mark_checked at 1.
  case_bool_decide as Hm.
  - destruct Hm as [Hb Hi]. rewrite !filter_cons. simpl.
    rewrite !decide_True by done. rewrite !filter_cons. simpl.
    rewrite decide_False by (intros [_ Hx]; done). apply IH.
  - rewrite !filter_cons. case_decide as Hbox; [|apply IH].
    rewrite !filter_cons. case_decide as Hc.
    + rewrite decide_True; [by rewrite IH|]. split; [done|]. intros Hi. by destruct Hm.
    + rewrite decide_False by (intros [? _]; done). apply IH.
Qed.

Lemma filter_and_length_le {A} (P Q : A -> Prop)
  `{!forall x, Decision (P x)} `{!forall x, Decision (Q x)} (l : list A) :
  (length (filter (fun x => P x /\ Q x) l) <= length (filter P l))%nat.
Proof.
  induction l as [|x l IH]; [done|]. rewrite !filter_cons.
  destruct (decide (P x /\ Q x)) as [[HP HQ]|Hn].
  - rewrite decide_True by done. simpl. lia.
  - destruct (decide (P x)); simpl; lia.
Qed.

Lemma filter_and_length_lt {A} (P Q : A -> Prop)
  `{!forall x, Decision (P x)} `{!forall x, Decision (Q x)} (l : list A) (a : A) :
  a ∈ l -> P a -> ~ Q a ->
  (length (filter (fun x => P x /\ Q x) l) < length (filter P l))%nat.
Proof.
  intros Hin HP HQ. induction l as [|x l IH]; [by apply not_elem_of_nil in Hin|].
  rewrite !filter_cons. apply elem_of_cons in Hin as [<- | Hin].
  - rewrite decide_False by tauto. rewrite decide_True by done. simpl.
    pose proof (filter_and_length_le P Q l). lia.
  - specialize (IH Hin). destruct (decide (P x /\ Q x)) as [[HPx HQx]|Hn].
    + rewrite decide_True by done. simpl. lia.
    + destruct (decide (P x)); simpl; lia.
Qed.

Lemma check_puzzle_done (d d' : db) (r : check_result) :
  check_puzzle true d = (d', Done r) ->
  exists sess secret attempt,
    sessions d = Some sess /\ box_secrets d !! current_box sess = Some secret /\
    latest_unchecked d (current_box sess) = Some attempt /\
    sessions d' = sessions d /\ box_secrets d' = box_secrets d /\ prizes d' = prizes d /\
    box_ownership d' = box_ownership d /\
    puzzle_attempts d' =
      mark_checked (current_box sess) (attempt_id attempt)
        (compute_puzzle_position_score (phrase_w1 secret, phrase_w2 secret, phrase_w3 secret)
           (guess attempt)) <$> puzzle_attempts d.
Proof.
  unfold check_puzzle. cbn [negb]. intros H.
  destruct (sessions d) as [sess|] eqn:Hs; [|done].
  destruct (box_secrets d !! current_box sess) as [secret|] eqn:Hsec; [|done].
  destruct (latest_unchecked d (current_box sess)) as [a|] eqn:Hl; [|done].
  exists sess, secret, a. repeat (split; [done|]).
  case_bool_decide; [by injection H as <- _|].
  destruct (next_closest_puzzle_attempt _ _ _ _); by injection H as <- _.
Qed.

(** Checking makes progress: every completed check leaves strictly fewer
    unchecked attempts for the current box, so after as many checks as
    there were unchecked attempts the host is told that none is
    pending. *)
Theorem checks_run_out (d : db) (sess : session) (secret : box_secret) :
  sessions d = Some sess -> box_secrets d !! current_box sess = Some secret ->
  (forall d' r,
     check_puzzle true d = (d', Done r) ->
     (length (unchecked_attempts d' (current_box sess)) <
      length (unchecked_attempts d (current_box sess)))%nat) /\
  check_puzzle true (check_times (length (unchecked_attempts d (current_box sess))) d) =
    (check_times (length (unchecked_attempts d (current_box sess))) d,
     Reply "No pending puzzle attempts.").
Proof.
  intros Hs Hsec.
  assert (Hstep : forall d0 d' r,
            sessions d0 = Some sess ->
            check_puzzle true d0 = (d', Done r) ->
            (length (unchecked_attempts d' (current_box sess)) <
             length (unchecked_attempts d0 (current_box sess)))%nat).
  { intros d0 d' r Hs0 H.
    apply check_puzzle_done in H
      as (sess' & secret' & a & Hs' & _ & Hl & _ & _ & _ & _ & Hatt).
    rewrite Hs0 in Hs'. injection Hs' as <-.
    pose proof (latest_unchecked_spec d0 (current_box sess)) as Hlu. rewrite Hl in Hlu.
    destruct Hlu as [Hin _].
    assert (Hun : unchecked_attempts d' (current_box sess) =
                  remaining_attempts d0 (current_box sess) (attempt_id a)).
    { rewrite <- (unchecked_after_mark d0 (current_box sess) (attempt_id a)
                    (compute_puzzle_position_score
                       (phrase_w1 secret', phrase_w2 secret', phrase_w3 secret') (guess a))).
      unfold unchecked_attempts, box_attempts. by rewrite Hatt. }
    rewrite Hun. unfold remaining_attempts, unchecked_attempts in *.
    apply list_elem_of_filter in Hin as [Hc Hin].
    apply (filter_and_length_lt _ _ _ a); [done|done|]. by intros Hx. }
  split; [intros d' r; by apply Hstep|].
  assert (Hgen : forall n d0,
            sessions d0 = Some sess -> box_secrets d0 !! current_box sess = Some secret ->
            (length (unchecked_attempts d0 (current_box sess)) <= n)%nat ->
            check_puzzle true (check_times n d0) =
              (check_times n d0, Reply "No pending puzzle attempts.")).
  { induction n as [|n IH]; intros d0 Hs0 Hsec0 Hlen.
    - simpl. unfold check_puzzle. cbn [negb]. rewrite Hs0, Hsec0.
      pose proof (latest_unchecked_spec d0 (current_box sess)) as Hlu.
      destruct (latest_unchecked d0 (current_box sess)) as [a|]; [|done].
      destruct Hlu as [Hin _]. destruct (unchecked_attempts d0 (current_box sess)); simpl in Hlen.
      + by apply not_elem_of_nil in Hin.
      + lia.
    - simpl. destruct (check_puzzle true d0) as [d1 out] eqn:Hcp. simpl.
      destruct out as [msg|exn|r].
      + assert (d1 = d0) as ->.
        { unfold check_puzzle in Hcp. cbn [negb] in Hcp. rewrite Hs0, Hsec0 in Hcp.
          destruct (latest_unchecked d0 (current_box sess)); [|by injection Hcp].
          case_bool_decide; [done|]. by destruct (next_closest_puzzle_attempt _ _ _ _). }
        apply IH; try done.
        unfold check_puzzle in Hcp. cbn [negb] in Hcp. rewrite Hs0, Hsec0 in Hcp.
        pose proof (latest_unchecked_spec d0 (current_box sess)) as Hlu.
        destruct (latest_unchecked d0 (current_box sess)).
        * case_bool_decide; [done|]. by destruct (next_closest_puzzle_attempt _ _ _ _).
        * rewrite Hlu. simpl. lia.
      + unfold check_puzzle in Hcp. cbn [negb] in Hcp. rewrite Hs0, Hsec0 in Hcp.
        destruct (latest_unchecked d0 (current_box sess)); [|done].
        case_bool_decide; [done|]. by destruct (next_closest_puzzle_attempt _ _ _ _).
      + pose proof (Hstep d0 d1 r Hs0 Hcp) as Hlt.
        apply check_puzzle_done in Hcp as (_ & _ & _ & _ & _ & _ & Hs1 & Hb1 & _).
        apply IH; [by rewrite Hs1|by rewrite Hb1|lia]. }
  by apply Hgen.
Qed.

(** ** From the right guess to the opened box *)

Section WinningABox.
Context {R : Type} `{!RandomStream R}.

Lemma open_box_ready (caller : Z) (tc : bool) (d : db) (sess : session)
  (a : puzzle_attempt) (t : string) (dsc : option string) :
  sessions d = Some sess ->
  a ∈ solved_attempts d (current_box sess) ->
  prizes d !! current_box sess = Some (Prize (Some t) dsc) ->
  PyStr.strip t <> EmptyString ->
  exists d' solver_id, open_box true caller tc d = (d', Done (current_box sess, solver_id)).
Proof.
  intros Hs Ha Hp Ht. unfold open_box. cbn [negb]. rewrite Hs, Hp.
  destruct (solved_attempts d (current_box sess)) as [|a0 l0] eqn:Hsol.
  { by apply not_elem_of_nil in Ha. }
  cbn [mbind option_bind title default]. rewrite bool_decide_eq_false_2 by done.
  by eexists _, _.
Qed.

(** The slot holder who submits the three words of the phrase, however
    spelt before normalisation, wins the box: the host's next check
    reports the puzzle solved, and once the prize has a title that is not
    blank the owner's [open_box] opens the current box for that player
    and records them as its owner, whatever earlier attempts the box
    has. *)
Theorem right_guess_wins_box (d : db) (sess : session) (secret : box_secret) (sl : slot)
  (u now caller : Z) (w1 w2 w3 prize_title prize_desc : string) (tc : bool) :
  sessions d = Some sess ->
  box_secrets d !! current_box sess = Some secret ->
  slot_state d !! current_box sess = Some sl ->
  slot_user_id sl = Some u ->
  (norm_word w1, norm_word w2, norm_word w3) =
    (phrase_w1 secret, phrase_w2 secret, phrase_w3 secret) ->
  PyStr.strip prize_title <> EmptyString ->
  let box_id := current_box sess in
  let d1 := (submit_puzzle_guess box_id u w1 w2 w3 now d).1 in
  let d2 := (check_puzzle true d1).1 in
  let d3 := (PrizeModal_on_submit box_id prize_title prize_desc d2).1 in
  (check_puzzle true d1).2 = Done Solved /\
  (open_box true caller tc d3).2 = Done (box_id, u) /\
  box_ownership (open_box true caller tc d3).1 !! box_id = Some u.
Proof.
  intros Hs Hsec Hsl Hu Hw Ht. cbv zeta.
  set (box_id := current_box sess) in *.
  set (new := PuzzleAttempt box_id (max_attempt_id d box_id + 1) u
                (norm_word w1) (norm_word w2) (norm_word w3) now false 0).
  assert (Hd1 : (submit_puzzle_guess box_id u w1 w2 w3 now d).1 =
                with_puzzle_attempts (fun rows => rows ++ [new]) d).
  { unfold submit_puzzle_guess, SubmitPuzzleView_submit_puzzle.
    rewrite Hsl, Hu. by rewrite bool_decide_eq_true_2. }
  rewrite Hd1. set (d1 := with_puzzle_attempts (fun rows => rows ++ [new]) d).
  assert (Hnew : new ∈ unchecked_attempts d1 box_id).
  { unfold unchecked_attempts, box_attempts. rewrite !list_elem_of_filter.
    repeat split. apply elem_of_app. right. apply list_elem_of_here. }
  assert (Hl : latest_unchecked d1 box_id = Some new).
  { pose proof (latest_unchecked_spec d1 box_id) as Hlu.
    destruct (latest_unchecked d1 box_id) as [a|].
    2: { rewrite Hlu in Hnew. by apply not_elem_of_nil in Hnew. }
    destruct Hlu as [Hin Hmax]. specialize (Hmax new Hnew).
    unfold unchecked_attempts, box_attempts in Hin.
    apply list_elem_of_filter in Hin as [_ Hin].
    apply list_elem_of_filter in Hin as [Hb Hin].
    apply elem_of_app in Hin as [Hin | Hin].
    - destruct (max_attempt_id_bounds d box_id) as [_ Hle].
      specialize (Hle a Hin Hb). simpl in Hmax. lia.
    - apply list_elem_of_singleton in Hin. by subst. }
  set (marked := PuzzleAttempt box_id (max_attempt_id d box_id + 1) u
                   (norm_word w1) (norm_word w2) (norm_word w3) now true 3).
  assert (Hcp : check_puzzle true d1 =
                (with_slot_state (alter clear_slot box_id)
                   (with_puzzle_attempts
                      (fmap (mark_checked box_id (max_attempt_id d box_id + 1) 3)) d1),
                 Done Solved)).
  { unfold check_puzzle. cbn [negb].
    change (sessions d1) with (sessions d). rewrite Hs.
    change (box_secrets d1) with (box_secrets d). fold box_id. rewrite Hsec, Hl.
    assert (Hsc : compute_puzzle_position_score
                    (phrase_w1 secret, phrase_w2 secret, phrase_w3 secret) (guess new) = 3).
    { apply score_three_iff. by rewrite <- Hw. }
    rewrite Hsc. by rewrite bool_decide_eq_true_2. }
  rewrite Hcp. cbn [fst snd]. split; [done|].
  set (d2 := with_slot_state _ _).
  set (d3 := (PrizeModal_on_submit box_id prize_title prize_desc d2).1).
  assert (Hatt : puzzle_attempts d3 =
                 mark_checked box_id (max_attempt_id d box_id + 1) 3 <$> (puzzle_attempts d ++ [new]))
    by done.
  assert (Hmarked : marked ∈ solved_attempts d3 box_id).
  { apply solved_attempts_elem. repeat split. rewrite Hatt, fmap_app.
    apply elem_of_app. right. simpl. unfold mark_checked. simpl.
    rewrite bool_decide_eq_true_2 by done. apply list_elem_of_here. }
  destruct (open_box_ready caller tc d3 sess marked (PyStr.strip prize_title)
              (Some (PyStr.strip prize_desc))) as (d4 & s & Ho); [done|done| |by rewrite strip_idem|].
  { unfold d3, PrizeModal_on_submit, with_prizes. cbn [fst prizes].
    fold box_id. by rewrite lookup_insert_eq. }
  fold box_id in Ho. rewrite Ho. cbn [fst snd].
  apply open_box_done in Ho as (sess' & a & _ & _ & Ha & Hmax & -> & Hown & _).
  assert (Hua : pa_user_id a = u); [|by rewrite Hua in *].
  specialize (Hmax marked Hmarked).
  apply solved_attempts_elem in Ha as (Hin & Hb & _ & _).
  rewrite Hatt in Hin. apply list_elem_of_fmap in Hin as (x & -> & Hx).
  destruct (mark_checked_key box_id (max_attempt_id d box_id + 1) 3 x) as (Ekb & Eki & Eku).
  rewrite Eku. rewrite Eki in Hmax. rewrite Ekb in Hb.
  apply elem_of_app in Hx as [Hx | Hx].
  - destruct (max_attempt_id_bounds d box_id) as [_ Hle].
    specialize (Hle x Hx Hb). simpl in Hmax. lia.
  - apply list_elem_of_singleton in Hx. by subst.
Qed.

End WinningABox.

(** ** Opening boxes and prizes *)

Section OpeningBoxes.
Context {R : Type} `{!RandomStream R}.

Lemma ensure_box_secret_ready (seed box_id : Z) (d : db) :
  (forall b s, box_secrets d !! b = Some s ->
               box_secrets (ensure_box_secret seed box_id d) !! b = Some s) /\
  (forall b s, slot_state d !! b = Some s ->
               slot_state (ensure_box_secret seed box_id d) !! b = Some s) /\
  is_Some (box_secrets (ensure_box_secret seed box_id d) !! box_id) /\
  (box_secrets d !! box_id = None ->
   is_Some (slot_state (ensure_box_secret seed box_id d) !! box_id)).
Proof.
  unfold ensure_box_secret. destruct (box_secrets d !! box_id) as [s0|] eqn:Hb.
  - repeat split; done.
  - destruct (gen_phrase_and_deck seed box_id) as [phrase dk]. simpl.
    split; [|split; [|split]].
    + intros b s Hs. destruct (decide (b = box_id)) as [->|Hne]; [congruence|].
      by rewrite lookup_insert_ne.
    + intros b s Hs. destruct (slot_state d !! box_id) eqn:Hsl; [done|].
      destruct (decide (b = box_id)) as [->|Hne]; [congruence|].
      by rewrite lookup_insert_ne.
    + by rewrite lookup_insert_eq.
    + intros _. destruct (slot_state d !! box_id) eqn:Hsl; [by rewrite Hsl|].
      by rewrite lookup_insert_eq.
Qed.

Lemma open_box_state (owner : bool) (caller : Z) (tc : bool) (d d' : db) (box_id solver_id : Z) :
  open_box owner caller tc d = (d', Done (box_id, solver_id)) ->
  exists sess,
    sessions d = Some sess /\ box_id = current_box sess /\
    let d0 :=
      with_sessions
        (Some (Session (session_seed sess) (is_locked sess) (Z.min 6 (box_id + 1))
                 (opened_boxes_count sess + 1)
                 (if bool_decide (opened_boxes_count sess + 1 >= 3) then true
                  else eliminations_unlocked sess)))
        (with_box_ownership <[box_id := solver_id]> d) in
    d' = if tc && bool_decide (box_id < 6)
         then ensure_box_secret (session_seed sess) (box_id + 1) d0 else d0.
Proof.
  unfold open_box. intros H.
  destruct owner; [|done]. cbn [negb] in H.
  destruct (sessions d) as [sess|] eqn:Hs; [|done].
  destruct (solved_attempts d (current_box sess)) as [|a0 l0] eqn:Hsol; [done|].
  case_bool_decide; [done|].
  exists sess. injection H as <- <- <-. by repeat split.
Qed.

(** Opening a box moves the game on without touching what is fixed: no
    stored phrase or deck is ever replaced, the session keeps its seed and
    its lock, eliminations once unlocked stay unlocked and are unlocked
    from the third opened box on, and when a box before the mega box is
    opened in a text channel the next box is the current one and has its
    secret (and, if that was new, its slot) in place. *)
Theorem open_box_moves_on (owner : bool) (caller : Z) (tc : bool) (d d' : db)
  (box_id solver_id : Z) :
  open_box owner caller tc d = (d', Done (box_id, solver_id)) ->
  (forall b s, box_secrets d !! b = Some s -> box_secrets d' !! b = Some s) /\
  (exists sess sess',
     sessions d = Some sess /\ sessions d' = Some sess' /\
     session_seed sess' = session_seed sess /\ is_locked sess' = is_locked sess /\
     (eliminations_unlocked sess' = true <->
      eliminations_unlocked sess = true \/ 2 <= opened_boxes_count sess) /\
     (tc = true -> box_id < 6 ->
      current_box sess' = box_id + 1 /\
      is_Some (box_secrets d' !! (box_id + 1)) /\
      (box_secrets d !! (box_id + 1) = None -> is_Some (slot_state d' !! (box_id + 1))))).
Proof.
  intros H. apply open_box_state in H as (sess & Hs & -> & Hd'). cbv zeta in Hd'.
  set (d0 := with_sessions _ _) in Hd'.
  pose proof (ensure_box_secret_ready (session_seed sess) (current_box sess + 1) d0)
    as (Hkeep & _ & Hsec & Hslot).
  pose proof (ensure_box_secret_keeps (session_seed sess) (current_box sess + 1) d0)
    as (Hsess & _ & _).
  split.
  - intros b s Hb. subst d'. destruct (tc && _); [by apply Hkeep|done].
  - exists sess. eexists. split; [done|].
    split; [subst d'; destruct (tc && _); [rewrite Hsess|]; reflexivity|].
    cbn [session_seed is_locked eliminations_unlocked current_box].
    split; [done|]. split; [done|]. split.
    + destruct (decide (opened_boxes_count sess + 1 >= 3)) as [Hge|Hlt].
      * rewrite bool_decide_eq_true_2 by done. split; [intros _; right; lia|done].
      * rewrite bool_decide_eq_false_2 by done.
        split; [by left|]. intros [?|?]; [done|lia].
    + intros -> Hlt. subst d'. cbn [andb]. rewrite bool_decide_eq_true_2 by done.
      split; [lia|]. split; [done|]. intros Hn. by apply Hslot.
Qed.

(** A prize saved with a blank title does not let the box open: after
    [PrizeModal.on_submit] with a title of white space only, [open_box]
    opens nothing and changes nothing, whoever solved the puzzle. *)
Theorem blank_title_keeps_box_closed (owner : bool) (caller : Z) (tc : bool) (d : db)
  (sess : session) (prize_title prize_desc : string) :
  sessions d = Some sess ->
  PyStr.strip prize_title = EmptyString ->
  let d1 := (PrizeModal_on_submit (current_box sess) prize_title prize_desc d).1 in
  (open_box owner caller tc d1).1 = d1 /\
  (forall r, (open_box owner caller tc d1).2 <> Done r) /\
  (owner = true -> solved_attempts d (current_box sess) <> [] ->
   (open_box owner caller tc d1).2 = Reply "Fill Prize").
Proof.
  intros Hs Ht. unfold PrizeModal_on_submit. cbv zeta. cbn [fst].
  set (d1 := with_prizes _ d).
  assert (Ho : forall l, l <> [] -> solved_attempts d1 (current_box sess) = l ->
               open_box true caller tc d1 = (d1, Reply "Fill Prize")).
  { intros l Hl Hsol. unfold open_box. cbn [negb]. change (sessions d1) with (sessions d).
    rewrite Hs, Hsol. destruct l; [done|].
    unfold d1, with_prizes. cbn [prizes]. rewrite lookup_insert_eq.
    cbn [mbind option_bind title default]. unfold id. rewrite strip_idem.
    by rewrite bool_decide_eq_true_2. }
  destruct owner.
  - destruct (solved_attempts d1 (current_box sess)) as [|a l] eqn:Hsol.
    + unfold open_box. cbn [negb]. change (sessions d1) with (sessions d).
      rewrite Hs, Hsol. by repeat split.
    + rewrite (Ho (a :: l)) by done. by repeat split.
  - by repeat split.
Qed.

End OpeningBoxes.

(** ** Eliminations and the leaderboard *)

Lemma owned_count_zero (d : db) (user_id : Z) :
  owned_count d user_id = 0 <-> forall b, box_ownership d !! b <> Some user_id.
Proof.
  unfold owned_count. split.
  - intros Hz b Hb.
    assert (Hsz : size (filter (fun kv : Z * Z => kv.2 = user_id) (box_ownership d)) = 0%nat) by lia.
    apply map_size_empty_iff in Hsz.
    assert (Hl : filter (fun kv : Z * Z => kv.2 = user_id) (box_ownership d) !! b = Some user_id)
      by (by apply map_lookup_filter_Some).
    rewrite Hsz in Hl. by rewrite lookup_empty in Hl.
  - intros Hno.
    assert (Hem : filter (fun kv : Z * Z => kv.2 = user_id) (box_ownership d) = ∅).
    { apply map_empty. intros b. apply map_lookup_filter_None. right.
      intros x Hx Hu. simpl in Hu. subst x. by apply (Hno b). }
    rewrite Hem. by rewrite map_size_empty.
Qed.

(** Who can be eliminated: [elim_eligible] lists players only for a host
    and only once eliminations are unlocked; it lists at most thirty, none
    twice, each a participant who is not eliminated and owns no box; and
    with thirty participants or fewer every such participant is
    listed. *)
Theorem elim_eligible_lists (host : bool) (d : db) (l : list Z) :
  elim_eligible host d = Done l ->
  host = true /\ (eliminations_unlocked <$> sessions d) = Some true /\
  l <> [] /\ (length l <= 30)%nat /\ NoDup l /\
  (forall u, u ∈ l ->
     exists p, participants d !! u = Some p /\ eliminated p = false /\
               forall b, box_ownership d !! b <> Some u) /\
  ((size (participants d) <= 30)%nat ->
   forall u p, participants d !! u = Some p -> eliminated p = false ->
               (forall b, box_ownership d !! b <> Some u) -> u ∈ l).
Proof.
  unfold elim_eligible. intros H.
  destruct host; [|done]. cbn [negb] in H.
  destruct (sessions d) as [sess|]; [|done].
  destruct (eliminations_unlocked sess) eqn:He; [|done]. cbn [negb] in H.
  set (act := filter (fun kv : Z * participant => eliminated kv.2 = false)
                (map_to_list (participants d))) in H.
  set (players := py_sorted String.leb _ act) in H.
  set (eligible := filter (fun kv : Z * participant => owned_count d kv.1 = 0) players) in H.
  destruct eligible as [|e0 el] eqn:Hel; [done|]. rewrite <- Hel in H.
  injection H as <-.
  assert (Hperm : players ≡ₚ act) by apply py_sorted_perm.
  assert (Helem : forall kv, kv ∈ eligible <->
                    participants d !! kv.1 = Some kv.2 /\ eliminated kv.2 = false /\
                    owned_count d kv.1 = 0).
  { intros [u p]. unfold eligible. rewrite list_elem_of_filter, Hperm. unfold act.
    rewrite list_elem_of_filter, elem_of_map_to_list. simpl. tauto. }
  assert (Hnd : NoDup (fst <$> eligible)).
  { apply (sublist_NoDup _ (fst <$> players)).
    - rewrite Hperm. apply (sublist_NoDup _ (fst <$> map_to_list (participants d))).
      + apply NoDup_fst_map_to_list.
      + apply fmap_sublist, sublist_filter.
    - apply fmap_sublist, sublist_filter. }
  split; [done|]. split; [simpl; by rewrite He|]. split; [by rewrite Hel|].
  split; [rewrite length_fmap, length_take; lia|].
  split; [apply (sublist_NoDup _ (fst <$> eligible)); [done|apply fmap_sublist, sublist_take]|].
  split.
  - intros u Hu. apply list_elem_of_fmap in Hu as ([u' p] & -> & Hin).
    apply elem_of_take in Hin as (i & Hi & _). apply list_elem_of_lookup_2 in Hi.
    apply Helem in Hi as (Hp & Hne & Hown). exists p. simpl in *.
    split; [done|]. split; [done|]. by apply owned_count_zero.
  - intros Hsize u p Hp Hne Hown.
    assert (Hlen : (length eligible <= 30)%nat).
    { etrans; [apply sublist_length, sublist_filter|]. rewrite Hperm.
      etrans; [apply sublist_length, sublist_filter|]. by rewrite length_map_to_list. }
    rewrite take_ge by done. apply list_elem_of_fmap. exists (u, p). split; [done|].
    apply Helem. simpl. split; [done|]. split; [done|]. by apply owned_count_zero.
Qed.

Lemma add_owned_listed (owner box : Z) (owners : list (Z * list Z)) :
  listed_boxes (add_owned owner box owners) ≡ₚ (box, owner) :: listed_boxes owners.
Proof.
  unfold listed_boxes. induction owners as [|[uid boxes] rest IH]; [done|].
  cbn [add_owned]. case_bool_decide as Hu.
  - subst uid. rewrite !bind_cons. cbn [fst snd]. rewrite fmap_app. simpl.
    rewrite <- app_assoc. simpl. by rewrite <- Permutation_middle.
  - rewrite !bind_cons, IH. cbn [fst snd]. by rewrite <- Permutation_middle.
Qed.

Lemma add_owned_fst_elem (owner box u : Z) (owners : list (Z * list Z)) :
  u ∈ (add_owned owner box owners).*1 <-> u = owner \/ u ∈ owners.*1.
Proof.
  induction owners as [|[uid boxes] rest IH]; simpl.
  - rewrite list_elem_of_singleton. split; [by left|]. intros [?|Hx]; [done|].
    by apply not_elem_of_nil in Hx.
  - case_bool_decide as Hu; simpl; rewrite !elem_of_cons.
    + subst. tauto.
    + rewrite IH. tauto.
Qed.

Lemma add_owned_NoDup (owner box : Z) (owners : list (Z * list Z)) :
  NoDup owners.*1 -> NoDup (add_owned owner box owners).*1.
Proof.
  induction owners as [|[uid boxes] rest IH]; simpl; intros Hnd.
  - apply NoDup_singleton.
  - apply NoDup_cons in Hnd as [Hn Hnd]. case_bool_decide as Hu; simpl.
    + by apply NoDup_cons.
    + apply NoDup_cons. split; [|by apply IH].
      rewrite add_owned_fst_elem. intros [?|?]; done.
Qed.

Lemma add_owned_Forall (Q Q' : Z * list Z -> Prop) (owner box : Z) (owners : list (Z * list Z)) :
  Forall Q owners -> Q' (owner, [box]) ->
  (forall boxes, Q (owner, boxes) -> Q' (owner, boxes ++ [box])) ->
  (forall kv, Q kv -> Q' kv) ->
  Forall Q' (add_owned owner box owners).
Proof.
  intros HQ Hnew Happ Hweak. induction HQ as [|[uid boxes] rest Hx Hrest IH]; simpl.
  - by repeat constructor.
  - case_bool_decide as Hu.
    + subst uid. constructor; [by apply Happ|]. by eapply Forall_impl.
    + constructor; [by apply Hweak|done].
Qed.

Lemma foldl_add_owned (rows : list (Z * Z)) (acc : list (Z * list Z)) :
  StronglySorted Z.lt rows.*1 ->
  NoDup acc.*1 ->
  Forall (fun kv => StronglySorted Z.lt kv.2 /\ kv.2 <> [] /\
                    forall x r, x ∈ kv.2 -> r ∈ rows -> x < r.1) acc ->
  let res := foldl (fun owners (r : Z * Z) => add_owned r.2 r.1 owners) acc rows in
  NoDup res.*1 /\ listed_boxes res ≡ₚ rows ++ listed_boxes acc /\
  Forall (fun kv => StronglySorted Z.lt kv.2 /\ kv.2 <> []) res.
Proof.
  revert acc. induction rows as [|[b o] rows IH]; intros acc Hrows Hnd Hacc; simpl.
  - split; [done|]. split; [done|]. eapply Forall_impl; [done|]. simpl. tauto.
  - rewrite fmap_cons in Hrows. apply StronglySorted_inv in Hrows as [Hrows Hb].
    rewrite Forall_forall in Hb.
    destruct (IH (add_owned o b acc)) as (H1 & H2 & H3); [done|by apply add_owned_NoDup| |].
    + eapply add_owned_Forall; [exact Hacc|..].
      * simpl. split; [repeat constructor|]. split; [done|].
        intros x r Hx Hr. apply list_elem_of_singleton in Hx. subst x.
        apply Hb. apply list_elem_of_fmap. by exists r.
      * simpl. intros boxes (Hs & _ & Hlt). split; [|split].
        -- apply StronglySorted_app_2; [|done|repeat constructor].
           intros x1 x2 Hx1 Hx2. apply list_elem_of_singleton in Hx2. subst x2.
           apply (Hlt x1 (b, o)); [done|apply list_elem_of_here].
        -- by destruct boxes.
        -- intros x r Hx Hr. apply elem_of_app in Hx as [Hx|Hx].
           ++ apply Hlt; [done|by apply list_elem_of_further].
           ++ apply list_elem_of_singleton in Hx. subst x.
              apply Hb. apply list_elem_of_fmap. by exists r.
      * intros kv (Hs & Hne & Hlt). split; [done|]. split; [done|].
        intros x r Hx Hr. apply Hlt; [done|by apply list_elem_of_further].
    + split; [done|]. split; [|done].
      rewrite H2, add_owned_listed. by rewrite <- Permutation_middle.
Qed.

Lemma NoDup_fst_agree {A B} (l : list (A * B)) (x : A) (y1 y2 : B) :
  NoDup l.*1 -> (x, y1) ∈ l -> (x, y2) ∈ l -> y1 = y2.
Proof.
  induction l as [|[a b] l IH]; intros Hnd H1 H2; [by apply not_elem_of_nil in H1|].
  rewrite fmap_cons in Hnd. apply NoDup_cons in Hnd as [Hn Hnd].
  assert (Hfst : forall y, (x, y) ∈ l -> x ∈ l.*1).
  { intros y Hy. apply list_elem_of_fmap. by exists (x, y). }
  apply elem_of_cons in H1 as [[= -> ->]|H1], H2 as [[= ->]|H2].
  - done.
  - destruct Hn. by apply (Hfst y2).
  - subst. destruct Hn. by apply (Hfst y1).
  - by apply IH.
Qed.

#[local] Instance fst_le_trans {A} :
  Transitive (fun a b : Z * A => Z.leb (fst a) (fst b) = true).
Proof. intros a b c. lia. Qed.

#[local] Instance rank_key_trans :
  Transitive (fun a b : Z * list Z =>
                pair_leb (- Z.of_nat (length a.2), a.1) (- Z.of_nat (length b.2), b.1) = true).
Proof. intros a b c. apply pair_leb_trans. Qed.

(** The leaderboard shows every owned box exactly once, under its owner:
    each owner has one line, the line lists exactly the boxes that owner
    holds, in ascending order, and the lines run from the most boxes to
    the fewest, the smaller user id first among equals. *)
Theorem leaderboard_lists_ownership (d : db) :
  let lines := post_boxes_leaderboard d in
  NoDup lines.*1 /\
  (forall u boxes, (u, boxes) ∈ lines ->
     boxes <> [] /\ StronglySorted Z.lt boxes /\
     forall b, b ∈ boxes <-> box_ownership d !! b = Some u) /\
  (forall b u, box_ownership d !! b = Some u -> u ∈ lines.*1) /\
  StronglySorted ranks_before lines.
Proof.
  cbv zeta. unfold post_boxes_leaderboard. cbv zeta.
  set (rows := ownership_rows d).
  set (owners := foldl _ [] rows).
  set (lines := py_sorted pair_leb _ owners).
  assert (Hrp : rows ≡ₚ map_to_list (box_ownership d)) by apply py_sorted_perm.
  assert (Hrows : StronglySorted Z.lt rows.*1).
  { apply StronglySorted_strict.
    - apply (StronglySorted_fmap fst (fun a b : Z * Z => Z.leb (fst a) (fst b) = true)).
      + intros x y. lia.
      + apply Sorted_StronglySorted; [apply _|].
        apply (py_sorted_Sorted Z.leb fst Zleb_total).
    - rewrite Hrp. apply NoDup_fst_map_to_list. }
  destruct (foldl_add_owned rows []) as (Hnd & Hlisted & Hall);
    [done|apply NoDup_nil_2|constructor|].
  fold owners in Hnd, Hlisted, Hall. rewrite app_nil_r in Hlisted.
  assert (Hlp : lines ≡ₚ owners) by apply py_sorted_perm.
  assert (Hnd' : NoDup lines.*1) by (by rewrite Hlp).
  assert (Hin : forall b u, (b, u) ∈ listed_boxes lines <-> box_ownership d !! b = Some u).
  { intros b u. unfold listed_boxes. rewrite Hlp. fold (listed_boxes owners).
    rewrite Hlisted, Hrp. apply elem_of_map_to_list. }
  assert (Hlb : forall b u, (b, u) ∈ listed_boxes lines <->
                  exists boxes, (u, boxes) ∈ lines /\ b ∈ boxes).
  { intros b u. unfold listed_boxes. rewrite list_elem_of_bind. split.
    - intros ([u' boxes] & Hx & Hl). apply list_elem_of_fmap in Hx as (b' & [= -> ->] & Hb).
      by exists boxes.
    - intros (boxes & Hl & Hb). exists (u, boxes). split; [|done].
      apply list_elem_of_fmap. by exists b. }
  split; [done|]. split; [|split].
  - intros u boxes Hl.
    assert (Hl' : (u, boxes) ∈ owners) by (by rewrite <- Hlp).
    rewrite Forall_forall in Hall. destruct (Hall _ Hl') as [Hs Hne].
    split; [done|]. split; [done|]. intros b. rewrite <- Hin, Hlb. split.
    + intros Hb. by exists boxes.
    + intros (boxes' & Hl2 & Hb).
      assert (boxes' = boxes) as ->; [|done].
      by apply (NoDup_fst_agree lines u).
  - intros b u Hb. apply Hin, Hlb in Hb as (boxes & Hl & _).
    apply list_elem_of_fmap. by exists (u, boxes).
  - assert (Hss : StronglySorted
                    (fun a b : Z * list Z =>
                       pair_leb (- Z.of_nat (length a.2), a.1)
                                (- Z.of_nat (length b.2), b.1) = true) lines).
    { apply Sorted_StronglySorted; [apply _|].
      apply (py_sorted_Sorted pair_leb
               (fun kv : Z * list Z => (- Z.of_nat (length kv.2), kv.1)) pair_leb_total). }
    clearbody lines. clear -Hss Hnd'.
    induction Hss as [|x l Hl IH Hx]; [constructor|].
    rewrite fmap_cons in Hnd'. apply NoDup_cons in Hnd' as [Hnx Hnd'].
    constructor; [by apply IH|].
    rewrite Forall_forall in Hx. apply Forall_forall. intros y Hy.
    specialize (Hx y Hy). apply pair_leb_spec in Hx. simpl in Hx.
    assert (x.1 <> y.1).
    { intros Heq. apply Hnx. rewrite Heq. apply list_elem_of_fmap. by exists y. }
    unfold ranks_before. lia.
Qed.

(** ** The game as a whole *)

Section GameFacts.
Context {R : Type} `{!RandomStream R}.

Lemma well_formed_ext (d d' : db) :
  sessions d' = sessions d -> slot_state d' = slot_state d ->
  box_secrets d' = box_secrets d -> box_ownership d' = box_ownership d ->
  participants d' = participants d ->
  trivia_submissions d' = trivia_submissions d -> puzzle_attempts d' = puzzle_attempts d ->
  well_formed d -> well_formed d'.
Proof.
  intros E1 E2 E3 E4 E5 E6 E7 [H1 H2 H3 H4 H5 H6 H7].
  constructor; unfold submissions_unique, attempts_unique in *;
    rewrite ?E1, ?E2, ?E3, ?E4, ?E5, ?E6, ?E7; done.
Qed.

Lemma wf_with_slot_state (f : gmap Z slot -> gmap Z slot) (d : db) :
  well_formed d ->
  (forall b s, f (slot_state d) !! b = Some s -> 0 <= turns_left s <= 5) ->
  well_formed (with_slot_state f d).
Proof. intros [H1 H2 H3 H4 H5 H6 H7] Hf. by constructor. Qed.

Lemma wf_alter_slot (h : slot -> slot) (k : Z) (d : db) :
  well_formed d ->
  (forall s, 0 <= turns_left s <= 5 -> 0 <= turns_left (h s) <= 5) ->
  well_formed (with_slot_state (alter h k) d).
Proof.
  intros Hwf Hh. apply wf_with_slot_state; [done|].
  intros b s Hb. apply lookup_alter_Some in Hb as [(-> & x & Hx & ->)|[_ Hb]].
  - apply Hh. by apply (wf_slots _ Hwf b).
  - by apply (wf_slots _ Hwf b).
Qed.

Lemma wf_alter_owner (h : Z -> Z) (k : Z) (d : db) :
  well_formed d -> well_formed (with_box_ownership (alter h k) d).
Proof.
  intros [H1 H2 H3 H4 H5 H6 H7]. constructor; try done.
  intros b. simpl. rewrite lookup_alter_is_Some. apply H4.
Qed.

Lemma ensure_session_wf (g : R) (d : db) :
  well_formed d ->
  well_formed (ensure_session g d).1.1 /\
  sessions (ensure_session g d).1.1 = Some (ensure_session g d).2.
Proof.
  intros Hwf. pose proof (ensure_session_spec g d) as Hes.
  destruct (sessions d) as [sess|] eqn:Hs.
  - rewrite Hes. by split.
  - destruct Hes as (seed & Hseed & ->). split; [|done]. cbn [fst].
    destruct Hwf as [H1 H2 H3 H4 H5 H6 H7]. constructor; try done.
    + intros sess [= <-]. unfold session_ok. simpl. repeat split; try lia; done.
    + intros b s Hb. destruct (H3 b s Hb) as (sess & Hsess & _). congruence.
    + intros b. rewrite H4. simpl. split.
      * intros (sess & Hsess & _). congruence.
      * intros (sess & [= <-] & Hb). simpl in Hb. lia.
Qed.

Lemma ensure_box_secret_wf (b : Z) (sess : session) (d : db) :
  well_formed d -> sessions d = Some sess -> 1 <= b <= current_box sess ->
  well_formed (ensure_box_secret (session_seed sess) b d).
Proof.
  intros Hwf Hs Hb. unfold ensure_box_secret.
  destruct (box_secrets d !! b) as [s0|] eqn:Hsec; [done|].
  destruct (gen_phrase_and_deck (session_seed sess) b) as [phrase dk] eqn:Hgen.
  destruct Hwf as [H1 H2 H3 H4 H5 H6 H7]. constructor; try done.
  - intros b' s. simpl. destruct (slot_state d !! b) eqn:Hsl; [apply H2|].
    intros Hl. apply lookup_insert_Some in Hl as [[_ <-]|[_ Hl]]; [simpl; lia|by apply (H2 b')].
  - intros b' s. simpl. intros Hl.
    apply lookup_insert_Some in Hl as [[<- <-]|[_ Hl]]; [|by apply H3].
    exists sess. split; [done|]. split; [done|]. simpl. split.
    + rewrite Hgen. by destruct phrase as [[? ?] ?].
    + intros i Hi. by apply not_elem_of_empty in Hi.
Qed.

Lemma lobby_wf (host : bool) (g : R) (d : db) :
  well_formed d -> well_formed (lobby host g d).1.1.
Proof.
  intros Hwf. unfold lobby. destruct host; [|done]. cbn [negb].
  destruct (ensure_session_wf g d Hwf) as [Hwf' _].
  destruct (ensure_session g d) as [[d1 g1] sess]. by destruct (is_locked sess).
Qed.

Lemma wib_q_wf (host : bool) (g : R) (d : db) :
  well_formed d -> well_formed (wib_q host g d).1.1.
Proof.
  intros Hwf. unfold wib_q. destruct host; [|done]. cbn [negb].
  destruct (ensure_session_wf g d Hwf) as [Hwf' _].
  destruct (ensure_session g d) as [[d1 g1] sess]. destruct (is_locked sess); [|done].
  cbn [negb]. destruct (randint 0 9999 g1). by destruct (gen_numeric_question _ _ _).
Qed.

Lemma q_order_wf (host : bool) (fuel : nat) (g : R) (d : db) :
  well_formed d -> well_formed (q_order host fuel g d).1.1.
Proof.
  intros Hwf. unfold q_order. repeat case_match; done.
Qed.

Lemma lock_wf (host : bool) (g : R) (d : db) :
  well_formed d -> well_formed (lock host g d).1.1.
Proof.
  intros Hwf. unfold lock. destruct host; [|done]. cbn [negb].
  destruct (ensure_session_wf g d Hwf) as [Hwf' Hs'].
  destruct (ensure_session g d) as [[d1 g1] sess]. cbn [fst snd] in *.
  destruct (is_locked sess); [done|]. cbn [fst].
  change (session_seed sess) with (session_seed (lock_session sess)).
  pose proof (wf_session _ Hwf' sess Hs') as Hok.
  apply ensure_box_secret_wf; [|done|].
  - destruct Hwf' as [H1 H2 H3 H4 H5 H6 H7]. constructor; try done.
    + intros s [= <-]. exact Hok.
    + intros b s Hb. destruct (H3 b s Hb) as (s0 & Hs0 & Hr).
      rewrite Hs' in Hs0. injection Hs0 as <-. by exists (lock_session sess).
    + intros b. rewrite H4. simpl. rewrite Hs'. split.
      * intros (s0 & [= <-] & Hr). by exists (lock_session sess).
      * intros (s0 & [= <-] & Hr). by exists sess.
  - destruct Hok as (_ & Hc & Hcb & _). simpl. lia.
Qed.

Lemma join_wf (user_id : Z) (name : string) (d : db) :
  well_formed d -> well_formed (JoinView_join_button user_id name d).1.
Proof.
  intros Hwf. unfold JoinView_join_button. repeat case_match; try done.
  destruct Hwf as [H1 H2 H3 H4 H5 H6 H7]. constructor; try done.
  intros u p. simpl. intros Hu.
  apply lookup_insert_Some in Hu as [[_ <-]|[_ Hu]]; [done|by apply (H5 u)].
Qed.

Lemma publish_question_wf (host_id presser box_id : Z) (q : string) (ans : Z) (d : db) :
  well_formed d -> well_formed (wib_q_on_publish host_id presser box_id q ans d).1.
Proof.
  intros Hwf. unfold wib_q_on_publish. case_match; [done|]. cbn [fst].
  destruct Hwf as [H1 H2 H3 H4 H5 H6 H7]. constructor; try done.
  unfold submissions_unique in *. simpl.
  eapply sublist_NoDup; [exact H6|]. apply fmap_sublist, sublist_filter.
Qed.

Lemma add_submission_wf (box_id user_id value now : Z) (d : db) :
  well_formed d -> has_submission d box_id user_id = false ->
  well_formed
    (with_trivia_submissions (fun rows => rows ++ [TriviaSubmission box_id user_id value now]) d).
Proof.
  intros Hwf Hno. pose proof (submissions_unique_add d box_id user_id value now
                                (wf_submissions _ Hwf) Hno) as Hu.
  destruct Hwf as [H1 H2 H3 H4 H5 H6 H7]. by constructor.
Qed.

Lemma answer_form_wf (box_id user_id : Z) (answer : string) (now : Z) (d : db) :
  well_formed d -> well_formed (NumericAnswerModal_on_submit box_id user_id answer now d).1.
Proof.
  intros Hwf. unfold NumericAnswerModal_on_submit.
  destruct (norm_num answer); [|done].
  destruct (session_locked d); [|done]. destruct (is_registered d user_id); [|done].
  destruct (trivia_active d box_id); [|done]. cbn [negb].
  destruct (has_submission d box_id user_id) eqn:Hh; [done|]. by apply add_submission_wf.
Qed.

Lemma num_wf (user_id value now : Z) (d : db) :
  well_formed d -> well_formed (num user_id value now d).1.
Proof.
  intros Hwf. unfold num.
  destruct (sessions d) as [sess|]; [|done].
  destruct (is_locked sess); [|done]. destruct (is_registered d user_id); [|done].
  destruct (trivia_active d (current_box sess)); [|done]. cbn [negb].
  destruct (has_submission d (current_box sess) user_id) eqn:Hh; [done|].
  by apply add_submission_wf.
Qed.

Lemma reveal_wf (host : bool) (d : db) : well_formed d -> well_formed (reveal host d).1.
Proof.
  intros Hwf. unfold reveal. destruct host; [|done]. cbn [negb].
  destruct (sessions d) as [sess|]; [|done]. destruct (is_locked sess); [|done]. cbn [negb].
  destruct (trivia_rounds d !! current_box sess) as [tr|]; [|done].
  destruct (tr_is_active tr); [|done]. cbn [negb].
  set (d1 := with_slot_state _ _).
  assert (Hd1 : well_formed d1).
  { apply wf_with_slot_state; [by apply (well_formed_ext d)|].
    intros b s Hb. apply lookup_insert_Some in Hb as [[_ <-]|[_ Hb]]; [simpl; lia|].
    by apply (wf_slots _ Hwf b). }
  destruct (compute_trivia_outcome _ _ _) as [o|]; [|done]. by case_bool_decide.
Qed.

Lemma publish_order_wf (host_id presser box_id slot_user_id : Z) (prompt : string)
  (items : list string) (correct : list Z) (d : db) :
  well_formed d ->
  well_formed (q_order_on_publish host_id presser box_id slot_user_id prompt items correct d).1.
Proof.
  intros Hwf. unfold q_order_on_publish. case_match; [done|]. by apply (well_formed_ext d).
Qed.

Lemma order_turns_bounds (submitted correct : list Z) (turns : Z) :
  order_turns submitted correct = Some turns -> 0 <= turns <= 5.
Proof.
  unfold order_turns.
  assert (Hgen : forall l t,
            foldr (fun i acc =>
                     s ← submitted !! i; c ← correct !! i; n ← acc;
                     Some (if bool_decide (s = c) then 1 + n else n)) (Some 0) l = Some t ->
            0 <= t <= Z.of_nat (length l)).
  { induction l as [|i l IH]; intros t Ht; simpl in Ht.
    - injection Ht as <-. simpl. lia.
    - destruct (submitted !! i); [|done]. destruct (correct !! i); [|done]. simpl in Ht.
      destruct (foldr _ _ l) as [n|]; [|done]. simpl in Ht. injection Ht as <-.
      specialize (IH n eq_refl). simpl length. case_bool_decide; lia. }
  intros Ht. apply Hgen in Ht. simpl in Ht. lia.
Qed.

Lemma order_wf (user_id : Z) (a b c e f : string) (d : db) :
  well_formed d -> well_formed (order user_id a b c e f d).1.
Proof.
  intros Hwf. unfold order. cbv zeta.
  case_match; [done|]. destruct (sessions d) as [sess|]; [|done].
  destruct (is_locked sess); [|done]. cbn [negb].
  destruct (order_rounds d !! current_box sess) as [orow|]; [|done].
  destruct (or_is_active orow); [|done]. cbn [negb].
  case_match; [done|]. destruct (mapM _ _) as [idxs|]; [|done].
  destruct (order_turns idxs (correct_order orow)) as [turns|] eqn:Ht; [|done].
  apply order_turns_bounds in Ht. cbn [fst].
  apply wf_alter_slot; [by apply (well_formed_ext d)|]. intros s _. simpl. lia.
Qed.

Lemma callback_other_secrets (user_id : Z) (idx : nat) (g : R) (d : db) (sess : session) (b : Z) :
  sessions d = Some sess -> b <> current_box sess ->
  box_secrets (CardButton_callback user_id idx g d).1.1 !! b = box_secrets d !! b.
Proof.
  intros Hs Hb. unfold CardButton_callback. rewrite Hs.
  destruct (slot_state d !! current_box sess) as [slot|] eqn:Hslot; [|done].
  destruct (slot_user_id slot) as [holder|] eqn:Hh; [|done].
  case_bool_decide as Hu; [|done]. cbn [negb].
  case_bool_decide as Ht; [done|].
  case_bool_decide as Hp; [done|].
  destruct (box_secrets d !! current_box sess) as [row|] eqn:Hrow; [|done].
  case_bool_decide as Hr; [done|].
  destruct (deck row !! idx) as [card|] eqn:Hc; [|done].
  repeat case_decide; try destruct (choice _ g) as [chosen g2]; repeat case_decide;
    simpl; by rewrite lookup_alter_ne.
Qed.

Lemma press_card_wf (user_id : Z) (idx : nat) (g : R) (d : db) :
  well_formed d -> well_formed (CardButton_callback user_id idx g d).1.1.
Proof.
  intros Hwf.
  destruct (CardButton_callback user_id idx g d) as [[d' g'] out] eqn:Hcb. cbn [fst].
  destruct out as [msg|exn|eff].
  1,2: by apply callback_rejected in Hcb as [-> _].
  assert (Hd' : (CardButton_callback user_id idx g d).1.1 = d') by (by rewrite Hcb).
  pose proof (callback_frame user_id idx g d) as Hfr. rewrite Hcb in Hfr. cbn [fst] in Hfr.
  destruct Hfr as (Es & Ep & Eo & Ea & Esub & Edeck).
  apply callback_done in Hcb
    as (sess & slot & row & card & Hs & Hsl & Hu & Hpos & Hpend & Hsec & Hnew & Hcard &
        Hsec' & Hsl' & Hother).
  pose proof (wf_slots _ Hwf _ _ Hsl) as Hrange.
  destruct (wf_secrets _ Hwf _ _ Hsec) as (sess0 & Hs0 & Hb0 & Hgen0 & Hrev0).
  constructor.
  - rewrite Es. apply (wf_session _ Hwf).
  - intros b s Hb. destruct (decide (b = current_box sess)) as [->|Hne].
    + rewrite Hsl' in Hb. injection Hb as <-. simpl.
      destruct eff; simpl; lia.
    + rewrite Hother in Hb by done. by apply (wf_slots _ Hwf b).
  - intros b s Hb. rewrite Es.
    destruct (decide (b = current_box sess)) as [->|Hne].
    + rewrite Hsec' in Hb. injection Hb as <-. exists sess0. split; [done|]. split; [done|].
      split; [done|]. simpl. intros i Hi. apply elem_of_union in Hi as [Hi|Hi]; [|by apply Hrev0].
      apply elem_of_singleton in Hi. subst i.
      apply lookup_lt_Some in Hcard.
      pose proof (gen_phrase_and_deck_cards (session_seed sess0) (current_box sess)) as [Hlen _].
      rewrite Hgen0 in Hlen. simpl in Hlen. lia.
    + rewrite <- Hd', (callback_other_secrets _ _ _ _ sess) in Hb by done.
      by apply (wf_secrets _ Hwf).
  - intros b. rewrite Eo, Es. apply (wf_owned _ Hwf).
  - rewrite Ep. apply (wf_players _ Hwf).
  - unfold submissions_unique. rewrite Esub. apply (wf_submissions _ Hwf).
  - unfold attempts_unique. rewrite Ea. apply (wf_attempts _ Hwf).
Qed.

Lemma pass_to_wf (v : pass_view) (user_id target_id : Z) (d : db) :
  well_formed d -> well_formed (PassSelect_callback v user_id target_id d).1.
Proof.
  intros Hwf. unfold PassSelect_callback. case_match; [done|].
  apply wf_alter_slot; [done|]. intros s _. simpl. lia.
Qed.

Lemma steal_wf (v : steal_view) (button : Z * Z) (user_id : Z) (d : db) :
  well_formed d -> well_formed (StealButton_callback v button user_id d).1.
Proof.
  intros Hwf. unfold StealButton_callback. destruct button as [bx ow].
  case_match; [done|]. case_match; [done|].
  apply wf_alter_slot; [by apply wf_alter_owner|]. by intros s Hs.
Qed.

Lemma donate_wf (v : donate_view) (chosen_box : option Z) (user_id target_id : Z) (d : db) :
  well_formed d -> well_formed (RecipientSelect_callback v chosen_box user_id target_id d).1.
Proof.
  intros Hwf. unfold RecipientSelect_callback. case_match; [done|].
  destruct chosen_box; [|done].
  apply wf_alter_slot; [by apply wf_alter_owner|]. by intros s Hs.
Qed.

Lemma guess_form_wf (box_id user_id : Z) (w1 w2 w3 : string) (now : Z) (d : db) :
  well_formed d -> well_formed (PuzzleModal_on_submit box_id user_id w1 w2 w3 now d).1.
Proof.
  intros Hwf.
  pose proof (attempts_unique_add box_id user_id w1 w2 w3 now d (wf_attempts _ Hwf)) as Hu.
  destruct Hwf as [H1 H2 H3 H4 H5 H6 H7]. by constructor.
Qed.

Lemma check_puzzle_wf (host : bool) (d : db) :
  well_formed d -> well_formed (check_puzzle host d).1.
Proof.
  intros Hwf. pose proof (attempts_unique_check host d (wf_attempts _ Hwf)) as Hu.
  revert Hu. unfold check_puzzle. destruct host; [|done]. cbn [negb].
  destruct (sessions d) as [sess|]; [|done].
  destruct (box_secrets d !! current_box sess) as [secret|]; [|done].
  destruct (latest_unchecked d (current_box sess)) as [a|]; [|done].
  set (d1 := with_puzzle_attempts _ d).
  assert (Hd1 : attempts_unique d1 -> well_formed d1).
  { intros Hu. destruct Hwf as [H1 H2 H3 H4 H5 H6 H7]. by constructor. }
  case_bool_decide.
  - cbn [fst]. intros Hu. apply wf_alter_slot; [by apply Hd1|]. intros s _. simpl. lia.
  - destruct (next_closest_puzzle_attempt _ _ _ _); cbn [fst]; intros Hu.
    + apply wf_alter_slot; [by apply Hd1|]. intros s _. simpl. lia.
    + by apply Hd1.
Qed.

Lemma save_prize_wf (box_id : Z) (title_in desc_in : string) (d : db) :
  well_formed d -> well_formed (PrizeModal_on_submit box_id title_in desc_in d).1.
Proof. intros Hwf. by apply (well_formed_ext d). Qed.

Lemma open_box_wf (owner : bool) (caller : Z) (tc : bool) (d : db) :
  well_formed d -> well_formed (open_box owner caller tc d).1.
Proof.
  intros Hwf.
  destruct (open_box owner caller tc d) as [d' out] eqn:Ho. cbn [fst].
  destruct out as [msg|exn|[box_id solver_id]].
  1,2: by apply open_box_rejected in Ho as ->.
  apply open_box_state in Ho as (sess & Hs & -> & Hd'). cbv zeta in Hd'.
  pose proof (wf_session _ Hwf sess Hs) as (Hseed & Hcount & Hcb & Helim).
  set (sess' := Session _ _ _ _ _) in Hd'.
  set (d0 := with_sessions _ _) in Hd'.
  assert (Hd0 : well_formed d0).
  { destruct Hwf as [H1 H2 H3 H4 H5 H6 H7]. constructor; try done.
    - intros s [= <-]. unfold session_ok, sess'. simpl.
      split; [done|]. split; [lia|]. split; [lia|].
      destruct (decide (opened_boxes_count sess + 1 >= 3)).
      + rewrite bool_decide_eq_true_2 by done. split; [lia|done].
      + rewrite bool_decide_eq_false_2 by done. rewrite Helim. lia.
    - intros b s Hb. destruct (H3 b s Hb) as (s0 & Hs0 & Hr & Hg & Hrev).
      rewrite Hs in Hs0. injection Hs0 as <-. exists sess'.
      split; [done|]. split; [simpl; lia|]. by split.
    - intros b. simpl. rewrite lookup_insert_is_Some, H4. rewrite Hs. split.
      + intros [<-|[Hne (s0 & [= <-] & Hr)]]; exists sess'; (split; [done|]); simpl; lia.
      + intros (s0 & [= <-] & Hr). simpl in Hr.
        destruct (decide (current_box sess = b)) as [?|Hne]; [by left|right].
        split; [done|]. exists sess. split; [done|]. lia. }
  subst d'. destruct (tc && _) eqn:Htc; [|done].
  apply andb_true_iff in Htc as [_ Hlt]. apply bool_decide_eq_true in Hlt.
  change (session_seed sess) with (session_seed sess').
  apply ensure_box_secret_wf; [done|done|]. simpl. lia.
Qed.

Lemma run_wf (c : command) (st : db * R) : well_formed st.1 -> well_formed (run c st).1.
Proof.
  destruct st as [d g]. cbn [fst]. intros Hwf.
  destruct c; cbn [run fst].
  - by apply lobby_wf.
  - by apply join_wf.
  - by apply lock_wf.
  - by apply wib_q_wf.
  - by apply publish_question_wf.
  - by apply answer_form_wf.
  - by apply num_wf.
  - by apply reveal_wf.
  - by apply q_order_wf.
  - by apply publish_order_wf.
  - by apply order_wf.
  - by apply press_card_wf.
  - by apply pass_to_wf.
  - by apply steal_wf.
  - by apply donate_wf.
  - by apply guess_form_wf.
  - by apply check_puzzle_wf.
  - by apply save_prize_wf.
  - by apply open_box_wf.
Qed.

Lemma empty_db_wf : well_formed empty_db.
Proof.
  constructor; try done.
  - intros b. simpl. rewrite lookup_empty. split; [by intros [? ?]|by intros (? & ? & _)].
  - apply NoDup_nil_2.
  - apply NoDup_nil_2.
Qed.

(** Whatever reaches the bot, in whatever order, the rows of a channel
    stay well formed: the current box is [min 6 (opened + 1)] and
    eliminations are unlocked exactly from three opened boxes on; every
    slot holds between 0 and 5 turns; every stored box has the phrase and
    the ten-card deck that the session seed fixes for it, with revealed
    cards among the ten; the boxes owned are those opened so far; no
    participant is ever marked eliminated; and no two answers share a box
    and user, no two attempts a box and id. *)
Theorem play_well_formed (cs : list command) (g : R) :
  well_formed (play cs (empty_db, g)).1.
Proof.
  unfold play.
  assert (Hgen : forall st, well_formed st.1 ->
                   well_formed (foldl (fun st c => run c st) st cs).1).
  { induction cs as [|c cs IH]; intros st Hst; [done|]. cbn [foldl]. by apply IH, run_wf. }
  apply Hgen. apply empty_db_wf.
Qed.

Lemma grows_refl (d : db) : grows_into d d.
Proof.
  split; [|split; [|split]]; try done.
  - intros sess Hs. by exists sess.
  - intros b s Hb. by exists s.
Qed.

Lemma grows_trans (d1 d2 d3 : db) : grows_into d1 d2 -> grows_into d2 d3 -> grows_into d1 d3.
Proof.
  intros (A1 & A2 & A3 & A4) (B1 & B2 & B3 & B4). split; [|split; [|split]].
  - intros sess Hs. destruct (A1 sess Hs) as (s2 & Hs2 & E2 & L2 & C2 & U2).
    destruct (B1 s2 Hs2) as (s3 & Hs3 & E3 & L3 & C3 & U3).
    exists s3. split; [done|]. split; [congruence|]. split; [tauto|]. split; [lia|tauto].
  - intros u Hu. by apply B2, A2.
  - intros b s Hb. destruct (A3 b s Hb) as (s2 & Hs2 & E2 & R2).
    destruct (B3 b s2 Hs2) as (s3 & Hs3 & E3 & R3).
    exists s3. split; [done|]. split; [congruence|]. set_solver.
  - intros b Hb. by apply B4, A4.
Qed.

Lemma grows_ext (d d' : db) :
  sessions d' = sessions d -> participants d' = participants d ->
  box_secrets d' = box_secrets d -> box_ownership d' = box_ownership d ->
  grows_into d d'.
Proof.
  intros E1 E2 E3 E4. unfold grows_into. rewrite E1, E2, E3, E4. apply grows_refl.
Qed.

Lemma ensure_session_grows (g : R) (d : db) : grows_into d (ensure_session g d).1.1.
Proof.
  pose proof (ensure_session_spec g d) as Hes.
  destruct (sessions d) as [sess|] eqn:Hs.
  - rewrite Hes. apply grows_refl.
  - destruct Hes as (seed & _ & ->). cbn [fst].
    split; [|split; [|split]]; try done.
    + intros sess Hsess. congruence.
    + intros b s Hb. by exists s.
Qed.

Lemma ensure_box_secret_grows (seed b : Z) (d : db) :
  grows_into d (ensure_box_secret seed b d).
Proof.
  destruct (ensure_box_secret_keeps seed b d) as (E1 & E2 & _).
  destruct (ensure_box_secret_others seed b d) as (E3 & _).
  destruct (ensure_box_secret_ready seed b d) as (Hkeep & _).
  unfold grows_into. rewrite E1, E2, E3. split; [|split; [|split]]; try done.
  - intros sess Hs. by exists sess.
  - intros bx s Hb. exists s. by split; [apply Hkeep|].
Qed.

Lemma lock_grows (host : bool) (g : R) (d : db) : grows_into d (lock host g d).1.1.
Proof.
  unfold lock. destruct host; [|apply grows_refl]. cbn [negb].
  pose proof (ensure_session_grows g d) as Hg.
  pose proof (ensure_session_spec g d) as Hes.
  assert (Hs' : sessions (ensure_session g d).1.1 = Some (ensure_session g d).2).
  { destruct (sessions d) as [sess|] eqn:Hs; [by rewrite Hes|].
    by destruct Hes as (seed & _ & ->). }
  destruct (ensure_session g d) as [[d1 g1] sess]. cbn [fst snd] in *.
  destruct (is_locked sess); [done|]. cbn [fst].
  eapply grows_trans; [exact Hg|]. eapply grows_trans; [|apply ensure_box_secret_grows].
  split; [|split; [|split]]; try done.
  - intros s0 Hs0. rewrite Hs' in Hs0. injection Hs0 as <-. by exists (lock_session sess).
  - intros b s Hb. by exists s.
Qed.

Lemma press_card_grows (user_id : Z) (idx : nat) (g : R) (d : db) :
  grows_into d (CardButton_callback user_id idx g d).1.1.
Proof.
  pose proof (callback_frame user_id idx g d) as Hfr. cbv zeta in Hfr.
  destruct Hfr as (Es & Ep & Eo & _).
  unfold grows_into. rewrite Es, Ep, Eo. split; [|split; [|split]]; try done.
  - intros sess Hs. by exists sess.
  - intros b s Hb.
    destruct (CardButton_callback user_id idx g d) as [[d' g'] out] eqn:Hcb.
    assert (Hd' : (CardButton_callback user_id idx g d).1.1 = d') by (by rewrite Hcb).
    cbn [fst]. destruct out as [msg|exn|eff].
    1,2: apply callback_rejected in Hcb as [-> _]; [by exists s|done].
    apply callback_done in Hcb
      as (sess & slot & row & card & Hs & _ & _ & _ & _ & Hsec & _ & _ & Hsec' & _).
    destruct (decide (b = current_box sess)) as [->|Hne].
    + rewrite Hsec in Hb. injection Hb as <-. eexists. split; [exact Hsec'|].
      split; [done|]. simpl. set_solver.
    + exists s. rewrite <- Hd', (callback_other_secrets _ _ _ _ sess) by done. by split.
Qed.

Lemma open_box_grows (owner : bool) (caller : Z) (tc : bool) (d : db) :
  grows_into d (open_box owner caller tc d).1.
Proof.
  destruct (open_box owner caller tc d) as [d' out] eqn:Ho. cbn [fst].
  destruct out as [msg|exn|[box_id solver_id]].
  1,2: apply open_box_rejected in Ho as ->; [apply grows_refl|done].
  apply open_box_state in Ho as (sess & Hs & -> & Hd'). cbv zeta in Hd'.
  set (d0 := with_sessions _ _) in Hd'.
  assert (Hd0 : grows_into d d0).
  { split; [|split; [|split]]; try done.
    - intros s0 Hs0. rewrite Hs in Hs0. injection Hs0 as <-. eexists. split; [done|].
      simpl. split; [done|]. split; [done|]. split; [lia|].
      intros ->. by destruct (bool_decide (opened_boxes_count sess + 1 >= 3)).
    - intros b s Hb. by exists s.
    - intros b Hb. simpl. apply lookup_insert_is_Some.
      destruct (decide (current_box sess = b)); [by left|by right]. }
  subst d'. destruct (tc && _); [|done].
  eapply grows_trans; [exact Hd0|apply ensure_box_secret_grows].
Qed.

Lemma run_grows (c : command) (d : db) (g : R) : grows_into d (run c (d, g)).1.
Proof.
  destruct c; cbn [run fst].
  - unfold lobby. destruct host; [|apply grows_refl]. cbn [negb].
    pose proof (ensure_session_grows g d) as Hg.
    destruct (ensure_session g d) as [[d1 g1] sess]. by destruct (is_locked sess).
  - unfold JoinView_join_button. repeat case_match; try apply grows_refl.
    split; [|split; [|split]]; try done.
    + intros sess0 Hs0. by exists sess0.
    + intros u0 Hu. simpl. apply lookup_insert_is_Some.
      destruct (decide (user_id = u0)); [by left|by right].
    + intros bx sx Hb. by exists sx.
  - apply lock_grows.
  - unfold wib_q. destruct host; [|apply grows_refl]. cbn [negb].
    pose proof (ensure_session_grows g d) as Hg.
    destruct (ensure_session g d) as [[d1 g1] sess]. destruct (is_locked sess); [|done].
    cbn [negb]. destruct (randint 0 9999 g1). by destruct (gen_numeric_question _ _ _).
  - unfold wib_q_on_publish. case_match; [apply grows_refl|]. by apply grows_ext.
  - unfold NumericAnswerModal_on_submit. repeat case_match; try apply grows_refl.
    by apply grows_ext.
  - unfold num. repeat case_match; try apply grows_refl. by apply grows_ext.
  - unfold reveal. repeat case_match; try apply grows_refl; by apply grows_ext.
  - unfold q_order. repeat case_match; apply grows_refl.
  - unfold q_order_on_publish. case_match; [apply grows_refl|]. by apply grows_ext.
  - unfold order. cbv zeta. repeat case_match; try apply grows_refl. by apply grows_ext.
  - apply press_card_grows.
  - unfold PassSelect_callback. case_match; [apply grows_refl|]. by apply grows_ext.
  - unfold StealButton_callback. destruct button as [box_to_steal owner_id].
    repeat case_match; try apply grows_refl.
    split; [|split; [|split]]; try done.
    + intros sess0 Hs0. by exists sess0.
    + intros bx sx Hb. by exists sx.
    + intros bx'. simpl. by rewrite lookup_alter_is_Some.
  - unfold RecipientSelect_callback. repeat case_match; try apply grows_refl.
    split; [|split; [|split]]; try done.
    + intros sess0 Hs0. by exists sess0.
    + intros bx sx Hb. by exists sx.
    + intros bx'. simpl. by rewrite lookup_alter_is_Some.
  - by apply grows_ext.
  - unfold check_puzzle. repeat case_match; try apply grows_refl; by apply grows_ext.
  - by apply grows_ext.
  - apply open_box_grows.
Qed.

(** Nothing that reaches the bot takes back what the game has fixed:
    through any sequence of interactions the session keeps its seed,
    stays locked once locked, never counts fewer opened boxes and keeps
    eliminations unlocked; players stay registered; a stored box keeps its
    phrase and its deck, and a revealed card stays revealed; and a box
    that has an owner always has one. *)
Theorem play_grows (cs : list command) (d : db) (g : R) :
  grows_into d (play cs (d, g)).1.
Proof.
  unfold play. revert d g. induction cs as [|c cs IH]; intros d g; [apply grows_refl|].
  cbn [foldl]. pose proof (run_grows c d g) as Hstep.
  destruct (run c (d, g)) as [d1 g1]. cbn [fst] in Hstep.
  apply (grows_trans d d1); [exact Hstep|apply IH].
Qed.

End GameFacts.

(** ** The further properties on the example sessions *)

(** The short game runs: the closer of the two answers takes the slot of
    box 1, with no turns yet. *)
Example demo_game_slot :
  slot_state (play (R:=list nat) demo_game (empty_db, [5%nat])).1 !! 1 =
    Some (Slot (Some 102) 0 None).
Proof. vm_compute. reflexivity. Qed.

Lemma answers_stay_unique_witness :
  submissions_unique (num 103 47 5 open_round_db).1 /\
  submissions_unique (NumericAnswerModal_on_submit 1 103 " 47 " 5 open_round_db).1.
Proof.
  apply (answers_stay_unique 1 103 47 5 " 47 " open_round_db).
  apply (bool_decide_unpack _). vm_compute. exact I.
Defined.

Lemma first_answer_counts_witness :
  num 103 50 9 (num 103 47 5 open_round_db).1 =
    ((num 103 47 5 open_round_db).1, Reply "Your submission is already recorded.") /\
  NumericAnswerModal_on_submit 1 103 "50" 9 (num 103 47 5 open_round_db).1 =
    ((num 103 47 5 open_round_db).1, Reply "Your submission is already recorded.").
Proof.
  assert (Hnum : num 103 47 5 open_round_db = ((num 103 47 5 open_round_db).1, Done ()))
    by (vm_compute; reflexivity).
  destruct (first_answer_counts 103 47 5 open_round_db _ Hnum) as [Hagain Hform].
  split; [apply Hagain|].
  apply (Hform (Session 123456 true 1 0 false) "50" 9); [reflexivity|].
  vm_compute. by eexists.
Defined.

Lemma publish_clears_answers_witness :
  box_submissions (wib_q_on_publish 1 1 1 "Q" 7 trivia_db).1 1 = [] /\
  (reveal true (wib_q_on_publish 1 1 1 "Q" 7 trivia_db).1).2 =
    Reply "No submissions. No slot assigned.".
Proof.
  destruct (publish_clears_answers 1 1 "Q" 7 trivia_db (Session 123456 true 1 0 false)
              eq_refl eq_refl eq_refl) as (_ & Hnone & _ & Hreveal & _).
  exact (conj Hnone Hreveal).
Defined.

Lemma lock_is_one_way_witness :
  session_locked (lock (R:=list nat) true [] lobby_db).1.1 = true /\
  JoinView_join_button 103 "C" (lock (R:=list nat) true [] lobby_db).1.1 =
    ((lock (R:=list nat) true [] lobby_db).1.1, Reply "Entries are locked.").
Proof.
  assert (Hlock : lock (R:=list nat) true [] lobby_db =
                    ((lock (R:=list nat) true [] lobby_db).1.1, [], Done 2))
    by (vm_compute; reflexivity).
  destruct (lock_is_one_way (R:=list nat) [] [] lobby_db _ 2 Hlock) as (Hl & Hjoin & _).
  split; [exact Hl|apply Hjoin].
Defined.

Lemma lock_prepares_box_one_witness :
  exists row,
    box_secrets (lock (R:=list nat) true [] lobby_db).1.1 !! 1 = Some row /\
    length (deck row) = 10%nat /\ revealed row = ∅.
Proof.
  assert (Hlock : lock (R:=list nat) true [] lobby_db =
                    ((lock (R:=list nat) true [] lobby_db).1.1, [], Done 2))
    by (vm_compute; reflexivity).
  destruct (lock_prepares_box_one (R:=list nat) [] [] lobby_db _ 2 Hlock eq_refl)
    as (_ & row & Hrow & Hlen & Hrev & _).
  exists row. exact (conj Hrow (conj Hlen Hrev)).
Defined.

Lemma wib_q_creates_session_witness :
  exists seed,
    100000 <= seed <= 999999 /\
    wib_q (R:=list nat) true [5%nat] empty_db =
      (with_sessions (Some (Session seed false 1 0 false)) empty_db,
       (randint 100000 999999 [5%nat]).2, Reply "Lock entries first.").
Proof. apply (wib_q_creates_session (R:=list nat) [5%nat] empty_db). reflexivity. Defined.

Lemma join_registers_witness :
  is_registered (JoinView_join_button 103 "C" lobby_db).1 103 = true /\
  JoinView_join_button 103 "C" (JoinView_join_button 103 "C" lobby_db).1 =
    ((JoinView_join_button 103 "C" lobby_db).1, Done ()).
Proof.
  destruct (join_registers 103 "C" lobby_db (Session 123456 false 1 0 false) eq_refl eq_refl)
    as (Hreg & _ & Hagain).
  exact (conj Hreg Hagain).
Defined.

Lemma answer_key_earns_five_witness :
  demo_order.2 = [3; 2; 1; 4; 0] /\
  (order 7 "D" "C" "B" "E" "A"
     (q_order_on_publish 1 1 1 7 demo_order.1.1 demo_order.1.2 demo_order.2 order_db).1).2 =
    Done 5.
Proof.
  split; [vm_compute; reflexivity|].
  assert (Hgen : gen_order_question (R:=list nat) 100 123457 1 =
                   Some (demo_order.1.1, demo_order.1.2, demo_order.2))
    by (vm_compute; reflexivity).
  destruct (answer_key_earns_five (R:=list nat) 100 123457 1
              demo_order.1.1 demo_order.1.2 demo_order.2 1 7 "D" "C" "B" "E" "A"
              order_db (Session 123456 true 1 0 false) Hgen eq_refl eq_refl eq_refl
              ltac:(vm_compute; reflexivity)) as (Hfive & _).
  exact Hfive.
Defined.

Lemma order_question_key_sorts_witness :
  exists values,
    length values = 5%nat /\ NoDup values /\ Forall (fun v => 10 <= v <= 99) values /\
    demo_order.1.2 = zip_with item_text [0; 1; 2; 3; 4] values /\
    demo_order.2 ≡ₚ [0; 1; 2; 3; 4] /\
    StronglySorted Z.lt ((fun i => values !!! Z.to_nat i) <$> demo_order.2).
Proof.
  apply (order_question_key_sorts (R:=list nat) 100 123457 1 demo_order.1.1).
  vm_compute. reflexivity.
Defined.

Lemma card_revealed_once_witness :
  exists msg,
    CardButton_callback (R:=list nat) 8 1 [] (CardButton_callback (R:=list nat) 7 1 [] wildcard_db).1.1 =
      ((CardButton_callback (R:=list nat) 7 1 [] wildcard_db).1.1, [], Reply msg).
Proof.
  apply (card_revealed_once (R:=list nat) 7 8 1 [] [] [] wildcard_db _
           (PieceRevealed "SILVER" 2)).
  vm_compute. reflexivity.
Defined.

Lemma special_card_blocks_reveals_witness :
  pending_action <$>
    slot_state (CardButton_callback (R:=list nat) 7 4 [] wildcard_db).1.1 !! 6 = Some (Some PASS) /\
  exists msg,
    CardButton_callback (R:=list nat) 7 1 [] (CardButton_callback (R:=list nat) 7 4 [] wildcard_db).1.1 =
      ((CardButton_callback (R:=list nat) 7 4 [] wildcard_db).1.1, [], Reply msg).
Proof.
  apply (special_card_blocks_reveals (R:=list nat) 7 7 4 1 [] [] [] wildcard_db _
           (SpecialRevealed PASS) PASS (Session 123456 true 6 5 true)).
  - vm_compute. reflexivity.
  - by left.
  - reflexivity.
Defined.

Lemma pass_hands_over_witness :
  slot_state (PassSelect_callback (PassView 6 7 [8; 9]) 7 9 (pending_db PASS)).1 !! 6 =
    Some (Slot (Some 9) 0 None) /\
  PassSelect_callback (PassView 6 7 [8; 9]) 8 9 (pending_db PASS) =
    (pending_db PASS, Reply "Only the slot holder can choose.").
Proof.
  destruct (pass_hands_over (R:=list nat) (pending_db PASS) (PassView 6 7 [8; 9]) 9
              ltac:(vm_compute; reflexivity) ltac:(apply (bool_decide_unpack _); vm_compute; exact I))
    as (_ & _ & _ & Hslot & Hother & _).
  split; [exact Hslot|]. apply Hother. vm_compute. discriminate.
Defined.

Lemma steal_moves_one_box_witness :
  box_ownership
    (StealButton_callback (StealView 6 7 [(1, 7); (2, 8); (3, 7); (4, 9); (5, 8)]) (2, 8) 7
       (pending_db STEAL)).1 !! 2 = Some 7 /\
  StealButton_callback (StealView 6 7 [(1, 7); (2, 8); (3, 7); (4, 9); (5, 8)]) (1, 7) 7
    (pending_db STEAL) = (pending_db STEAL, Reply "You already own that box.").
Proof.
  split.
  - destruct (steal_moves_one_box (pending_db STEAL)
                (StealView 6 7 [(1, 7); (2, 8); (3, 7); (4, 9); (5, 8)]) 2 8
                ltac:(vm_compute; reflexivity)
                ltac:(apply (bool_decide_unpack _); vm_compute; exact I))
      as (_ & _ & _ & Hsteal & _).
    destruct Hsteal as (_ & Hown & _); [vm_compute; discriminate|exact Hown].
  - vm_compute. reflexivity.
Defined.

Lemma donate_gives_one_box_witness :
  box_ownership
    (RecipientSelect_callback (DonateView 6 7 [1; 3] [8; 9]) (Some 3) 7 9
       (pending_db DONATE)).1 !! 3 = Some 9 /\
  RecipientSelect_callback (DonateView 6 7 [1; 3] [8; 9]) None 7 9 (pending_db DONATE) =
    (pending_db DONATE, Reply "Select a box first.").
Proof.
  destruct (donate_gives_one_box (pending_db DONATE) (DonateView 6 7 [1; 3] [8; 9]) 3 9
              ltac:(vm_compute; reflexivity)
              ltac:(apply (bool_decide_unpack _); vm_compute; exact I)
              ltac:(apply (bool_decide_unpack _); vm_compute; exact I))
    as (_ & _ & _ & _ & _ & _ & Hfirst & Hown & _).
  exact (conj Hown Hfirst).
Defined.

Lemma attempt_ids_stay_unique_witness :
  attempts_unique (PuzzleModal_on_submit 1 8 "silver" "cold" "horizon" 11 rotation_db).1 /\
  attempts_unique (check_puzzle true rotation_db).1.
Proof.
  apply (attempt_ids_stay_unique 1 8 "silver" "cold" "horizon" 11 true rotation_db).
  apply (bool_decide_unpack _). vm_compute. exact I.
Defined.

Lemma checks_run_out_witness :
  check_puzzle true (check_times 4 rotation_db) =
    (check_times 4 rotation_db, Reply "No pending puzzle attempts.").
Proof.
  destruct (checks_run_out rotation_db (Session 123456 true 1 0 false)
              (BoxSecret "SILVER" "COLD" "HORIZON" [piece W1; piece W2; piece W3] ∅)
              eq_refl eq_refl) as [_ Hend].
  exact Hend.
Defined.

Lemma right_guess_wins_box_witness :
  (check_puzzle true (submit_puzzle_guess 1 7 " silver" "Cold!" "horizon " 3 puzzle_db).1).2 =
    Done Solved /\
  (open_box (R:=list nat) true 1 true
     (PrizeModal_on_submit 1 " Gift card " ""
        (check_puzzle true
           (submit_puzzle_guess 1 7 " silver" "Cold!" "horizon " 3 puzzle_db).1).1).1).2 =
    Done (1, 7).
Proof.
  destruct (right_guess_wins_box (R:=list nat) puzzle_db (Session 123456 true 1 0 false)
              (BoxSecret "SILVER" "COLD" "HORIZON" [piece W1; piece W2; piece W3] ∅)
              (Slot (Some 7) 2 None) 7 3 1 " silver" "Cold!" "horizon " " Gift card " "" true
              eq_refl eq_refl eq_refl eq_refl ltac:(vm_compute; reflexivity)
              ltac:(vm_compute; discriminate))
    as (Hsolved & Hopen & _).
  exact (conj Hsolved Hopen).
Defined.

Lemma open_box_moves_on_witness :
  exists sess',
    sessions (open_box (R:=list nat) true 1 true solved_db).1 = Some sess' /\
    session_seed sess' = 123456 /\ current_box sess' = 3 /\
    is_Some (box_secrets (open_box (R:=list nat) true 1 true solved_db).1 !! 3).
Proof.
  assert (Hopen : open_box (R:=list nat) true 1 true solved_db =
                    ((open_box (R:=list nat) true 1 true solved_db).1, Done (2, 9)))
    by (vm_compute; reflexivity).
  destruct (open_box_moves_on (R:=list nat) true 1 true solved_db
              (open_box (R:=list nat) true 1 true solved_db).1 2 9 Hopen)
    as (_ & sess & sess' & Hs & Hs' & Hseed & _ & _ & Hnext).
  injection Hs as <-. destruct (Hnext eq_refl ltac:(lia)) as (Hcb & Hsec & _).
  exists sess'. split; [exact Hs'|]. split; [exact Hseed|]. split; [exact Hcb|exact Hsec].
Defined.

Lemma blank_title_keeps_box_closed_witness :
  (open_box (R:=list nat) true 1 true (PrizeModal_on_submit 2 "   " "A prize" solved_db).1).2 =
    Reply "Fill Prize".
Proof.
  destruct (blank_title_keeps_box_closed (R:=list nat) true 1 true solved_db
              (Session 123456 true 2 1 false) "   " "A prize" eq_refl
              ltac:(vm_compute; reflexivity)) as (_ & _ & Hform).
  apply Hform; [reflexivity|]. vm_compute. discriminate.
Defined.

Lemma elim_eligible_lists_witness :
  NoDup [7; 8] /\
  forall u, u ∈ [7; 8] ->
    exists p, participants wildcard_db !! u = Some p /\ eliminated p = false /\
              forall b, box_ownership wildcard_db !! b <> Some u.
Proof.
  destruct (elim_eligible_lists true wildcard_db [7; 8] ltac:(vm_compute; reflexivity))
    as (_ & _ & _ & _ & Hnd & Hin & _).
  exact (conj Hnd Hin).
Defined.
